(** * zbx-hpmsa: session-key cache and component extraction

    A shallow embedding of [zbx-hpmsa.py] (the Zabbix helper that polls an
    HP MSA storage array through its XML API) and the statements of its
    specification settled against it.

    Layout of the development:
    - [Py]: the pieces of the Python runtime the script leans on (strings,
      insertion-ordered dictionaries, exceptions);
    - [ElementTree]: parsed XML and the ElementPath subset of the script;
    - the outside world (sqlite cache file, clock, device, stdout) and the
      monad [py] that threads it;
    - the functions of the script that hold the session key and read the
      components ([sql_cmd], [get_skey], [query_xmlapi], [make_lld],
      [get_full_json], [expand_dict]), in source order and under their
      names; the installation, the display of the cache and the parsing
      of the command line are not part of it;
    - [make_cred_hash] and the two query commands of the main block, with
      what is said of the script beyond its specification;
    - the vocabulary of the statements and a sample array to run on;
    - the theorems. *)

From Stdlib Require Import String Ascii List ZArith Lia Bool DecimalString.
Import ListNotations.
Open Scope string_scope.

Set Warnings "-register-all".

(* ================================================================== *)
(** ** Python runtime *)
(* ================================================================== *)

Module Py.

(** The double-quote character, for the SQL texts and messages that
    carry one. *)
Definition dq : string := String (ascii_of_nat 34) EmptyString.

(** [str(x)] for a value that is a string or [None]. *)
Definition str (x : option string) : string :=
  match x with
  | Some s => s
  | None => "None"
  end.

(** [x == lit] for a value that is a string or [None]. *)
Definition eq_str (x : option string) (lit : string) : bool :=
  match x with
  | Some s => String.eqb s lit
  | None => false
  end.

Definition eqb_opt (x y : option string) : bool :=
  match x, y with
  | Some a, Some b => String.eqb a b
  | None, None => true
  | _, _ => false
  end.

(** [s.startswith(p)]. *)
Definition startswith (s p : string) : bool := String.prefix p s.

(** [s.find(sub)]: the least index where [sub] occurs, or [-1]. *)
Fixpoint find (s sub : string) : Z :=
  if String.prefix sub s then 0%Z
  else
    match s with
    | EmptyString => (-1)%Z
    | String _ rest =>
        let i := find rest sub in
        if (i =? -1)%Z then (-1)%Z else (i + 1)%Z
    end.

(** [sub in s]. *)
Definition contains (s sub : string) : bool := negb (find s sub =? -1)%Z.

(** [s.lower()], on the ASCII letters; the other bytes are kept. *)
Definition lower_ascii (c : ascii) : ascii :=
  let n := nat_of_ascii c in
  if (65 <=? n)%nat && (n <=? 90)%nat then ascii_of_nat (n + 32) else c.

Fixpoint lower (s : string) : string :=
  match s with
  | EmptyString => EmptyString
  | String c rest => String (lower_ascii c) (lower rest)
  end.

(** [s.rstrip(chars)] for a one-character set. *)
Fixpoint rstrip (s : string) (c : ascii) : string :=
  match s with
  | EmptyString => EmptyString
  | String a rest =>
      match rstrip rest c with
      | EmptyString => if Ascii.eqb a c then EmptyString else String a EmptyString
      | r => String a r
      end
  end.

(** The exceptions the script raises or lets through. *)
Inductive exn : Type :=
| SystemExit (msg : string)
| AttributeError (msg : string)
| KeyError (key : option string)
| ParseError
| ReadTimeout
| IntegrityError (msg : string)
| DatabaseError (msg : string)
| ProgrammingError (msg : string).

Definition is_AttributeError (e : exn) : bool :=
  match e with AttributeError _ => true | _ => false end.

(** A computation that returns or raises. *)
Inductive result (A : Type) : Type :=
| Return (a : A)
| Raise (e : exn).
Arguments Return {A} a.
Arguments Raise {A} e.

Definition rbind {A B} (c : result A) (k : A -> result B) : result B :=
  match c with
  | Return a => k a
  | Raise e => Raise e
  end.

(** [try: c / except AttributeError: handler]. *)
Definition except_AttributeError {A} (c handler : result A) : result A :=
  match c with
  | Raise e => if is_AttributeError e then handler else Raise e
  | Return a => Return a
  end.

(** [for x in xs: body], the loop body updating the accumulated state. *)
Fixpoint for_each {A S} (xs : list A) (body : A -> S -> result S) (s : S)
  : result S :=
  match xs with
  | [] => Return s
  | x :: rest => rbind (body x s) (for_each rest body)
  end.

(** *** Dictionaries

    A [dict] keeps its keys in insertion order; assigning to a key that
    is already there keeps the key's place. *)
Section Dict.
Context {K V : Type} (eqb : K -> K -> bool).

Definition dict : Type := list (K * V).

Fixpoint get (d : dict) (k : K) : option V :=
  match d with
  | [] => None
  | (k', v) :: rest => if eqb k' k then Some v else get rest k
  end.

Fixpoint setitem (d : dict) (k : K) (v : V) : dict :=
  match d with
  | [] => [(k, v)]
  | (k', v') :: rest =>
      if eqb k' k then (k', v) :: rest else (k', v') :: setitem rest k v
  end.

Definition keys (d : dict) : list K := map fst d.
End Dict.

End Py.

Import Py.

(** Metric and macro dictionaries are keyed by strings, the per-instance
    dictionaries by a property text, which may be [None]. *)
Definition sget {V} : list (string * V) -> string -> option V := Py.get String.eqb.
Definition sset {V} : list (string * V) -> string -> V -> list (string * V) :=
  Py.setitem String.eqb.
Definition oset {V}
  : list (option string * V) -> option string -> V -> list (option string * V) :=
  Py.setitem Py.eqb_opt.
Definition oget {V} : list (option string * V) -> option string -> option V :=
  Py.get Py.eqb_opt.

(** [d[k]] on a string-keyed dictionary. *)
Definition getitem {V} (d : list (string * V)) (k : string) : result V :=
  match sget d k with
  | Some v => Return v
  | None => Raise (KeyError (Some k))
  end.

(* ================================================================== *)
(** ** xml.etree.ElementTree *)
(* ================================================================== *)

Module ElementTree.

Inductive element : Type :=
| Element (tag : string) (attrib : list (string * string))
          (text : option string) (children : list element).

Definition tag (e : element) : string :=
  match e with Element t _ _ _ => t end.
Definition attrib (e : element) : list (string * string) :=
  match e with Element _ a _ _ => a end.
Definition text (e : element) : option string :=
  match e with Element _ _ x _ => x end.
Definition children (e : element) : list element :=
  match e with Element _ _ _ c => c end.

(** One step [TAG[@key='value']] of a path.  Every path of the script is
    relative to the element it is called on and made of such steps
    ([./A[..]/B[..]]; the two paths written [.PROPERTY[..]], without the
    slash, tokenize to the same steps). *)
Record step : Type := Step { step_tag : string; step_key : string; step_value : string }.

Definition path : Type := list step.

(** [elem.get(key)]. *)
Definition get (e : element) (key : string) : option string := sget (attrib e) key.

(** The element has the tag of the step, and [elem.get(key) == value]. *)
Definition matches (s : step) (e : element) : bool :=
  String.eqb (tag e) (step_tag s)
  && match get e (step_key s) with
     | Some v => String.eqb v (step_value s)
     | None => false
     end.

Definition select (s : step) (e : element) : list element :=
  filter (matches s) (children e).

Fixpoint iterfind (p : path) (context : list element) : list element :=
  match p with
  | [] => context
  | s :: rest => iterfind rest (flat_map (select s) context)
  end.

(** [elem.findall(path)]: every match, in document order. *)
Definition findall (e : element) (p : path) : list element := iterfind p [e].

(** [elem.find(path)]: the first match or [None]. *)
Definition find (e : element) (p : path) : option element := hd_error (findall e p).

(** [OBJECT[@name='n']], [PROPERTY[@name='n']], [OBJECT[@basetype='b']]. *)
Definition OBJECT (n : string) : step := Step "OBJECT" "name" n.
Definition PROPERTY (n : string) : step := Step "PROPERTY" "name" n.
Definition OBJECT_basetype (b : string) : step := Step "OBJECT" "basetype" b.

(** [x.text] where [x] came out of [find]: on [None] the attribute access
    raises. *)
Definition text_of (x : option element) : result (option string) :=
  match x with
  | Some e => Return (text e)
  | None => Raise (AttributeError "'NoneType' object has no attribute 'text'")
  end.

End ElementTree.

Import ElementTree.

(* ================================================================== *)
(** ** The outside world *)
(* ================================================================== *)

(** *** The cache file

    One table, [skey_cache (dns_name, ip, proto, expired, skey)], with
    primary key [(dns_name, ip, proto)].  The column [expired] holds the
    text of a float timestamp written by the script and read back with
    [float()]; it is kept here as the timestamp itself, in microseconds
    (the resolution of [datetime]). *)
Record row : Type := Row {
  dns_name : string;
  ip : string;
  proto : string;
  expired : Z;
  skey : string
}.

(** The cache file as sqlite sees it:
    - [connect_error]: [sqlite3.connect] raises [OperationalError] (the
      file cannot be opened);
    - [database_error]: the file is no database, or a damaged one, and
      every statement raises [DatabaseError], which is no
      [OperationalError];
    - [execute_error]: every statement raises [OperationalError] for a
      reason of the engine's own (a locked file);
    - [commit_error]: [conn.commit()] raises [OperationalError] after a
      statement that writes (a lock that others hold), and what was
      written is rolled back;
    - the table, if it was created. *)
Record database : Type := Database {
  connect_error : option string;
  database_error : option string;
  execute_error : option string;
  commit_error : option string;
  table : option (list row)
}.

(** The statements the script sends, one constructor per statement of the
    source, with the values it formats into the text. *)
Inductive query : Type :=
| Q_create_table
| Q_select_expired_skey_http (ip : string)
| Q_select_expired_skey_https (dns ip : string)
| Q_select_ip_http (ip : string)
| Q_select_name_ip_https (dns ip : string)
| Q_insert (dns ip proto : string) (time : Z) (skey : string)
| Q_update_http (skey : string) (expired : Z) (ip : string)
| Q_update_https (skey : string) (expired : Z) (name ip : string)
| Q_select_all
| Q_delete_all.

(** What [execute] does with a statement: the rows selected and the
    table after it, or one of the errors of [sqlite3]:
    [OperationalError], [IntegrityError], [DatabaseError] (the file is
    no database) or [ProgrammingError] (the text is refused before it is
    run: more than one statement, a NUL character). *)
Inductive executed : Type :=
| Rows (selected : list row) (table' : list row)
| OperationalError (msg : string)
| ConstraintError (msg : string)
| Damaged (msg : string)
| Refused (msg : string).

(** The script formats every value into its statement between double
    quotes.  SQLite reads such a token as a name first: where the columns
    of the table are in scope (a [WHERE] or a [SET]) and the text is the
    name of a column, in any letter case, the token is that column of the
    row at hand; only a text that names nothing is taken for the string it
    is.  The four columns that hold a text as it was written are read so
    here. *)
Definition column (r : row) (v : string) : option string :=
  let n := lower v in
  if String.eqb n "dns_name" then Some (dns_name r)
  else if String.eqb n "ip" then Some (ip r)
  else if String.eqb n "proto" then Some (proto r)
  else if String.eqb n "skey" then Some (skey r)
  else None.

(** The value of the token for [v] on the row [r]. *)
Definition term (r : row) (v : string) : string :=
  match column r v with
  | Some c => c
  | None => v
  end.

(** A text is [readable] when the engine reads its token as said above:
    it holds no double quote and no NUL character, so that the token
    ends where the script means it to, and it is not the name of the
    column [expired] (kept here as a number) nor one of the names of the
    row id ([rowid], [oid], [_rowid_]).  In the [VALUES] of an [INSERT] no
    column is in scope, and [quotable] is enough. *)
Definition NUL : string := String (ascii_of_nat 0) EmptyString.

Definition quotable (v : string) : bool :=
  negb (contains v dq) && negb (contains v NUL).

Definition readable (v : string) : bool :=
  quotable v
  && negb (existsb (String.eqb (lower v)) ["expired"; "rowid"; "oid"; "_rowid_"]).

(** A text that SQLite takes for the string it is, wherever it stands. *)
Definition plain (v : string) : bool :=
  readable v
  && negb (existsb (String.eqb (lower v)) ["dns_name"; "ip"; "proto"; "skey"]).

(** The texts the script formats into a statement, the time apart (the
    text Python prints for a float holds no quote and names nothing). *)
Definition values (q : query) : list string :=
  match q with
  | Q_select_expired_skey_http i | Q_select_ip_http i => [i]
  | Q_select_expired_skey_https d i | Q_select_name_ip_https d i => [d; i]
  | Q_insert d i p _ k => [d; i; p; k]
  | Q_update_http k _ i => [k; i]
  | Q_update_https k _ d i => [k; d; i]
  | Q_create_table | Q_select_all | Q_delete_all => []
  end.

(** A statement that writes carries the session key, a text of the
    array's choosing.  It is run by meaning when its texts are read as
    said; if not, the statement the engine sees is not the one the script
    means (a key with a double quote ends the string early: a syntax
    error, or another statement), and what comes of it is the engine's to
    say (see [engine] below).  The texts of the [SELECT] statements are
    the address and the name of the endpoint, which the main block makes
    of the command line: an address of digits and points, and a name that
    is this address or that [gethostbyname] has resolved.  These
    statements are run by meaning, with the names of the four text columns
    read as columns; a host named like the column [expired] or like the
    row id is not [readable], and the theorems on the entry a lookup finds
    leave it out. *)
Definition reads_as_meant (q : query) : bool :=
  match q with
  | Q_insert _ _ _ _ _ => forallb quotable (values q)
  | Q_update_http _ _ _ | Q_update_https _ _ _ _ => forallb readable (values q)
  | _ => true
  end.

(** [WHERE ip="i" AND proto="http"] and
    [WHERE dns_name="d" AND ip="i" AND proto="https"] on a row. *)
Definition http_key (i : string) (r : row) : bool :=
  String.eqb (ip r) (term r i) && String.eqb (proto r) "http".

Definition https_key (d i : string) (r : row) : bool :=
  String.eqb (dns_name r) (term r d) && String.eqb (ip r) (term r i)
  && String.eqb (proto r) "https".

Definition primary_key (d i p : string) (r : row) : bool :=
  String.eqb (dns_name r) d && String.eqb (ip r) i && String.eqb (proto r) p.

Definition set_session (k : string) (e : Z) (r : row) : row :=
  Row (dns_name r) (ip r) (proto r) e k.

(** [SET skey="k", expired="e"] on the rows selected; the time is the
    text of a float, which names nothing. *)
Definition update_where (sel : row -> bool) (k : string) (e : Z) (t : list row)
  : list row :=
  map (fun r => if sel r then set_session (term r k) e r else r) t.

(** The statement run on the rows of the table. *)
Definition run_query (q : query) (t : list row) : executed :=
  match q with
  | Q_create_table => Rows [] t
  | Q_select_expired_skey_http i => Rows (filter (http_key i) t) t
  | Q_select_expired_skey_https d i => Rows (filter (https_key d i) t) t
  | Q_select_ip_http i => Rows (filter (http_key i) t) t
  | Q_select_name_ip_https d i => Rows (filter (https_key d i) t) t
  | Q_insert d i p e k =>
      if existsb (primary_key d i p) t
      then ConstraintError
             "UNIQUE constraint failed: skey_cache.dns_name, skey_cache.ip, skey_cache.proto"
      else Rows [] (t ++ [Row d i p e k])
  | Q_update_http k e i => Rows [] (update_where (http_key i) k e t)
  | Q_update_https k e d i => Rows [] (update_where (https_key d i) k e t)
  | Q_select_all => Rows t t
  | Q_delete_all => Rows [] []
  end.

(** A statement that reads as meant, on the file: the engine reads the
    file before it looks for the table. *)
Definition on_file (q : query) (d : database) : executed :=
  match database_error d with
  | Some e => Damaged e
  | None =>
      match execute_error d with
      | Some e => OperationalError e
      | None =>
          match table d, q with
          | None, Q_create_table => Rows [] []
          | None, _ => OperationalError "no such table: skey_cache"
          | Some t, _ => run_query q t
          end
      end
  end.

(** The statements that open a transaction, which [conn.commit()] ends. *)
Definition writes (q : query) : bool :=
  match q with
  | Q_insert _ _ _ _ _ | Q_update_http _ _ _ | Q_update_https _ _ _ _
  | Q_delete_all => true
  | _ => false
  end.

(** *** The device *)

Inductive verify_mode : Type :=
| verify_default
| verify_ca (ca_file : string)
| verify_off.

(** One [requests.get]. *)
Record request : Type := Request {
  full_url : string;
  headers : list (string * option string);
  verify : verify_mode;
  timeout : nat * nat
}.

Inductive reply : Type :=
| SSLError
| ConnectTimeout
| ConnectionError (e : string)
| ReadTimedOut
| Response (body : string) (parsed : option element).

(** *** Everything the script does not own

    - [naive_utc n]: the [n]-th reading of [datetime.utcnow()], a datetime
      without a zone, in microseconds;
    - [timestamp t]: [datetime.timestamp] of such a datetime, which reads
      it in the zone of the host, in microseconds;
    - [device log r]: what the array answers to [r] after the requests in
      [log];
    - [engine text d]: what SQLite makes of the statement [text] on the
      file [d], for a statement that does not read as the script means
      it;
    - [str_float]: the text Python prints for a float timestamp (digits,
      a point, an exponent: no quote and no name of a column);
    - [write_denied]: the files that cannot be opened for writing. *)
Record environment : Type := Environment {
  naive_utc : nat -> Z;
  timestamp : Z -> Z;
  device : list request -> request -> reply;
  engine : string -> database -> executed;
  str_float : Z -> string;
  write_denied : string -> bool
}.

(** [datetime.timestamp(datetime.utcnow())] at the [n]-th reading. *)
Definition utc_clock (env : environment) (n : nat) : Z :=
  timestamp env (naive_utc env n).

(** What a run changes: the cache file, how often the clock was read, the
    requests sent (latest first), the lines printed (latest first) and the
    files written. *)
Record world : Type := World {
  db : database;
  clock_reads : nat;
  sent : list request;
  stdout : list string;
  files : list (string * string)
}.

(** The global variables set once from the command line ([SAVE_XML] is the
    one file name of its one-element list). *)
Record config : Type := Config {
  API_VERSION : Z;
  CACHE_DB : string;
  SAVE_XML : option string;
  USE_SSL : bool;
  VERIFY_SSL : bool;
  MSA_USERNAME : string
}.

(** A statement of the script: it returns or raises, and changes the
    world. *)
Definition py (A : Type) : Type := world -> result A * world.

Definition ret {A} (a : A) : py A := fun w => (Return a, w).

Definition raise {A} (e : exn) : py A := fun w => (Raise e, w).

Definition bind {A B} (c : py A) (k : A -> py B) : py B :=
  fun w =>
    match c w with
    | (Return a, w') => k a w'
    | (Raise e, w') => (Raise e, w')
    end.

(** A pure computation inside a statement. *)
Definition lift {A} (r : result A) : py A := fun w => (r, w).

Declare Scope py_scope.
Declare Scope result_scope.
Delimit Scope py_scope with py.
Delimit Scope result_scope with result.

Notation "x <- c ;; k" := (bind c (fun x => k))
  (at level 61, c at next level, right associativity) : py_scope.
Notation "' pat <- c ;; k" := (bind c (fun x => match x with pat => k end))
  (at level 61, pat pattern, c at next level, right associativity) : py_scope.
Notation "c ;; k" := (bind c (fun _ => k))
  (at level 61, right associativity) : py_scope.

Notation "x <- c ;; k" := (rbind c (fun x => k))
  (at level 61, c at next level, right associativity) : result_scope.

Open Scope py_scope.

(** [for x in xs: body] with a body that touches the world. *)
Fixpoint for_each_py {A S} (xs : list A) (body : A -> S -> py S) (s : S) : py S :=
  match xs with
  | [] => ret s
  | x :: rest => s' <- body x s ;; for_each_py rest body s'
  end.

Definition print (line : string) : py unit :=
  fun w => (Return tt, World (db w) (clock_reads w) (sent w) (line :: stdout w) (files w)).

Definition set_db (d : database) (w : world) : world :=
  World d (clock_reads w) (sent w) (stdout w) (files w).

Definition set_table (t : list row) (w : world) : world :=
  set_db (Database (connect_error (db w)) (database_error (db w))
                   (execute_error (db w)) (commit_error (db w)) (Some t)) w.

(* ================================================================== *)
(** ** The script *)
(* ================================================================== *)

Section Script.

Variable cfg : config.
Variable env : environment.

(** [datetime.utcnow()]. *)
Definition utcnow : py Z :=
  fun w =>
    (Return (naive_utc env (clock_reads w)),
     World (db w) (S (clock_reads w)) (sent w) (stdout w) (files w)).

(** [timedelta(minutes=n)], in microseconds. *)
Definition minutes (n : Z) : Z := (n * 60 * 1000000)%Z.

(** [requests.get]: the request goes out and the device answers. *)
Definition requests_get (r : request) : py reply :=
  fun w =>
    (Return (device env (sent w) r),
     World (db w) (clock_reads w) (r :: sent w) (stdout w) (files w)).

(** [with open(name, 'w') as f: f.write(body)]. *)
Definition write_file (name body : string) : py unit :=
  fun w =>
    (Return tt,
     World (db w) (clock_reads w) (sent w) (stdout w) ((name, body) :: files w)).

(** *** sql_cmd *)

(** The text of a statement, as the source formats it. *)
Definition query_text (q : query) : string :=
  match q with
  | Q_create_table =>
      "CREATE TABLE IF NOT EXISTS skey_cache ("
      ++ "dns_name TEXT NOT NULL, "
      ++ "ip TEXT NOT NULL, "
      ++ "proto TEXT NOT NULL, "
      ++ "expired TEXT NOT NULL, "
      ++ "skey TEXT NOT NULL DEFAULT 0, "
      ++ "PRIMARY KEY (dns_name, ip, proto))"
  | Q_select_expired_skey_http i =>
      "SELECT expired,skey FROM skey_cache WHERE ip=" ++ dq ++ i ++ dq
      ++ " AND proto=" ++ dq ++ "http" ++ dq
  | Q_select_expired_skey_https d i =>
      "SELECT expired,skey " ++ "FROM skey_cache "
      ++ "WHERE dns_name=" ++ dq ++ d ++ dq ++ " AND IP =" ++ dq ++ i ++ dq
      ++ " AND proto=" ++ dq ++ "https" ++ dq
  | Q_select_ip_http i =>
      "SELECT ip FROM skey_cache WHERE ip = " ++ dq ++ i ++ dq
      ++ " AND proto=" ++ dq ++ "http" ++ dq
  | Q_select_name_ip_https d i =>
      "SELECT dns_name, ip FROM skey_cache "
      ++ "WHERE dns_name=" ++ dq ++ d ++ dq ++ " AND ip=" ++ dq ++ i ++ dq
      ++ " AND proto=" ++ dq ++ "https" ++ dq
  | Q_insert d i p e k =>
      "INSERT INTO skey_cache VALUES ("
      ++ dq ++ d ++ dq ++ ", " ++ dq ++ i ++ dq ++ ", " ++ dq ++ p ++ dq ++ ", "
      ++ dq ++ str_float env e ++ dq ++ ", " ++ dq ++ k ++ dq ++ ")"
  | Q_update_http k e i =>
      "UPDATE skey_cache SET skey=" ++ dq ++ k ++ dq
      ++ ", expired=" ++ dq ++ str_float env e ++ dq ++ " "
      ++ "WHERE ip=" ++ dq ++ i ++ dq ++ " AND proto=" ++ dq ++ "http" ++ dq
  | Q_update_https k e d i =>
      "UPDATE skey_cache SET skey = " ++ dq ++ k ++ dq
      ++ ", expired = " ++ dq ++ str_float env e ++ dq ++ " "
      ++ "WHERE dns_name=" ++ dq ++ d ++ dq ++ " AND ip=" ++ dq ++ i ++ dq
      ++ " AND proto=" ++ dq ++ "https" ++ dq
  | Q_select_all => "SELECT * FROM skey_cache"
  | Q_delete_all => "DELETE FROM skey_cache;"
  end.

(** [cursor.execute(query)]. *)
Definition execute (query : query) (d : database) : executed :=
  if reads_as_meant query then on_file query d
  else engine env (query_text query) d.

(** What [sql_cmd] hands back: [None], the tuple of [fetchone()], or the
    list of [fetchall()]. *)
Inductive fetched : Type :=
| PyNone
| OneRow (r : row)
| AllRows (rs : list row).

Definition fetchone (selected : list row) : fetched :=
  match selected with
  | [] => PyNone
  | r :: _ => OneRow r
  end.

Definition sql_cmd (query : query) (fetch_all : bool) : py fetched :=
  fun w =>
    match connect_error (db w) with
    | Some e =>
        (* the outer [except sqlite3.OperationalError]: print, return None *)
        (print ("CACHE ERROR: (db: " ++ CACHE_DB cfg ++ ") " ++ e) ;; ret PyNone) w
    | None =>
        match execute query (db w) with
        | Rows selected t' =>
            let data := if negb fetch_all then fetchone selected
                        else AllRows selected in
            match (if writes query then commit_error (db w) else None) with
            | Some e =>
                (* [conn.commit()] raises: the outer handler again *)
                (print ("CACHE ERROR: (db: " ++ CACHE_DB cfg ++ ") " ++ e) ;;
                 ret PyNone) w
            | None => (Return data, set_table t' w)
            end
        | OperationalError e =>
            if startswith e "no such table"
            then raise (SystemExit "Cache is empty") w
            else raise (SystemExit ("ERROR: " ++ e ++ ". Query: "
                                    ++ query_text query)) w
        | ConstraintError e => raise (IntegrityError e) w
        | Damaged e => raise (DatabaseError e) w
        | Refused e => raise (ProgrammingError e) w
        end
    end.

(** *** query_xmlapi *)

Definition save_response (url body : string) : py unit :=
  match SAVE_XML cfg with
  | Some file =>
      if negb (contains url "login") then
        if write_denied env file
        then
          (* the handler of PermissionError reads [args.savexml], which
             does not exist; the AttributeError is caught below *)
          raise (AttributeError "'Namespace' object has no attribute 'savexml'")
        else write_file file body
      else ret tt
  | None => ret tt
  end.

(** [except (ValueError, AttributeError) as e] around the reading of the
    response. *)
Definition cannot_parse {A} (c : py A) : py A :=
  fun w =>
    match c w with
    | (Raise (AttributeError e), w') =>
        (Raise (SystemExit ("ERROR: Cannot parse XML. " ++ e)), w')
    | other => other
    end.

Definition query_xmlapi (url : string) (sessionkey : option string)
  : py (option string * option string * element) :=
  let ca_file := "/etc/pki/tls/certs/ca-bundle.crt" in
  let timeout := (3, 10)%nat in
  let full_url := if USE_SSL cfg then "https://" ++ url else "http://" ++ url in
  let headers :=
    if (API_VERSION cfg =? 2)%Z
    then [("sessionKey", sessionkey)]
    else [("Cookie", Some ("wbiusername=" ++ MSA_USERNAME cfg
                           ++ "; wbisessionkey=" ++ str sessionkey))] in
  response <-
    (if USE_SSL cfg then
       if VERIFY_SSL cfg
       then requests_get (Request full_url headers (verify_ca ca_file) timeout)
       else requests_get (Request full_url headers verify_off timeout)
     else requests_get (Request full_url headers verify_default timeout)) ;;
  match response with
  | SSLError => raise (SystemExit "ERROR: Cannot verify storage SSL Certificate.")
  | ConnectTimeout => raise (SystemExit "ERROR: Timeout occurred!")
  | ConnectionError e =>
      raise (SystemExit ("ERROR: Cannot connect to storage " ++ e ++ "."))
  | ReadTimedOut => raise ReadTimeout
  | Response body parsed =>
      cannot_parse
        (save_response url body ;;
         match parsed with
         | None => raise ParseError
         | Some response_xml =>
             return_code <-
               lift (text_of (find response_xml
                                [OBJECT "status"; PROPERTY "return-code"])) ;;
             return_response <-
               lift (text_of (find response_xml
                                [OBJECT "status"; PROPERTY "response"])) ;;
             ret (return_code, return_response, response_xml)
         end)
  end.

(** *** get_skey *)

(** The branch [use_cache=False]: log in, and on return code 1 write the
    session key to the cache. *)
Definition get_skey_login (msa : string * string) (hashed_login : string)
  : py (option string) :=
  let msa_conn := if VERIFY_SSL cfg then snd msa else fst msa in
  let url := msa_conn ++ "/api/login/" ++ hashed_login in
  '(ret_code, sessionkey, xml) <- query_xmlapi url None ;;
  (* 1 - success, write sessionkey to DB and return it *)
  if eq_str ret_code "1" then
    now <- utcnow ;;
    let expired := timestamp env (now + minutes 30) in
    (if negb (USE_SSL cfg) then
       cache_data <- sql_cmd (Q_select_ip_http (fst msa)) false ;;
       match cache_data with
       | PyNone =>
           sql_cmd (Q_insert (snd msa) (fst msa) "http" expired (str sessionkey))
                   false
       | _ =>
           sql_cmd (Q_update_http (str sessionkey) expired (fst msa)) false
       end
     else
       cache_data <- sql_cmd (Q_select_name_ip_https (snd msa) (fst msa)) false ;;
       match cache_data with
       | PyNone =>
           sql_cmd (Q_insert (snd msa) (fst msa) "https" expired (str sessionkey))
                   false
       | _ =>
           sql_cmd (Q_update_https (str sessionkey) expired (snd msa) (fst msa))
                   false
       end) ;;
    ret sessionkey
  (* 2 - Authentication Unsuccessful, return "2" *)
  else if eq_str ret_code "2" then
    ret ret_code
  else
    (* the function ends without a return statement *)
    ret None.

(** [msa] is the pair (IP address, DNS name).  The result is the session
    key, the error code, or [None].  The source calls itself with
    [use_cache=False] when the cache has no valid key; that call is
    [get_skey_login], so the definition needs no recursion. *)
Definition get_skey (msa : string * string) (hashed_login : string)
           (use_cache : bool) : py (option string) :=
  (* Trying to use cached session key *)
  if use_cache then
    now <- utcnow ;;
    let cur_timestamp := timestamp env now in
    cache_data <-
      (if negb (USE_SSL cfg)
       then sql_cmd (Q_select_expired_skey_http (fst msa)) false
       else sql_cmd (Q_select_expired_skey_https (snd msa) (fst msa)) false) ;;
    match cache_data with
    | OneRow r =>
        let cache_expired := expired r in
        let cached_skey := skey r in
        if (cur_timestamp <? cache_expired)%Z
        then ret (Some cached_skey)
        else get_skey_login msa hashed_login
    | PyNone => get_skey_login msa hashed_login
    | AllRows _ =>
        (* not reached: the rows were asked for with [fetchone()] *)
        get_skey_login msa hashed_login
    end
  else get_skey_login msa hashed_login.

End Script.

(* ================================================================== *)
(** ** JSON output *)
(* ================================================================== *)

(** What is handed to [json.dumps]; the rendering into characters is the
    library's. *)
Inductive json : Type :=
| JNull
| JString (s : string)
| JArray (items : list json)
| JObject (members : list (string * json)).

(** [json.dumps(value, separators=(',', ':'), indent=pretty)]. *)
Record json_text : Type := dumps { value : json; indent : option nat }.

Definition json_of_text (v : option string) : json :=
  match v with
  | Some s => JString s
  | None => JNull
  end.

(** A dictionary of strings (or [None]) under string keys. *)
Definition metrics : Type := list (string * option string).

Definition json_of_metrics (d : metrics) : json :=
  JObject (map (fun kv => (fst kv, json_of_text (snd kv))) d).

(** The dictionary of a full run: instance key (a property text, written
    [null] by [json.dumps] when it is [None]) to metrics. *)
Definition components : Type := list (option string * metrics).

Definition json_key (k : option string) : string :=
  match k with
  | Some s => s
  | None => "null"
  end.

Definition json_of_components (c : components) : json :=
  JObject (map (fun kv => (json_key (fst kv), json_of_metrics (snd kv))) c).

(* ================================================================== *)
(** ** make_lld *)
(* ================================================================== *)

(** CLI component names to XML API mapping. *)
Definition comp_names_map : list (string * string) :=
  [ ("disks", "drive"); ("vdisks", "virtual-disk"); ("pools", "pools");
    ("disk-groups", "disk-group"); ("volumes", "volume");
    ("controllers", "controllers"); ("enclosures", "enclosures");
    ("power-supplies", "power-supplies"); ("fans", "fan-details");
    ("ports", "ports") ].

(** XML API prop names to Zabbix macro mapping. *)
Definition comp_props_map : list (string * list (string * string)) :=
  [ ("vdisks", [ ("{#VDISK.ID}", "name"); ("{#VDISK.TYPE}", "storage-type") ]);
    ("fans", [ ("{#FAN.ID}", "durable-id"); ("{#FAN.LOCATION}", "location") ]);
    ("ports", [ ("{#PORT.ID}", "port"); ("{#PORT.TYPE}", "port-type");
                ("{#PORT.SPEED}", "actual-speed") ]);
    ("pools", [ ("{#POOL.ID}", "name"); ("{#POOL.SN}", "serial-number");
                ("{#POOL.TYPE}", "storage-type") ]);
    ("enclosures", [ ("{#ENCLOSURE.ID}", "enclosure-id");
                     ("{#ENCLOSURE.SN}", "midplane-serial-number") ]);
    ("volumes", [ ("{#VOLUME.ID}", "volume-name"); ("{#VOLUME.SN}", "serial-number");
                  ("{#VOLUME.TYPE}", "volume-type") ]);
    ("power-supplies", [ ("{#POWERSUPPLY.ID}", "durable-id");
                         ("{#POWERSUPPLY.LOCATION}", "location");
                         ("{#POWERSUPPLY.NAME}", "name") ]);
    ("disks", [ ("{#DISK.ID}", "location"); ("{#DISK.SN}", "serial-number");
                ("{#DISK.MODEL}", "model"); ("{#DISK.ARCH}", "architecture") ]);
    ("disk-groups", [ ("{#DG.ID}", "name"); ("{#DG.SN}", "serial-number");
                      ("{#DG.TYPE}", "storage-type"); ("{#DG.TIER}", "storage-tier") ]);
    ("controllers", [ ("{#CONTROLLER.ID}", "controller-id");
                      ("{#CONTROLLER.SN}", "serial-number");
                      ("{#CONTROLLER.IP}", "ip-address");
                      ("{#CONTROLLER.WWN}", "node-wwn") ]) ].

Section Discovery.

Local Open Scope result_scope.

(** The body of the inner loop: one macro of one instance. *)
Definition lld_macro (part : element) (mp : string * string) (lld_dict : metrics)
  : result metrics :=
  let '(macro, prop) := mp in
  xml_prop_value <-
    except_AttributeError
      (text_of (find part [PROPERTY prop]))
      (Return (Some "UNKNOWN")) ;;
  Return (sset lld_dict macro xml_prop_value).

(** The body of the outer loop: one instance, appended to the list. *)
Definition lld_part (component : string) (part : element)
           (all_components : list metrics) : result (list metrics) :=
  props <- getitem comp_props_map component ;;
  lld_dict <- for_each props (lld_macro part) [] ;;
  lld_dict <-
    (if String.eqb component "ports" then
       (* Dirty workaround for SFP present status *)
       port_sfp <-
         except_AttributeError
           (text_of (find part [OBJECT "port-details"; PROPERTY "sfp-present"]))
           (Return (Some "UNKNOWN")) ;;
       Return (sset lld_dict "{#PORT.SFP}" port_sfp)
     else Return lld_dict) ;;
  Return (all_components ++ [lld_dict])%list.

(** Processing response: the loop over the instances. *)
Definition lld_components (component : string) (xml : element)
  : result (list metrics) :=
  name <- getitem comp_names_map component ;;
  for_each (findall xml [OBJECT name]) (lld_part component) [].

End Discovery.

Section MakeLld.

Variable cfg : config.
Variable env : environment.

Definition make_lld (msa : string * string) (component : string)
           (sessionkey : option string) (pretty : option nat) : py json_text :=
  (* Forming URL *)
  let msa_conn := if VERIFY_SSL cfg then snd msa else fst msa in
  let url := msa_conn ++ "/api/show/" ++ component in
  (* Making request to the API *)
  '(resp_return_code, resp_description, xml) <- query_xmlapi cfg env url sessionkey ;;
  if negb (eq_str resp_return_code "0") then
    raise (SystemExit ("ERROR: " ++ str resp_return_code ++ " : "
                       ++ str resp_description))
  else
    all_components <- lift (lld_components component xml) ;;
    (* Dumps JSON and return it *)
    ret (dumps (JObject [("data", JArray (map json_of_metrics all_components))])
               pretty).

End MakeLld.

(* ================================================================== *)
(** ** get_full_json *)
(* ================================================================== *)

Section FullInstances.

Local Open Scope result_scope.

(** [X.find("./PROPERTY[@name='n']").text]. *)
Definition prop_text (X : element) (n : string) : result (option string) :=
  text_of (find X [PROPERTY n]).

(** [for prop, value in ext.items(): if value is not None:
    full_data[prop] = value.text]. *)
Definition add_present (ext : list (string * option element)) (full_data : metrics)
  : metrics :=
  fold_left
    (fun d pv => match snd pv with
                 | Some value => sset d (fst pv) (text value)
                 | None => d
                 end)
    ext full_data.

Definition full_disk (PROP : element) (all_components : components)
  : result components :=
  (* Processing main properties *)
  disk_location <- prop_text PROP "location" ;;
  disk_health_num <- prop_text PROP "health-numeric" ;;
  let disk_full_data := [("h", disk_health_num)] in
  (* Processing advanced properties *)
  let disk_ext := [] in
  let disk_ext := sset disk_ext "t" (find PROP [PROPERTY "temperature-numeric"]) in
  let disk_ext :=
    sset disk_ext "ts" (find PROP [PROPERTY "temperature-status-numeric"]) in
  let disk_ext := sset disk_ext "cj" (find PROP [PROPERTY "job-running-numeric"]) in
  let disk_ext := sset disk_ext "poh" (find PROP [PROPERTY "power-on-hours"]) in
  let disk_full_data := add_present disk_ext disk_full_data in
  Return (oset all_components disk_location disk_full_data).

Definition full_vdisk (PROP : element) (all_components : components)
  : result components :=
  vdisk_name <- prop_text PROP "name" ;;
  vdisk_health_num <- prop_text PROP "health-numeric" ;;
  vdisk_status_num <- prop_text PROP "status-numeric" ;;
  vdisk_owner_num <- prop_text PROP "owner-numeric" ;;
  vdisk_owner_pref_num <- prop_text PROP "preferred-owner-numeric" ;;
  let vdisk_full_data :=
    [ ("h", vdisk_health_num); ("s", vdisk_status_num); ("ow", vdisk_owner_num);
      ("owp", vdisk_owner_pref_num) ] in
  Return (oset all_components vdisk_name vdisk_full_data).

Definition full_pool (PROP : element) (all_components : components)
  : result components :=
  pool_sn <- prop_text PROP "serial-number" ;;
  pool_health <- prop_text PROP "health" ;;
  pool_healthreason <- prop_text PROP "health-reason" ;;
  pool_healthrecommendation <- prop_text PROP "health-recommendation" ;;
  pool_health_num <- prop_text PROP "health-numeric" ;;
  pool_owner_num <- prop_text PROP "owner-numeric" ;;
  pool_owner_pref_num <- prop_text PROP "preferred-owner-numeric" ;;
  pool_storage_type <- prop_text PROP "storage-type" ;;
  pool_block_size <- prop_text PROP "blocksize" ;;
  pool_totalsize <- prop_text PROP "total-size" ;;
  pool_totalsize_num <- prop_text PROP "total-size-numeric" ;;
  pool_totalavail <- prop_text PROP "total-avail" ;;
  pool_totalavail_num <- prop_text PROP "total-avail-numeric" ;;
  pool_diskgroups <- prop_text PROP "disk-groups" ;;
  pool_volumes <- prop_text PROP "volumes" ;;
  pool_pagesize <- prop_text PROP "page-size" ;;
  pool_pagesize_num <- prop_text PROP "page-size-numeric" ;;
  pool_lowthreshold <- prop_text PROP "low-threshold" ;;
  pool_middlethreshold <- prop_text PROP "middle-threshold" ;;
  pool_highthreshold <- prop_text PROP "high-threshold" ;;
  let pool_full_data :=
    [ ("h", pool_health_num); ("hc", pool_health); ("hr", pool_healthreason);
      ("hrc", pool_healthrecommendation); ("sn", pool_sn); ("ow", pool_owner_num);
      ("owp", pool_owner_pref_num); ("pst", pool_storage_type);
      ("bs", pool_block_size); ("ts", pool_totalsize); ("tsn", pool_totalsize_num);
      ("ta", pool_totalavail); ("tan", pool_totalavail_num);
      ("dgs", pool_diskgroups); ("vms", pool_volumes); ("ps", pool_pagesize);
      ("psn", pool_pagesize_num); ("lts", pool_lowthreshold);
      ("mts", pool_middlethreshold); ("hts", pool_highthreshold) ] in
  Return (oset all_components pool_sn pool_full_data).

Definition full_disk_group (PROP : element) (all_components : components)
  : result components :=
  dg_sn <- prop_text PROP "serial-number" ;;
  dg_health_num <- prop_text PROP "health-numeric" ;;
  dg_status_num <- prop_text PROP "status-numeric" ;;
  dg_owner_num <- prop_text PROP "owner-numeric" ;;
  dg_owner_pref_num <- prop_text PROP "preferred-owner-numeric" ;;
  dg_curr_job_num <- prop_text PROP "current-job-numeric" ;;
  dg_curr_job_pct <- prop_text PROP "current-job-completion" ;;
  dg_blocksize <- prop_text PROP "blocksize" ;;
  dg_size <- prop_text PROP "size" ;;
  dg_size_num <- prop_text PROP "size-numeric" ;;
  dg_freespace <- prop_text PROP "freespace" ;;
  dg_freespace_num <- prop_text PROP "freespace-numeric" ;;
  dg_raw_size <- prop_text PROP "raw-size" ;;
  dg_raw_size_num <- prop_text PROP "raw-size-numeric" ;;
  (* current job completion return None if job isn't running, so I'm
     replacing it with zero if None *)
  let dg_curr_job_pct :=
    match dg_curr_job_pct with
    | None => "0"
    | Some pct => pct
    end in
  let dg_full_data :=
    [ ("h", dg_health_num); ("s", dg_status_num); ("ow", dg_owner_num);
      ("owp", dg_owner_pref_num); ("cj", dg_curr_job_num);
      ("cjp", Some (rstrip dg_curr_job_pct "%")); ("bs", dg_blocksize);
      ("sz", dg_size); ("szn", dg_size_num); ("fr", dg_freespace);
      ("frn", dg_freespace_num); ("rs", dg_raw_size); ("rsn", dg_raw_size_num) ] in
  Return (oset all_components dg_sn dg_full_data).

Definition full_volume (PROP : element) (all_components : components)
  : result components :=
  vol_sn <- prop_text PROP "serial-number" ;;
  vol_health_num <- prop_text PROP "health-numeric" ;;
  vol_owner_num <- prop_text PROP "owner-numeric" ;;
  vol_owner_pref_num <- prop_text PROP "preferred-owner-numeric" ;;
  vol_size_num <- prop_text PROP "size-numeric" ;;
  vol_size <- prop_text PROP "size" ;;
  vol_total_size_num <- prop_text PROP "total-size-numeric" ;;
  vol_total_size <- prop_text PROP "total-size" ;;
  vol_allocated_size_num <- prop_text PROP "allocated-size-numeric" ;;
  vol_allocated_size <- prop_text PROP "allocated-size" ;;
  let vol_full_data :=
    [ ("h", vol_health_num); ("ow", vol_owner_num); ("owp", vol_owner_pref_num);
      ("szn", vol_size_num); ("sz", vol_size); ("tszn", vol_total_size_num);
      ("tsz", vol_total_size); ("asn", vol_allocated_size_num);
      ("as", vol_allocated_size) ] in
  Return (oset all_components vol_sn vol_full_data).

Definition full_enclosure (PROP : element) (all_components : components)
  : result components :=
  (* Processing main enclosure properties *)
  encl_id <- prop_text PROP "enclosure-id" ;;
  encl_health_num <- prop_text PROP "health-numeric" ;;
  encl_status_num <- prop_text PROP "status-numeric" ;;
  (* Making full enclosure dict *)
  let encl_full_data := [ ("h", encl_health_num); ("s", encl_status_num) ] in
  Return (oset all_components encl_id encl_full_data).

(** [ps_name.lower()]; on [None] the method lookup raises. *)
Definition lower_of (x : option string) : result string :=
  match x with
  | Some s => Return (lower s)
  | None => Raise (AttributeError "'NoneType' object has no attribute 'lower'")
  end.

Definition full_power_supply (PS : element) (all_components : components)
  : result components :=
  (* Processing main power supplies properties *)
  ps_id <- prop_text PS "durable-id" ;;
  ps_name <- prop_text PS "name" ;;
  ps_name_lower <- lower_of ps_name ;;
  (* Exclude voltage regulators *)
  if (Py.find ps_name_lower "voltage regulator" =? -1)%Z then
    ps_health_num <- prop_text PS "health-numeric" ;;
    ps_status_num <- prop_text PS "status-numeric" ;;
    ps_dc12v <- prop_text PS "dc12v" ;;
    ps_dc5v <- prop_text PS "dc5v" ;;
    ps_dc33v <- prop_text PS "dc33v" ;;
    ps_dc12i <- prop_text PS "dc12i" ;;
    ps_dc5i <- prop_text PS "dc5i" ;;
    let ps_full_data :=
      [ ("h", ps_health_num); ("s", ps_status_num); ("12v", ps_dc12v);
        ("5v", ps_dc5v); ("33v", ps_dc33v); ("12i", ps_dc12i); ("5i", ps_dc5i) ] in
    (* Processing advanced power supplies properties *)
    let ps_ext := sset [] "t" (find PS [PROPERTY "dctemp"]) in
    let ps_full_data := add_present ps_ext ps_full_data in
    Return (oset all_components ps_id ps_full_data)
  else Return all_components.

Definition full_fan (FAN : element) (all_components : components)
  : result components :=
  (* Processing main fan properties *)
  fan_id <- prop_text FAN "durable-id" ;;
  fan_health_num <- prop_text FAN "health-numeric" ;;
  fan_status_num <- prop_text FAN "status-numeric" ;;
  fan_speed <- prop_text FAN "speed" ;;
  let fan_full_data :=
    [ ("h", fan_health_num); ("s", fan_status_num); ("sp", fan_speed) ] in
  Return (oset all_components fan_id fan_full_data).

(** Because of before 1050/2050 API has no numeric property for
    sfp-status, creating mapping self. *)
Definition sfp_status_map : list (string * string) :=
  [ ("Not compatible", "0"); ("Incorrect protocol", "1"); ("Not present", "2");
    ("OK", "3") ].

(** [sfp_status_map[x]] for [x] a text or [None]. *)
Definition sfp_status_code (x : option string) : result string :=
  match x with
  | Some s => getitem sfp_status_map s
  | None => Raise (KeyError None)
  end.

Definition full_port (FC : element) (all_components : components)
  : result components :=
  (* Processing main ports properties *)
  port_name <- prop_text FC "port" ;;
  port_health_num <- prop_text FC "health-numeric" ;;
  port_type <- prop_text FC "port-type" ;;
  port_speed <- prop_text FC "actual-speed" ;;
  port_status <- prop_text FC "status" ;;
  let port_full_data :=
    [ ("h", port_health_num); ("pt", port_type); ("pas", port_speed);
      ("ps", port_status) ] in
  (* Processing advanced ports properties *)
  let port_ext := sset [] "ps" (find FC [PROPERTY "status-numeric"]) in
  let port_full_data := add_present port_ext port_full_data in
  (* SFP Status *)
  let sfp_status_char := find FC [OBJECT "port-details"; PROPERTY "sfp-status"] in
  let sfp_status_num :=
    find FC [OBJECT "port-details"; PROPERTY "sfp-status-numeric"] in
  port_full_data <-
    match sfp_status_num with
    | Some num =>
        let port_full_data := sset port_full_data "ss" (text num) in
        sfps <- text_of sfp_status_char ;;
        Return (sset port_full_data "sfps" sfps)
    | None =>
        match sfp_status_char with
        | Some char =>
            ss <- sfp_status_code (text char) ;;
            let port_full_data := sset port_full_data "ss" (Some ss) in
            Return (sset port_full_data "sfps" (text char))
        | None => Return port_full_data
        end
    end ;;
  Return (oset all_components port_name port_full_data).

(** *** expand_dict *)

(** Match dict for print output in human readable format. *)
Definition m : list (string * string) :=
  [ ("h", "health"); ("s", "status"); ("ow", "owner"); ("owp", "owner-preferred");
    ("t", "temperature"); ("ts", "temperature-status"); ("cj", "current-job");
    ("poh", "power-on-hours"); ("rs", "redundancy-status");
    ("fw", "firmware-version"); ("sp", "speed"); ("ps", "port-status");
    ("ss", "sfp-status"); ("fh", "flash-health"); ("fs", "flash-status");
    ("12v", "power-12v"); ("5v", "power-5v"); ("33v", "power-33v");
    ("12i", "power-12i"); ("5i", "power-5i"); ("io", "iops"); ("cpu", "cpu-load");
    ("cjp", "current-job-completion") ].

Definition expand_key (metrics0 : metrics) (key : string) (h_metrics : metrics)
  : result metrics :=
  v <- getitem metrics0 key ;;
  long <- getitem m key ;;
  Return (sset h_metrics long v).

Definition expand_instance (cm : option string * metrics) (result_dict : components)
  : result components :=
  let '(compid, metrics0) := cm in
  h_metrics <- for_each (keys metrics0) (expand_key metrics0) [] ;;
  Return (oset result_dict compid h_metrics).

Definition expand_dict (init_dict : components) : result components :=
  for_each init_dict expand_instance [].

End FullInstances.

Section GetFullJson.

Variable cfg : config.
Variable env : environment.

(** The body of the loop over the controllers, with its second request
    for the statistics of the controller. *)
Definition full_controller (msa_conn : string) (sessionkey : option string)
           (PROP : element) (all_components : components) : py components :=
  (* Processing main controller properties *)
  ctrl_id <- lift (prop_text PROP "controller-id") ;;
  ctrl_sc_fw <- lift (prop_text PROP "sc-fw") ;;
  ctrl_health_num <- lift (prop_text PROP "health-numeric") ;;
  ctrl_status_num <- lift (prop_text PROP "status-numeric") ;;
  ctrl_rd_status_num <- lift (prop_text PROP "redundancy-status-numeric") ;;
  (* Get controller statistics *)
  let url := msa_conn ++ "/api/show/" ++ "controller-statistics" ++ "/"
             ++ str ctrl_id in
  (* Making request to API *)
  '(stats_ret_code, stats_descr, stats_xml) <- query_xmlapi cfg env url sessionkey ;;
  if negb (eq_str stats_ret_code "0") then
    raise (SystemExit ("ERROR: " ++ str stats_ret_code ++ " : " ++ str stats_descr))
  else
    ctrl_cpu_load <-
      lift (text_of (find stats_xml
                       [OBJECT "controller-statistics"; PROPERTY "cpu-load"])) ;;
    ctrl_iops <-
      lift (text_of (find stats_xml
                       [OBJECT "controller-statistics"; PROPERTY "iops"])) ;;
    (* Making full controller dict *)
    let ctrl_full_data :=
      [ ("h", ctrl_health_num); ("s", ctrl_status_num); ("rs", ctrl_rd_status_num);
        ("cpu", ctrl_cpu_load); ("io", ctrl_iops); ("fw", ctrl_sc_fw) ] in
    (* Processing advanced controller properties *)
    let ctrl_ext := [] in
    let ctrl_ext :=
      sset ctrl_ext "fh"
           (find PROP [OBJECT_basetype "compact-flash"; PROPERTY "health-numeric"]) in
    let ctrl_ext :=
      sset ctrl_ext "fs"
           (find PROP [OBJECT_basetype "compact-flash"; PROPERTY "status-numeric"]) in
    let ctrl_full_data := add_present ctrl_ext ctrl_full_data in
    ret (oset all_components ctrl_id ctrl_full_data).

(** Processing XML: the dispatch over the component name. *)
Definition full_components (msa_conn : string) (sessionkey : option string)
           (component : string) (xml : element) : py components :=
  let all_components : components := [] in
  if String.eqb component "disks" then
    lift (for_each (findall xml [OBJECT "drive"]) full_disk all_components)
  else if String.eqb component "vdisks" then
    lift (for_each (findall xml [OBJECT "virtual-disk"]) full_vdisk all_components)
  else if String.eqb component "pools" then
    lift (for_each (findall xml [OBJECT "pools"]) full_pool all_components)
  else if String.eqb component "disk-groups" then
    lift (for_each (findall xml [OBJECT "disk-group"]) full_disk_group all_components)
  else if String.eqb component "volumes" then
    lift (for_each (findall xml [OBJECT "volume"]) full_volume all_components)
  else if String.eqb component "controllers" then
    for_each_py (findall xml [OBJECT "controllers"])
                (full_controller msa_conn sessionkey) all_components
  else if String.eqb component "enclosures" then
    lift (for_each (findall xml [OBJECT "enclosures"]) full_enclosure all_components)
  else if String.eqb component "power-supplies" then
    (* Getting info about all power supplies *)
    lift (for_each (findall xml [OBJECT "power-supplies"]) full_power_supply
                   all_components)
  else if String.eqb component "fans" then
    (* Getting info about all fans *)
    lift (for_each (findall xml [OBJECT "fan-details"]) full_fan all_components)
  else if String.eqb component "ports" then
    lift (for_each (findall xml [OBJECT "ports"]) full_port all_components)
  else ret all_components.

Definition get_full_json (msa : string * string) (component : string)
           (sessionkey : option string) (pretty : option nat) (human : bool)
  : py json_text :=
  (* Forming URL *)
  let msa_conn := if VERIFY_SSL cfg then snd msa else fst msa in
  let url := msa_conn ++ "/api/show/" ++ component in
  (* Making request to API *)
  '(resp_return_code, resp_description, xml) <- query_xmlapi cfg env url sessionkey ;;
  if negb (eq_str resp_return_code "0") then
    raise (SystemExit ("ERROR: " ++ str resp_return_code ++ " : "
                       ++ str resp_description))
  else
    all_components <- full_components msa_conn sessionkey component xml ;;
    (* Transform dict keys to human readable format if '--human' argument
       is given *)
    all_components <-
      (if human then lift (expand_dict all_components) else ret all_components) ;;
    ret (dumps (json_of_components all_components) pretty).

End GetFullJson.

(* ================================================================== *)
(** ** Vocabulary of the statements *)
(* ================================================================== *)

(** *** Requests *)

(** The request [query_xmlapi] sends for a path and a session key. *)
Definition api_request (cfg : config) (url : string) (sessionkey : option string)
  : request :=
  Request
    ((if USE_SSL cfg then "https://" else "http://") ++ url)
    (if (API_VERSION cfg =? 2)%Z
     then [("sessionKey", sessionkey)]
     else [("Cookie", Some ("wbiusername=" ++ MSA_USERNAME cfg
                            ++ "; wbisessionkey=" ++ str sessionkey))])
    (if USE_SSL cfg
     then if VERIFY_SSL cfg then verify_ca "/etc/pki/tls/certs/ca-bundle.crt"
          else verify_off
     else verify_default)
    (3, 10)%nat.

Definition msa_conn (cfg : config) (msa : string * string) : string :=
  if VERIFY_SSL cfg then snd msa else fst msa.

Definition login_url (cfg : config) (msa : string * string) (hashed_login : string)
  : string :=
  (if VERIFY_SSL cfg then snd msa else fst msa) ++ "/api/login/" ++ hashed_login.

Definition show_url (cfg : config) (msa : string * string) (component : string)
  : string :=
  (if VERIFY_SSL cfg then snd msa else fst msa) ++ "/api/show/" ++ component.

Definition login_request (cfg : config) (msa : string * string) (hashed_login : string)
  : request :=
  api_request cfg (login_url cfg msa hashed_login) None.

(** A property of the status object of a response. *)
Definition status_of (xml : element) (n : string) : result (option string) :=
  text_of (find xml [OBJECT "status"; PROPERTY n]).

(** *** The cache *)

(** The cache file opens and is a database, the engine reports no error
    of its own, and the table holds [t]. *)
Definition sound (d : database) : Prop :=
  connect_error d = None /\ database_error d = None
  /\ execute_error d = None /\ commit_error d = None.

Definition healthy (d : database) (t : list row) : Prop :=
  sound d /\ table d = Some t.

(** The expiry a login stores when its clock reading is the [n]-th: the
    timestamp of the reading plus thirty minutes. *)
Definition expiry (env : environment) (n : nat) : Z :=
  timestamp env (naive_utc env n + minutes 30).

Definition active_proto (cfg : config) : string :=
  if USE_SSL cfg then "https" else "http".

(** The rows [get_skey] takes for the entry of an endpoint: by address over
    http, by name and address over https. *)
Definition cache_key (cfg : config) (msa : string * string) : row -> bool :=
  if USE_SSL cfg then https_key (snd msa) (fst msa) else http_key (fst msa).

(** The entry [fetchone()] hands to [get_skey]. *)
Definition lookup (cfg : config) (msa : string * string) (t : list row) : option row :=
  hd_error (filter (cache_key cfg msa) t).

(** The table after the insert-or-update of a successful login. *)
Definition upsert (cfg : config) (msa : string * string) (e : Z) (k : string)
           (t : list row) : list row :=
  match lookup cfg msa t with
  | None => (t ++ [Row (snd msa) (fst msa) (active_proto cfg) e k])%list
  | Some _ => update_where (cache_key cfg msa) k e t
  end.

(** The address and the name of the endpoint are texts that SQLite takes
    for the strings they are. *)
Definition endpoint_plain (msa : string * string) : Prop :=
  plain (fst msa) = true /\ plain (snd msa) = true.

(** The rows written for an address over http, and for a name and an
    address over https. *)
Definition http_row (i : string) (r : row) : bool :=
  String.eqb (ip r) i && String.eqb (proto r) "http".

Definition https_row (d i : string) (r : row) : bool :=
  String.eqb (dns_name r) d && String.eqb (ip r) i && String.eqb (proto r) "https".

(** At most one http row per address, at most one https row per name and
    address. *)
Definition one_entry_per_key (t : list row) : Prop :=
  (forall i, (length (filter (http_row i) t) <= 1)%nat)
  /\ (forall d i, (length (filter (https_row d i) t) <= 1)%nat).

(** The world after one reading of the clock, and after one request. *)
Definition tick (w : world) : world :=
  World (db w) (S (clock_reads w)) (sent w) (stdout w) (files w).

Fixpoint ticks (n : nat) (w : world) : world :=
  match n with
  | O => w
  | S k => ticks k (tick w)
  end.

Definition sending (r : request) (w : world) : world :=
  World (db w) (clock_reads w) (r :: sent w) (stdout w) (files w).

(** Sequential use: [n] runs of [get_skey], one after the other, on the
    same cache file. *)
Fixpoint polls (cfg : config) (env : environment) (msa : string * string)
         (hashed_login : string) (n : nat) : py (list (option string)) :=
  match n with
  | O => ret []
  | S k =>
      key <- get_skey cfg env msa hashed_login true ;;
      more <- polls cfg env msa hashed_login k ;;
      ret (key :: more)
  end.

(** *** Discovery *)

(** The value [make_lld] reads at a path: the text found there, or the
    sentinel. *)
Definition lld_value (part : element) (p : path) : option string :=
  match find part p with
  | Some e => text e
  | None => Some "UNKNOWN"
  end.

Definition lld_props (part : element) (props : list (string * string)) (d : metrics)
  : metrics :=
  fold_left (fun d mp => sset d (fst mp) (lld_value part [PROPERTY (snd mp)])) props d.

(** The dictionary [make_lld] appends for one instance. *)
Definition lld_entry (component : string) (props : list (string * string))
           (part : element) : metrics :=
  let d := lld_props part props [] in
  if String.eqb component "ports"
  then sset d "{#PORT.SFP}"
            (lld_value part [OBJECT "port-details"; PROPERTY "sfp-present"])
  else d.

(** Every mapped property the instance lacks shows as the sentinel. *)
Definition unknown_where_missing (component : string) (props : list (string * string))
           (part : element) (entry : metrics) : Prop :=
  (forall macro prop,
      In (macro, prop) props -> find part [PROPERTY prop] = None ->
      sget entry macro = Some (Some "UNKNOWN"))
  /\ (component = "ports" ->
      find part [OBJECT "port-details"; PROPERTY "sfp-present"] = None ->
      sget entry "{#PORT.SFP}" = Some (Some "UNKNOWN")).

(** *** Power supplies *)




(** *** Ports *)

Definition sfp_status_path : path := [OBJECT "port-details"; PROPERTY "sfp-status"].

Definition sfp_status_numeric_path : path :=
  [OBJECT "port-details"; PROPERTY "sfp-status-numeric"].

(** The main properties of a port, the ones [get_full_json] reads without
    a guard. *)
Definition port_main (FC : element) (name h pt pas status : option string) : Prop :=
  prop_text FC "port" = Return name
  /\ prop_text FC "health-numeric" = Return h
  /\ prop_text FC "port-type" = Return pt
  /\ prop_text FC "actual-speed" = Return pas
  /\ prop_text FC "status" = Return status.

(** The value under [ps]. *)
Definition port_status_value (FC : element) (status : option string) : option string :=
  match find FC [PROPERTY "status-numeric"] with
  | Some numeric => text numeric
  | None => status
  end.

Definition port_base (FC : element) (h pt pas status : option string) : metrics :=
  [ ("h", h); ("pt", pt); ("pas", pas); ("ps", port_status_value FC status) ].

(** The four texts of [sfp_status_map] with their codes. *)
Definition sfp_codes : list (option string * string) :=
  [ (Some "Not compatible", "0"); (Some "Incorrect protocol", "1");
    (Some "Not present", "2"); (Some "OK", "3") ].

Definition sfp_texts : list string :=
  [ "Not compatible"; "Incorrect protocol"; "Not present"; "OK" ].

(* ================================================================== *)
(** ** A sample array *)
(* ================================================================== *)

(** One array, [msa1] at 10.0.0.5, polled over plain http, with the
    answers its firmware gives; the concrete runs below are on it. *)
Module Sample.

Definition cfg : config :=
  Config 2 "/var/tmp/zbx-hpmsa/zbx-hpmsa.cache.db" None false false "monitor".

Definition msa : string * string := ("10.0.0.5", "msa1").

Definition cred_hash : string := "abc123".

(** The clock is read once a minute. *)
Definition clock (n : nat) : Z := (Z.of_nat n * 60000000)%Z.

(** The host keeps its clock on UTC. *)
Definition zone (t : Z) : Z := t.

(** The engine on a statement that does not read as meant: the runs on
    this array format no such statement. *)
Definition engine (text : string) (d : database) : executed :=
  OperationalError "incomplete input".

(** Seconds, a point, and the microseconds without their trailing
    zeros. *)
Definition str_float (t : Z) : string :=
  let seconds := NilZero.string_of_int (Z.to_int (t / 1000000)) in
  let padded := NilZero.string_of_int (Z.to_int (1000000 + t mod 1000000)) in
  let digits := rstrip (String.substring 1 6 padded) "0" in
  seconds ++ "." ++ (if String.eqb digits "" then "0" else digits).

Definition property (n v : string) : element :=
  Element "PROPERTY" [("name", n); ("type", "string")] (Some v) [].

Definition object (basetype n : string) (content : list element) : element :=
  Element "OBJECT" [("basetype", basetype); ("name", n)] None content.

Definition status (code response : string) : element :=
  object "status" "status"
         [ property "response-type" (if String.eqb code "2" then "Error" else "Success");
           property "response" response;
           property "return-code" code ].

Definition response (content : list element) (code text : string) : element :=
  Element "RESPONSE" [("VERSION", "L100")] None (content ++ [status code text])%list.

(** Port A1, with the given properties of its [port-details]. *)
Definition port (details : list element) : element :=
  object "port" "ports"
         [ property "durable-id" "hostport_A1";
           property "port" "A1";
           property "port-type" "FC";
           property "status" "Up";
           property "status-numeric" "0";
           property "actual-speed" "8Gb";
           property "health" "OK";
           property "health-numeric" "0";
           object "fc-port" "port-details" details ].

Definition power_supply (id name0 : string) : element :=
  object "power-supplies" "power-supplies"
         [ property "durable-id" id;
           property "name" name0;
           property "location" "Enclosure 1 - Left";
           property "dc12v" "1212";
           property "dc5v" "541";
           property "dc33v" "336";
           property "dc12i" "791";
           property "dc5i" "469";
           property "dctemp" "37";
           property "health-numeric" "0";
           property "status-numeric" "1" ].

Definition power_supplies : list element :=
  [ power_supply "psu_1.1" "PSU 1, Left";
    power_supply "psu_1.3" "Voltage Regulator" ].

Definition completed : string := "Command completed successfully.".

Definition ports_answer (details : list element) : element :=
  response [port details] "0" completed.

Definition power_answer : element := response power_supplies "0" completed.

(** The array: it answers a login with the given code and text, and the
    two [show] commands with the given port and the power supplies. *)
Definition array (login_code login_text : string) (details : list element)
  : list request -> request -> reply :=
  fun _ r =>
    let u := full_url r in
    if contains u "/api/login/" then
      Response "<RESPONSE/>" (Some (response [] login_code login_text))
    else if contains u "/api/show/ports" then
      Response "<RESPONSE/>" (Some (ports_answer details))
    else if contains u "/api/show/power-supplies" then
      Response "<RESPONSE/>" (Some power_answer)
    else ConnectionError "Max retries exceeded".

Definition sfp (status0 : string) : list element :=
  [ property "sfp-status" status0 ].

(** Logins succeed. *)
Definition env (details : list element) : environment :=
  Environment clock zone (array "1" "SESSIONKEY1" details) engine str_float
              (fun _ => false).

(** Logins are refused. *)
Definition env_refused : environment :=
  Environment clock zone (array "2" "Authentication Unsuccessful" [])
              engine str_float (fun _ => false).

Definition session : option string := Some "SESSIONKEY1".

(** The world after the one request of a [show] command. *)
Definition shown (component : string) (w : world) : world :=
  sending (api_request cfg (show_url cfg msa component) session) w.

(** The cache file after [install]: the table, no row. *)
Definition installed : world :=
  World (Database None None None None (Some [])) 0 [] [] [].

(** The cache file before [install]: no table. *)
Definition fresh : world :=
  World (Database None None None None None) 0 [] [] [].

(** A file without the table that another process keeps locked. *)
Definition locked_fresh : world :=
  World (Database None None (Some "database is locked") None None) 0 [] [] [].

(** A session that expires two and a half minutes from the start. *)
Definition cached : world :=
  World (Database None None None None
                  (Some [Row "msa1" "10.0.0.5" "http" 150000000 "OLDKEY"]))
        0 [] [] [].

End Sample.

(* ================================================================== *)
(** ** The rest of the script, and more vocabulary *)
(* ================================================================== *)

(** A statement that sends nothing to the array. *)
Definition quiet {A} (c : py A) : Prop := forall w, sent (snd (c w)) = sent w.

(** What [get_skey] does with the answer to the login. *)
Definition after_login (cfg : config) (env : environment) (msa : string * string)
           (ret_code sessionkey : option string) : py (option string) :=
  if eq_str ret_code "1" then
    now <- utcnow env ;;
    (if negb (USE_SSL cfg) then
       cache_data <- sql_cmd cfg env (Q_select_ip_http (fst msa)) false ;;
       match cache_data with
       | PyNone =>
           sql_cmd cfg env
                   (Q_insert (snd msa) (fst msa) "http" (timestamp env (now + minutes 30))
                             (str sessionkey)) false
       | _ =>
           sql_cmd cfg env
                   (Q_update_http (str sessionkey) (timestamp env (now + minutes 30)) (fst msa))
                   false
       end
     else
       cache_data <-
         sql_cmd cfg env (Q_select_name_ip_https (snd msa) (fst msa)) false ;;
       match cache_data with
       | PyNone =>
           sql_cmd cfg env
                   (Q_insert (snd msa) (fst msa) "https" (timestamp env (now + minutes 30))
                             (str sessionkey)) false
       | _ =>
           sql_cmd cfg env
                   (Q_update_https (str sessionkey) (timestamp env (now + minutes 30))
                                   (snd msa) (fst msa)) false
       end) ;;
    ret sessionkey
  else if eq_str ret_code "2" then ret ret_code
  else ret None.

(** The line [sql_cmd] prints when the cache file does not open. *)
Definition cache_error_line (cfg : config) (e : string) : string :=
  "CACHE ERROR: (db: " ++ CACHE_DB cfg ++ ") " ++ e.

(** The world after [n] more clock readings, the requests [rs] (latest
    first) and the lines [ls] (latest first). *)
Definition after (n : nat) (rs : list request) (ls : list string) (w : world) : world :=
  World (db w) (n + clock_reads w) (rs ++ sent w)%list (ls ++ stdout w)%list (files w).

(** The branches of [get_full_json] that read the answer without a second
    request: the component name, the name of its objects, and the body of
    the loop. *)
Definition pure_kinds
  : list (string * (string * (element -> components -> result components))) :=
  [ ("disks", ("drive", full_disk));
    ("vdisks", ("virtual-disk", full_vdisk));
    ("pools", ("pools", full_pool));
    ("disk-groups", ("disk-group", full_disk_group));
    ("volumes", ("volume", full_volume));
    ("enclosures", ("enclosures", full_enclosure));
    ("power-supplies", ("power-supplies", full_power_supply));
    ("fans", ("fan-details", full_fan));
    ("ports", ("ports", full_port)) ].

(** The name [expand_dict] gives to a short key it knows. *)
Definition long_name (k : string) : string :=
  match sget m k with
  | Some l => l
  | None => k
  end.

Definition rename (ms : metrics) : metrics :=
  map (fun kv => (long_name (fst kv), snd kv)) ms.

(** The inner loop of [expand_dict] on the metrics of one instance renames
    every key, or ends on the key [key]. *)
Definition expandable (ms : metrics) : Prop :=
  for_each (keys ms) (expand_key ms) [] = Return (rename ms).

Definition fails_on (key : string) (ms : metrics) : Prop :=
  for_each (keys ms) (expand_key ms) [] = Raise (KeyError (Some key)).

(** The dictionary [expand_dict] returns when it knows every key. *)
Definition renamed (d : components) : components :=
  map (fun e => (fst e, rename (snd e))) d.

(** The kinds whose short keys are all in the table of [expand_dict], and
    the kinds that have a key outside of it, with the first such key of
    their metrics. *)
Definition expanding_kinds : list string :=
  [ "disks"; "vdisks"; "enclosures"; "power-supplies"; "fans" ].

Definition failing_kinds : list (string * string) :=
  [ ("pools", "hc"); ("disk-groups", "bs"); ("volumes", "szn"); ("ports", "pt") ].

(** [n] times the character [c]. *)
Fixpoint replicate (n : nat) (c : ascii) : string :=
  match n with
  | O => EmptyString
  | S k => String c (replicate k c)
  end.

(** *** make_cred_hash

    The digest [md5(s.encode()).hexdigest()] and the file system are not
    the script's own: [md5_hexdigest s] is the digest of the text [s],
    [read_text name] the text of the file [name], or [None] when there is
    no such file.  The text of the file is taken to be ASCII. *)

(** The ASCII characters [str.strip()] removes. *)
Definition isspace (c : ascii) : bool :=
  let n := nat_of_ascii c in
  ((9 <=? n)%nat && (n <=? 13)%nat) || ((28 <=? n)%nat && (n <=? 32)%nat).

(** A line ends at a line feed or at a carriage return (a file opened in
    text mode hands either, and the pair, to the script as one line
    feed). *)
Definition is_line_end (c : ascii) : bool :=
  let n := nat_of_ascii c in (n =? 10)%nat || (n =? 13)%nat.

Definition LF : ascii := ascii_of_nat 10.

(** [login_file.readline()] on a file just opened. *)
Fixpoint readline (text : string) : string :=
  match text with
  | EmptyString => EmptyString
  | String c rest =>
      if is_line_end c then String LF EmptyString else String c (readline rest)
  end.

(** [s.replace(c, '')] for a one-character [c]. *)
Fixpoint remove_char (s : string) (c : ascii) : string :=
  match s with
  | EmptyString => EmptyString
  | String a rest =>
      if Ascii.eqb a c then remove_char rest c else String a (remove_char rest c)
  end.

Fixpoint lstrip (s : string) : string :=
  match s with
  | EmptyString => EmptyString
  | String a rest => if isspace a then lstrip rest else s
  end.

Fixpoint rstrip_space (s : string) : string :=
  match s with
  | EmptyString => EmptyString
  | String a rest =>
      match rstrip_space rest with
      | EmptyString => if isspace a then EmptyString else String a EmptyString
      | r => String a r
      end
  end.

(** [s.strip()]. *)
Definition strip (s : string) : string := rstrip_space (lstrip s).

Section MakeCredHash.

Variable md5_hexdigest : string -> string.
Variable read_text : string -> option string.

(** Return md5 hash of login string. *)
Definition make_cred_hash (cred : string) (isfile : bool) : result string :=
  if isfile then
    match read_text cred with
    | Some login_file =>
        let login_data := strip (remove_char (readline login_file) LF) in
        if negb (Py.find login_data "_" =? -1)%Z then
          Return (md5_hexdigest login_data)
        else
          Return login_data
    | None =>
        Raise (SystemExit ("ERROR: File with login data doesn't exists: " ++ cred))
    end
  else
    Return (md5_hexdigest cred).

End MakeCredHash.

(** Blanks: white space that ends no line. *)
Definition blank (c : ascii) : bool := isspace c && negb (is_line_end c).

Fixpoint all_chars (p : ascii -> bool) (s : string) : bool :=
  match s with
  | EmptyString => true
  | String c rest => p c && all_chars p rest
  end.

(** One line of text with no white space at either end. *)
Definition bare_line (s : string) : Prop :=
  all_chars (fun c => negb (is_line_end c)) s = true
  /\ lstrip s = s /\ rstrip_space s = s.

(** Nothing, or a line end and whatever follows it. *)
Definition line_end_and_more (s : string) : Prop :=
  match s with
  | EmptyString => True
  | String c _ => is_line_end c = true
  end.

(** *** The [lld] and [full] commands of the main block

    What the script does once its settings are made: it gets the session
    key and hands it to the command; the text returned here is what it
    prints. *)
Inductive command : Type :=
| lld
| full.

Definition main_lld_full (cfg : config) (env : environment) (cmd : command)
           (MSA_CONNECT : string * string) (part : string) (CRED_HASH : string)
           (to_pretty : option nat) (human : bool) : py json_text :=
  (* Getting sessionkey *)
  skey <- get_skey cfg env MSA_CONNECT CRED_HASH true ;;
  match cmd with
  | lld =>
      (* Make discovery *)
      make_lld cfg env MSA_CONNECT part skey to_pretty
  | full =>
      (* Getting full components data in JSON *)
      get_full_json cfg env MSA_CONNECT part skey to_pretty human
  end.

(** A statement that leaves the cache file alone and sends nothing but
    requests that bear the session key [sk]. *)
Definition bears (cfg : config) (sk : option string) {A} (c : py A) : Prop :=
  forall w,
    db (snd (c w)) = db w
    /\ exists more,
        sent (snd (c w)) = (more ++ sent w)%list
        /\ Forall (fun r => exists url, r = api_request cfg url sk) more.

(** *** A second array, for the components the first one lacks *)

Module Example.

(** The answers are saved to a file. *)
Definition cfg_save : config :=
  Config 2 "/var/tmp/zbx-hpmsa/zbx-hpmsa.cache.db" (Some "/tmp/msa.xml") false false
         "monitor".

(** The array is polled over https, without the check of its
    certificate. *)
Definition cfg_https : config :=
  Config 2 "/var/tmp/zbx-hpmsa/zbx-hpmsa.cache.db" None true false "monitor".

(** The row a run over https leaves when the array is given by its
    address alone (the name is then the address), and the cache file that
    holds it. *)
Definition by_address : list row :=
  [Row "10.0.0.5" "10.0.0.5" "https" 150000000 "OLDKEY"].

Definition cached_by_address : world :=
  World (Database None None None None (Some by_address)) 0 [] [] [].

Definition disk : element :=
  Sample.object "drive" "drive"
                [ Sample.property "durable-id" "disk_01.01";
                  Sample.property "location" "1.1";
                  Sample.property "serial-number" "6SL0001";
                  Sample.property "health-numeric" "0";
                  Sample.property "temperature-numeric" "35";
                  Sample.property "power-on-hours" "1200" ].

(** A disk the array reports without its health. *)
Definition bare_disk : element :=
  Sample.object "drive" "drive"
                [ Sample.property "durable-id" "disk_01.02";
                  Sample.property "location" "1.2" ].

Definition disk_group : element :=
  Sample.object "disk-groups" "disk-group"
                [ Sample.property "name" "dg01";
                  Sample.property "serial-number" "00c0ff1";
                  Sample.property "health-numeric" "0";
                  Sample.property "status-numeric" "0";
                  Sample.property "owner-numeric" "1";
                  Sample.property "preferred-owner-numeric" "1";
                  Sample.property "current-job-numeric" "2";
                  Sample.property "current-job-completion" "45%";
                  Sample.property "blocksize" "512";
                  Sample.property "size" "1198.9GB";
                  Sample.property "size-numeric" "2341795840";
                  Sample.property "freespace" "0B";
                  Sample.property "freespace-numeric" "0";
                  Sample.property "raw-size" "1798.4GB";
                  Sample.property "raw-size-numeric" "3512693760" ].

Definition controller (id : string) : element :=
  Sample.object "controllers" "controllers"
                [ Sample.property "durable-id" ("controller_" ++ id);
                  Sample.property "controller-id" id;
                  Sample.property "sc-fw" "GLS220R005";
                  Sample.property "health-numeric" "0";
                  Sample.property "status-numeric" "0";
                  Sample.property "redundancy-status-numeric" "2" ].

Definition statistics : element :=
  Sample.response
    [ Sample.object "controller-statistics" "controller-statistics"
                    [ Sample.property "cpu-load" "5"; Sample.property "iops" "120" ] ]
    "0" Sample.completed.

(** The array: it answers a login with the given code and text, and the
    [show] commands with the given disks, the disk group, the two
    controllers and their statistics, and with no object otherwise. *)
Definition array (login_code login_text : string) (disks : list element)
  : list request -> request -> reply :=
  fun _ r =>
    let u := full_url r in
    if contains u "/api/login/" then
      Response "<RESPONSE/>" (Some (Sample.response [] login_code login_text))
    else if contains u "/api/show/controller-statistics/" then
      Response "<RESPONSE/>" (Some statistics)
    else if contains u "/api/show/controllers" then
      Response "<RESPONSE/>"
               (Some (Sample.response [controller "A"; controller "B"] "0"
                                      Sample.completed))
    else if contains u "/api/show/disks" then
      Response "<RESPONSE/>" (Some (Sample.response disks "0" Sample.completed))
    else if contains u "/api/show/disk-groups" then
      Response "<RESPONSE/>" (Some (Sample.response [disk_group] "0" Sample.completed))
    else
      Response "<RESPONSE/>" (Some (Sample.response [] "0" Sample.completed)).

Definition env (disks : list element) : environment :=
  Environment Sample.clock Sample.zone (array "1" "SESSIONKEY1" disks)
              Sample.engine Sample.str_float
              (fun _ => false).

(** Logins get an answer that is neither a key nor a refusal. *)
Definition env_busy : environment :=
  Environment Sample.clock Sample.zone (array "3" "Please retry" [])
              Sample.engine Sample.str_float
              (fun _ => false).

(** An array whose session key holds a double quote, and what SQLite
    answers to the [INSERT] that carries it: the string ends at the
    quote, and the rest of the key is no SQL. *)
Definition quoted_key : string := "ab" ++ dq ++ "cd".

Definition syntax_error (text : string) (d : database) : executed :=
  OperationalError ("near " ++ dq ++ "cd" ++ dq ++ ": syntax error").

Definition env_quoted : environment :=
  Environment Sample.clock Sample.zone (array "1" quoted_key [])
              syntax_error Sample.str_float
              (fun _ => false).

(** A cache file that cannot be opened. *)
Definition unreachable : world :=
  World (Database (Some "unable to open database file") None None None None) 0 [] [] [].

(** What a statement returns, and the world it leaves. *)
Definition returned {A} (c : py A) (w : world) (default : A) : A :=
  match fst (c w) with
  | Return a => a
  | Raise _ => default
  end.

Definition left_by {A} (c : py A) (w : world) : world := snd (c w).

Definition value_of {A} (r : result A) (default : A) : A :=
  match r with
  | Return a => a
  | Raise _ => default
  end.

(** A digest to stand for md5, and a credentials file: blanks around the
    login, a line end (carriage return and line feed), a second line. *)
Definition digest (s : string) : string := "md5(" ++ s ++ ")".

Definition CRLF : string :=
  String (ascii_of_nat 13) (String (ascii_of_nat 10) EmptyString).

Definition read_text (name : string) : option string :=
  if String.eqb name "/etc/zabbix/msa.cred"
  then Some (" " ++ "monitor_!monitor" ++ "  " ++ CRLF ++ "second line")
  else None.

End Example.

(* ================================================================== *)
(** ** Strings and dictionaries *)
(* ================================================================== *)

(** Closes [exists x, run = (r, x) /\ facts] when the run computes. *)
Ltac returns := eexists; split; [reflexivity|]; repeat split.

Lemma find_eq s sub :
  Py.find s sub =
  if String.prefix sub s then 0%Z
  else match s with
       | EmptyString => (-1)%Z
       | String _ rest =>
           if (Py.find rest sub =? -1)%Z then (-1)%Z else (Py.find rest sub + 1)%Z
       end.
Proof. destruct s; reflexivity. Qed.

Lemma find_nonneg s sub : (Py.find s sub = -1 \/ 0 <= Py.find s sub)%Z.
Proof.
  induction s as [|c s IH]; rewrite find_eq.
  - destruct (String.prefix sub ""); [right; lia | left; reflexivity].
  - destruct (String.prefix sub (String c s)); [right; lia|].
    destruct (Z.eqb_spec (Py.find s sub) (-1)); [auto|right; lia].
Qed.

Lemma prefix_app p s : String.prefix p s = true <-> exists b, s = p ++ b.
Proof.
  revert s. induction p as [|c p IH]; intros s.
  - split; [intros _; exists s; reflexivity | intros _; destruct s; reflexivity].
  - destruct s as [|c' s]; cbn [String.prefix].
    + split; [discriminate | intros (b & E); discriminate].
    + destruct (Ascii.ascii_dec c c') as [->|N].
      * rewrite IH. split; intros (b & E); exists b.
        -- cbn. rewrite E. reflexivity.
        -- cbn in E. injection E as E. exact E.
      * split; [discriminate|]. intros (b & E). cbn in E. injection E as E _.
        congruence.
Qed.

(** [s.find(sub)] is not [-1] exactly when [sub] occurs in [s]. *)
Lemma find_occurs s sub :
  Py.find s sub <> (-1)%Z <-> exists a b, s = a ++ sub ++ b.
Proof.
  induction s as [|c s IH]; rewrite find_eq.
  - destruct (String.prefix sub "") eqn:P.
    + split; [|lia]. intros _. apply prefix_app in P. destruct P as (b & E).
      exists "", b. exact E.
    + split; [lia|]. intros (a & b & E). exfalso.
      destruct a; [|discriminate]. cbn in E.
      assert (String.prefix sub "" = true) by (apply prefix_app; exists b; exact E).
      congruence.
  - destruct (String.prefix sub (String c s)) eqn:P.
    + split; [|lia]. intros _. apply prefix_app in P. destruct P as (b & E).
      exists "", b. exact E.
    + destruct (Z.eqb_spec (Py.find s sub) (-1)) as [E|E].
      * split; [lia|]. intros (a & b & Es). exfalso.
        destruct a as [|c' a].
        -- cbn in Es.
           assert (String.prefix sub (String c s) = true)
             by (apply prefix_app; exists b; exact Es).
           congruence.
        -- cbn in Es. injection Es as _ Es. apply IH; [|exact E].
           exists a, b. exact Es.
      * split.
        -- intros _. apply IH in E. destruct E as (a & b & Es).
           exists (String c a), b. cbn. rewrite Es. reflexivity.
        -- intros _. destruct (find_nonneg s sub); [contradiction|lia].
Qed.

Lemma contains_app_r a b sub : contains b sub = true -> contains (a ++ b) sub = true.
Proof.
  unfold contains. rewrite !negb_true_iff, !Z.eqb_neq, !find_occurs.
  intros (x & y & ->). exists (a ++ x), y. clear.
  induction a as [|c a IH]; cbn; [reflexivity|rewrite IH; reflexivity].
Qed.




Lemma sget_sset_same {V} (d : list (string * V)) k v : sget (sset d k v) k = Some v.
Proof.
  unfold sget, sset. induction d as [|[k' v'] d IH]; cbn [setitem Py.get].
  - rewrite String.eqb_refl. reflexivity.
  - destruct (String.eqb k' k) eqn:E; cbn [Py.get]; rewrite E; [reflexivity|exact IH].
Qed.

Lemma sget_sset_other {V} (d : list (string * V)) k k' v :
  k <> k' -> sget (sset d k v) k' = sget d k'.
Proof.
  intros N. unfold sget, sset. induction d as [|[k0 v0] d IH]; cbn [setitem Py.get].
  - destruct (String.eqb_spec k k'); [contradiction|reflexivity].
  - destruct (String.eqb_spec k0 k) as [->|E]; cbn [Py.get].
    + destruct (String.eqb_spec k k'); [contradiction|reflexivity].
    + rewrite IH. reflexivity.
Qed.

(** A loop whose body appends one item per element. *)
Lemma for_each_append {A B} (body : A -> list B -> result (list B)) (g : A -> B) xs :
  (forall x acc, body x acc = Return (acc ++ [g x])%list) ->
  forall acc, for_each xs body acc = Return (acc ++ map g xs)%list.
Proof.
  intros Hb. induction xs as [|x xs IH]; intros acc; cbn [for_each map].
  - rewrite app_nil_r. reflexivity.
  - rewrite Hb. cbn [rbind]. rewrite IH, <- app_assoc. reflexivity.
Qed.

Lemma for_each_app {A S} (body : A -> S -> result S) xs ys s :
  for_each (xs ++ ys) body s = rbind (for_each xs body s) (for_each ys body).
Proof.
  revert s. induction xs as [|x xs IH]; intros s; cbn [app for_each rbind].
  - reflexivity.
  - destruct (body x s) as [s'|e]; cbn [rbind]; [apply IH|reflexivity].
Qed.

Lemma eqb_opt_eq x y : eqb_opt x y = true <-> x = y.
Proof.
  destruct x as [a|], y as [b|]; cbn; try (split; [discriminate|discriminate]);
    [|tauto].
  rewrite String.eqb_eq. split; congruence.
Qed.

Lemma eqb_opt_neq x y : x <> y -> eqb_opt x y = false.
Proof.
  intros N. destruct (eqb_opt x y) eqn:E; [|reflexivity].
  apply eqb_opt_eq in E. contradiction.
Qed.

Lemma oget_oset_same {V} (d : list (option string * V)) k v :
  oget (oset d k v) k = Some v.
Proof.
  assert (R : eqb_opt k k = true) by (apply eqb_opt_eq; reflexivity).
  unfold oget, oset. induction d as [|[k' v'] d IH]; cbn [setitem Py.get].
  - rewrite R. reflexivity.
  - destruct (eqb_opt k' k) eqn:E; cbn [Py.get]; rewrite E; [reflexivity|exact IH].
Qed.

Lemma oget_oset_other {V} (d : list (option string * V)) k k' v :
  k <> k' -> oget (oset d k v) k' = oget d k'.
Proof.
  intros N. unfold oget, oset. induction d as [|[k0 v0] d IH]; cbn [setitem Py.get].
  - rewrite (eqb_opt_neq _ _ N). reflexivity.
  - destruct (eqb_opt k0 k) eqn:E; cbn [Py.get].
    + apply eqb_opt_eq in E. subst k0. rewrite (eqb_opt_neq _ _ N). reflexivity.
    + rewrite IH. reflexivity.
Qed.

(** A loop raises when the body raises on one of its elements. *)
Lemma for_each_raises {A S} (body : A -> S -> result S) x :
  (forall s, exists e, body x s = Raise e) ->
  forall pre post s, exists e, for_each (pre ++ x :: post) body s = Raise e.
Proof.
  intros Hx pre post. induction pre as [|y pre IH]; intros s; cbn [app for_each].
  - destruct (Hx s) as (e & E). rewrite E. exists e. reflexivity.
  - destruct (body y s) as [s'|e]; cbn [rbind]; [apply IH|exists e; reflexivity].
Qed.

(* ================================================================== *)
(** ** The session key *)
(* ================================================================== *)

Lemma login_url_contains cfg msa h : contains (login_url cfg msa h) "login" = true.
Proof.
  unfold login_url. apply contains_app_r.
  change ("/api/login/" ++ h) with ("/api/" ++ ("login" ++ ("/" ++ h))).
  apply contains_app_r. reflexivity.
Qed.

(** A login sends one request, saves nothing, and hands back what the
    status object of the answer says. *)
Lemma query_xmlapi_login cfg env msa h w body xml rc sk :
  device env (sent w) (login_request cfg msa h) = Response body (Some xml) ->
  status_of xml "return-code" = Return rc ->
  status_of xml "response" = Return sk ->
  query_xmlapi cfg env (login_url cfg msa h) None w
  = (Return (rc, sk, xml), sending (login_request cfg msa h) w).
Proof.
  intros Hd Hrc Hsk. unfold status_of, login_request, sending in *.
  unfold query_xmlapi, bind, api_request in *.
  destruct (USE_SSL cfg), (VERIFY_SSL cfg); unfold requests_get; cbn [fst snd];
    rewrite Hd; unfold cannot_parse, bind, save_response;
    rewrite login_url_contains; cbn [negb];
    destruct (SAVE_XML cfg); unfold ret, lift; rewrite Hrc, Hsk; reflexivity.
Qed.

Lemma set_table_same w t : table (db w) = Some t -> set_table t w = w.
Proof. destruct w as [[ce de ee me tb] n s o f]; cbn. intros ->. reflexivity. Qed.

Lemma healthy_set_table w t t' : healthy (db w) t -> healthy (db (set_table t' w)) t'.
Proof. intros ((A & D & B & M) & C). repeat split; assumption. Qed.

Lemma plain_readable v : plain v = true -> readable v = true.
Proof. unfold plain. intros P. apply andb_prop in P. tauto. Qed.

Lemma readable_quotable v : readable v = true -> quotable v = true.
Proof. unfold readable. intros P. apply andb_prop in P. tauto. Qed.

Lemma plain_quotable v : plain v = true -> quotable v = true.
Proof. intros P. apply readable_quotable, plain_readable, P. Qed.

Lemma lower_ip_quotable d : lower d = "ip" -> quotable d = true.
Proof.
  destruct d as [|a [|b [|c d']]]; cbn [lower]; try discriminate.
  intros E. injection E as Ea Eb.
  destruct a as [[] [] [] [] [] [] [] []]; cbv in Ea; try discriminate Ea;
    destruct b as [[] [] [] [] [] [] [] []]; cbv in Eb; try discriminate Eb;
    reflexivity.
Qed.

(** Readable texts make a statement that reads as meant. *)
Lemma readable_values_meant q :
  forallb readable (values q) = true -> reads_as_meant q = true.
Proof.
  destruct q; cbn [reads_as_meant values forallb]; try reflexivity; try tauto.
  intros H. repeat (apply andb_prop in H; destruct H as (?%readable_quotable & H)).
  repeat (apply andb_true_intro; split; [assumption|]). reflexivity.
Qed.

(** On a healthy file [sql_cmd] is the statement run on the rows, when it
    reads as meant. *)
Lemma sql_cmd_healthy cfg env q fetch_all w t :
  healthy (db w) t ->
  reads_as_meant q = true ->
  sql_cmd cfg env q fetch_all w =
  match run_query q t with
  | Rows selected t' =>
      (Return (if negb fetch_all then fetchone selected else AllRows selected),
       set_table t' w)
  | OperationalError e =>
      if startswith e "no such table"
      then (Raise (SystemExit "Cache is empty"), w)
      else (Raise (SystemExit ("ERROR: " ++ e ++ ". Query: " ++ query_text env q)), w)
  | ConstraintError e => (Raise (IntegrityError e), w)
  | Damaged e => (Raise (DatabaseError e), w)
  | Refused e => (Raise (ProgrammingError e), w)
  end.
Proof.
  intros ((A & D & B & M) & C) R. unfold sql_cmd, execute, on_file.
  rewrite A, R, D, B, C, M.
  destruct q; cbn [writes]; try reflexivity; destruct (run_query _ t); reflexivity.
Qed.

(** Without a table every statement but the creation of the table ends the
    run. *)
Lemma sql_cmd_no_table cfg env q fetch_all w :
  sound (db w) -> table (db w) = None -> q <> Q_create_table ->
  reads_as_meant q = true ->
  sql_cmd cfg env q fetch_all w = (Raise (SystemExit "Cache is empty"), w).
Proof.
  intros (C & D & B & _) T Q R. unfold sql_cmd, execute, on_file.
  rewrite C, R, D, B, T.
  destruct q; try reflexivity. contradiction.
Qed.

(** The cached branch: a clock reading, the lookup, and the comparison. *)
Lemma get_skey_true cfg env msa h w t :
  healthy (db w) t ->
  get_skey cfg env msa h true w =
  match lookup cfg msa t with
  | Some r =>
      if (utc_clock env (clock_reads w) <? expired r)%Z
      then (Return (Some (skey r)), tick w)
      else get_skey_login cfg env msa h (tick w)
  | None => get_skey_login cfg env msa h (tick w)
  end.
Proof.
  intros H. pose proof H as (_ & C).
  assert (Ht : healthy (db (tick w)) t) by exact H.
  assert (Hs : set_table t (tick w) = tick w) by (apply set_table_same; exact C).
  unfold get_skey, lookup, cache_key.
  unfold bind at 1.
  change (utcnow env w) with (Return (naive_utc env (clock_reads w)), tick w).
  cbv iota zeta. fold (utc_clock env (clock_reads w)). unfold bind at 1.
  destruct (USE_SSL cfg); cbn [negb];
    (rewrite (sql_cmd_healthy _ _ _ _ _ _ Ht) by reflexivity);
    cbn [run_query negb]; rewrite Hs;
    (destruct (filter _ t) as [|r rs]; cbn [fetchone hd_error]; [reflexivity|]);
    destruct (utc_clock env (clock_reads w) <? expired r)%Z; reflexivity.
Qed.

Lemma get_skey_stale cfg env msa h w t :
  healthy (db w) t ->
  (forall r, lookup cfg msa t = Some r ->
             (expired r <= utc_clock env (clock_reads w))%Z) ->
  get_skey cfg env msa h true w = get_skey_login cfg env msa h (tick w).
Proof.
  intros H He. rewrite (get_skey_true _ _ _ _ _ _ H).
  destruct (lookup cfg msa t) as [r|]; [|reflexivity].
  specialize (He r eq_refl).
  destruct (Z.ltb_spec (utc_clock env (clock_reads w)) (expired r)); [lia|reflexivity].
Qed.

(** A plain text names no column: the token is the string. *)
Lemma column_plain r v : plain v = true -> column r v = None.
Proof.
  unfold plain, column. intros P. apply andb_prop in P. destruct P as (_ & P).
  apply negb_true_iff in P. cbn [existsb] in P.
  repeat (apply orb_false_elim in P; destruct P as (-> & P)). reflexivity.
Qed.

Lemma term_plain r v : plain v = true -> term r v = v.
Proof. intros P. unfold term. rewrite (column_plain r v P). reflexivity. Qed.

Lemma http_key_plain i r : plain i = true -> http_key i r = http_row i r.
Proof. intros P. unfold http_key, http_row. rewrite (term_plain r i P). reflexivity. Qed.

Lemma https_key_plain d i r :
  plain d = true -> plain i = true -> https_key d i r = https_row d i r.
Proof.
  intros Pd Pi. unfold https_key, https_row.
  rewrite (term_plain r d Pd), (term_plain r i Pi). reflexivity.
Qed.

(** For a plain endpoint the lookup takes the rows written for it. *)
Lemma cache_key_plain cfg msa r :
  endpoint_plain msa ->
  cache_key cfg msa r
  = if USE_SSL cfg then https_row (snd msa) (fst msa) r else http_row (fst msa) r.
Proof.
  intros (Pi & Pd). unfold cache_key.
  destruct (USE_SSL cfg); [apply https_key_plain|apply http_key_plain]; assumption.
Qed.

Lemma filter_cache_key_plain cfg msa t :
  endpoint_plain msa ->
  filter (cache_key cfg msa) t
  = filter (if USE_SSL cfg then https_row (snd msa) (fst msa) else http_row (fst msa)) t.
Proof.
  intros P. apply filter_ext. intros r. rewrite (cache_key_plain _ _ _ P).
  destruct (USE_SSL cfg); reflexivity.
Qed.

Lemma no_http_row_no_conflict d i t :
  plain i = true ->
  filter (http_key i) t = [] -> existsb (primary_key d i "http") t = false.
Proof.
  intros P. induction t as [|r t IH]; cbn [filter existsb]; [reflexivity|].
  rewrite (http_key_plain i r P). unfold http_row at 1, primary_key at 1.
  destruct (String.eqb (ip r) i && String.eqb (proto r) "http") eqn:E.
  - discriminate.
  - intros H. rewrite (IH H), <- andb_assoc, E, andb_false_r. reflexivity.
Qed.

Lemma no_https_row_no_conflict d i t :
  plain d = true -> plain i = true ->
  filter (https_key d i) t = [] -> existsb (primary_key d i "https") t = false.
Proof.
  intros Pd Pi. induction t as [|r t IH]; cbn [filter existsb]; [reflexivity|].
  rewrite (https_key_plain d i r Pd Pi).
  change (primary_key d i "https" r) with (https_row d i r).
  destruct (https_row d i r); [discriminate|].
  intros H. rewrite (IH H). reflexivity.
Qed.

(** The login branch on return code 1, for a plain endpoint: the key is
    returned and the entry is inserted or updated, with the expiry the
    clock reading after the answer gives.  The insert never meets a row
    with the same primary key. *)
Lemma get_skey_login_ok cfg env msa h w t body xml sk :
  healthy (db w) t ->
  endpoint_plain msa -> readable (str sk) = true ->
  device env (sent w) (login_request cfg msa h) = Response body (Some xml) ->
  status_of xml "return-code" = Return (Some "1") ->
  status_of xml "response" = Return sk ->
  get_skey_login cfg env msa h w =
  (Return sk,
   set_table (upsert cfg msa (expiry env (clock_reads w)) (str sk) t)
             (tick (sending (login_request cfg msa h) w))).
Proof.
  intros H (Pi & Pd) Pk Hd Hrc Hsk.
  unfold get_skey_login. fold (login_url cfg msa h). unfold bind at 1.
  rewrite (query_xmlapi_login _ _ _ _ _ _ _ _ _ Hd Hrc Hsk).
  set (w1 := sending (login_request cfg msa h) w).
  assert (H1 : healthy (db (tick w1)) t) by exact H.
  cbn [eq_str String.eqb Ascii.eqb Bool.eqb]. cbv iota.
  unfold bind at 1.
  change (utcnow env w1) with (Return (naive_utc env (clock_reads w)), tick w1).
  cbv iota zeta. fold (expiry env (clock_reads w)).
  unfold bind at 1. unfold upsert, lookup, cache_key, active_proto.
  pose proof (plain_readable _ Pi) as Ri. pose proof (plain_readable _ Pd) as Rd.
  pose proof (readable_quotable _ Ri) as Qi.
  pose proof (readable_quotable _ Rd) as Qd.
  pose proof (readable_quotable _ Pk) as Qk.
  destruct (USE_SSL cfg); cbn [negb]; unfold bind at 1;
    (rewrite (sql_cmd_healthy _ _ _ _ _ _ H1) by reflexivity); cbn [run_query negb];
    destruct (filter _ t) as [|r rs] eqn:F; cbn [fetchone hd_error];
    (rewrite (sql_cmd_healthy _ _ _ _ _ _ (healthy_set_table _ _ _ H1));
     [|cbn [reads_as_meant values forallb]; rewrite ?Ri, ?Rd, ?Pk, ?Qi, ?Qd, ?Qk;
       reflexivity]);
    cbn [run_query negb fetchone].
  - rewrite (no_https_row_no_conflict _ _ _ Pd Pi F). reflexivity.
  - reflexivity.
  - rewrite (no_http_row_no_conflict _ _ _ Pi F). reflexivity.
  - reflexivity.
Qed.

(** The login branch on any other return code: nothing is written. *)
Lemma get_skey_login_code cfg env msa h w body xml rc sk :
  device env (sent w) (login_request cfg msa h) = Response body (Some xml) ->
  status_of xml "return-code" = Return rc ->
  status_of xml "response" = Return sk ->
  eq_str rc "1" = false ->
  get_skey_login cfg env msa h w =
  (Return (if eq_str rc "2" then rc else None), sending (login_request cfg msa h) w).
Proof.
  intros Hd Hrc Hsk Hne.
  unfold get_skey_login. fold (login_url cfg msa h). unfold bind at 1.
  rewrite (query_xmlapi_login _ _ _ _ _ _ _ _ _ Hd Hrc Hsk).
  rewrite Hne. destruct (eq_str rc "2"); reflexivity.
Qed.

Lemma cache_key_set_session cfg msa k e r :
  endpoint_plain msa ->
  cache_key cfg msa (set_session k e r) = cache_key cfg msa r.
Proof.
  intros P. rewrite !(cache_key_plain _ _ _ P). destruct (USE_SSL cfg); reflexivity.
Qed.

Lemma filter_update_where cfg msa k e t :
  endpoint_plain msa ->
  filter (cache_key cfg msa) (update_where (cache_key cfg msa) k e t)
  = map (fun r => set_session (term r k) e r) (filter (cache_key cfg msa) t).
Proof.
  intros P. induction t as [|r t IH]; [reflexivity|].
  cbn [update_where map filter].
  destruct (cache_key cfg msa r) eqn:E.
  - rewrite (cache_key_set_session _ _ _ _ _ P), E. cbn [map]. f_equal. exact IH.
  - rewrite E. exact IH.
Qed.

Lemma cache_key_new_row cfg msa e k :
  endpoint_plain msa ->
  cache_key cfg msa (Row (snd msa) (fst msa) (active_proto cfg) e k) = true.
Proof.
  intros P. rewrite (cache_key_plain _ _ _ P).
  unfold active_proto, https_row, http_row.
  destruct (USE_SSL cfg); cbn [dns_name ip proto];
    rewrite ?String.eqb_refl; reflexivity.
Qed.

(** The lookup right after the upsert finds the session just written. *)
Lemma lookup_upsert cfg msa e k t :
  endpoint_plain msa -> plain k = true ->
  exists r, lookup cfg msa (upsert cfg msa e k t) = Some r
            /\ expired r = e /\ skey r = k.
Proof.
  intros P Pk. unfold upsert.
  destruct (lookup cfg msa t) as [r0|] eqn:L; unfold lookup in *.
  - rewrite (filter_update_where _ _ _ _ _ P).
    destruct (filter (cache_key cfg msa) t) as [|r1 rs]; [discriminate|].
    cbn [map hd_error]. eexists. split; [reflexivity|].
    split; [reflexivity|]. cbn [skey set_session]. apply term_plain, Pk.
  - destruct (filter (cache_key cfg msa) t) as [|r1 rs] eqn:F; [|discriminate].
    rewrite filter_app, F. cbn [filter app]. rewrite (cache_key_new_row _ _ _ _ P).
    cbn [hd_error]. returns.
Qed.

(** The tables the script writes have one entry per endpoint: the
    installed table has no row, and the upsert for a plain endpoint keeps
    the property.  On such a table the entry the cache holds for a plain
    endpoint is the row the lookup finds. *)
Lemma one_entry_empty : one_entry_per_key [].
Proof. split; intros; cbn; lia. Qed.

Lemma cache_key_length cfg msa t :
  endpoint_plain msa ->
  one_entry_per_key t -> (length (filter (cache_key cfg msa) t) <= 1)%nat.
Proof.
  intros P (A & B). rewrite (filter_cache_key_plain _ _ _ P).
  destruct (USE_SSL cfg); [apply B|apply A].
Qed.

(** On such a table the entry of a plain endpoint is the row the lookup
    finds. *)
Lemma entry_is_looked_up cfg msa t r :
  endpoint_plain msa ->
  one_entry_per_key t -> In r t -> cache_key cfg msa r = true ->
  lookup cfg msa t = Some r.
Proof.
  intros P U I K. pose proof (cache_key_length cfg msa t P U) as L.
  assert (F : In r (filter (cache_key cfg msa) t)) by (apply filter_In; split; assumption).
  unfold lookup. destruct (filter (cache_key cfg msa) t) as [|r1 [|r2 rs]].
  - contradiction.
  - destruct F as [->|[]]. reflexivity.
  - cbn in L. lia.
Qed.

Lemma filter_update_where_length f sel k e t :
  (forall k' r, f (set_session k' e r) = f r) ->
  length (filter f (update_where sel k e t)) = length (filter f t).
Proof.
  intros Hf. induction t as [|r t IH]; [reflexivity|].
  cbn [update_where map filter]. fold (update_where sel k e t).
  destruct (sel r); rewrite ?Hf; destruct (f r); cbn [length]; rewrite IH; reflexivity.
Qed.

(** The upsert of [get_skey] keeps the table that way. *)
Lemma upsert_one_entry cfg msa e k t :
  endpoint_plain msa ->
  one_entry_per_key t -> one_entry_per_key (upsert cfg msa e k t).
Proof.
  intros P U. pose proof U as (A & B). unfold upsert.
  destruct (lookup cfg msa t) as [r0|] eqn:L.
  - split; intros; rewrite filter_update_where_length; auto.
  - assert (F : filter (cache_key cfg msa) t = []).
    { unfold lookup in L. destruct (filter (cache_key cfg msa) t); [reflexivity|discriminate]. }
    rewrite (filter_cache_key_plain _ _ _ P) in F.
    unfold active_proto in *.
    split; intros; rewrite filter_app, length_app; cbn [filter];
      destruct (USE_SSL cfg).
    + unfold http_row at 2. cbn [ip proto]. rewrite andb_false_r. cbn. specialize (A i). lia.
    + unfold http_row at 2. cbn [ip proto]. rewrite andb_true_r.
      destruct (String.eqb_spec (fst msa) i) as [<-|N]; cbn [length].
      * rewrite F. cbn. lia.
      * specialize (A i). lia.
    + unfold https_row at 2. cbn [dns_name ip proto]. rewrite andb_true_r.
      destruct (String.eqb_spec (snd msa) d) as [<-|N]; cbn [andb length].
      * destruct (String.eqb_spec (fst msa) i) as [<-|N]; cbn [length].
        -- rewrite F. cbn. lia.
        -- specialize (B (snd msa) i). lia.
      * specialize (B d i). lia.
    + unfold https_row at 2. cbn [dns_name ip proto]. rewrite andb_false_r. cbn.
      specialize (B d i). lia.
Qed.

Lemma ticks_fields n w :
  db (ticks n w) = db w /\ sent (ticks n w) = sent w
  /\ clock_reads (ticks n w) = (n + clock_reads w)%nat.
Proof.
  revert w. induction n as [|n IH]; intros w; cbn [ticks].
  - repeat split.
  - destruct (IH (tick w)) as (A & B & C). rewrite A, B, C. cbn. repeat split. lia.
Qed.

(** While the entry is valid every run returns its key and only reads the
    clock. *)
Lemma polls_hits cfg env msa h n : forall w t r,
  healthy (db w) t ->
  lookup cfg msa t = Some r ->
  (forall i, (i < n)%nat -> (utc_clock env (clock_reads w + i) < expired r)%Z) ->
  polls cfg env msa h n w = (Return (repeat (Some (skey r)) n), ticks n w).
Proof.
  induction n as [|n IH]; intros w t r H L Hc; [reflexivity|].
  cbn [polls repeat ticks]. unfold bind at 1.
  rewrite (get_skey_true _ _ _ _ _ _ H), L.
  assert (C0 : (utc_clock env (clock_reads w) <? expired r)%Z = true).
  { apply Z.ltb_lt. specialize (Hc 0%nat). rewrite Nat.add_0_r in Hc. apply Hc. lia. }
  rewrite C0. unfold bind at 1.
  rewrite (IH (tick w) t r); [reflexivity|exact H|exact L|].
  intros i Hi. cbn [tick clock_reads].
  replace (S (clock_reads w) + i)%nat with (clock_reads w + S i)%nat by lia.
  apply Hc. lia.
Qed.

Lemma polls_app cfg env msa h n k w :
  polls cfg env msa h (n + k) w =
  (a <- polls cfg env msa h n ;; b <- polls cfg env msa h k ;; ret (a ++ b)%list) w.
Proof.
  revert w. induction n as [|n IH]; intros w; cbn [polls Nat.add].
  - unfold bind, ret. destruct (polls cfg env msa h k w) as [[l|e] w']; reflexivity.
  - unfold bind, ret.
    destruct (get_skey cfg env msa h true w) as [[x|e] w1]; [|reflexivity].
    rewrite IH. unfold bind, ret.
    destruct (polls cfg env msa h n w1) as [[a|e] w2]; [|reflexivity].
    destruct (polls cfg env msa h k w2) as [[b|e] w3]; reflexivity.
Qed.

(** C1, as the code has it: when the answer to the login carries return
    code 2, [get_skey] raises nothing; it returns the code, the string 2,
    where the session key would be, after the one login request, and the
    cache file is left as it was.  (With [use_cache] the login is reached
    when the lookup found no entry or an expired one.) *)
Theorem get_skey_auth_failure_returns_code
        cfg env msa h use_cache w body xml sk :
  device env (sent w) (login_request cfg msa h) = Response body (Some xml) ->
  status_of xml "return-code" = Return (Some "2") ->
  status_of xml "response" = Return sk ->
  (use_cache = true ->
   exists t, healthy (db w) t
             /\ forall r, lookup cfg msa t = Some r ->
                          (expired r <= utc_clock env (clock_reads w))%Z) ->
  exists w',
    get_skey cfg env msa h use_cache w = (Return (Some "2"), w')
    /\ sent w' = login_request cfg msa h :: sent w
    /\ db w' = db w.
Proof.
  intros Hd Hrc Hsk Hc. destruct use_cache.
  - destruct (Hc eq_refl) as (t & H & He).
    rewrite (get_skey_stale _ _ _ _ _ _ H He).
    rewrite (get_skey_login_code cfg env msa h (tick w) body xml (Some "2") sk
                                 Hd Hrc Hsk eq_refl).
    returns.
  - change (get_skey cfg env msa h false w) with (get_skey_login cfg env msa h w).
    rewrite (get_skey_login_code cfg env msa h w body xml (Some "2") sk
                                 Hd Hrc Hsk eq_refl).
    returns.
Qed.

Lemma get_skey_auth_failure_returns_code_witness :
  exists w',
    get_skey Sample.cfg Sample.env_refused Sample.msa Sample.cred_hash true
             Sample.installed
    = (Return (Some "2"), w')
    /\ sent w' = login_request Sample.cfg Sample.msa Sample.cred_hash
                 :: sent Sample.installed
    /\ db w' = db Sample.installed.
Proof.
  apply (get_skey_auth_failure_returns_code
           Sample.cfg Sample.env_refused Sample.msa Sample.cred_hash true
           Sample.installed "<RESPONSE/>"
           (Sample.response [] "2" "Authentication Unsuccessful")
           (Some "Authentication Unsuccessful")).
  - reflexivity.
  - reflexivity.
  - reflexivity.
  - intros _. exists []. split; [repeat split|]. intros r L. discriminate L.
Defined.

(** C1 as stated fails: the array refuses the login with return code 2,
    and the first run on the installed cache returns the string 2 as an
    ordinary result. *)
Lemma get_skey_auth_failure_is_returned :
  status_of (Sample.response [] "2" "Authentication Unsuccessful") "return-code"
  = Return (Some "2")
  /\ fst (get_skey Sample.cfg Sample.env_refused Sample.msa Sample.cred_hash true
                   Sample.installed)
     = Return (Some "2").
Proof. split; reflexivity. Qed.

(** X23: for an endpoint whose address and name SQLite takes for the
    strings they are, on a cache file that opens and has its table: when
    the lookup finds an entry whose expiry is strictly greater than the
    timestamp of the clock reading, [get_skey] returns the cached key,
    sends nothing and leaves the cache file as it was (on the tables the
    script writes the entry found is the one entry of the endpoint, see
    [entry_is_looked_up]).  Under sequential use the key is returned by
    every run while it is valid; the first run that sees it expired logs
    in once, and the runs that read the clock before the expiry this
    login stores (the timestamp of its clock reading plus thirty minutes)
    return the new key without another request: one login request in
    the whole cycle. *)
Theorem get_skey_reuses_cached_key cfg env msa h w t r :
  healthy (db w) t ->
  endpoint_plain msa ->
  lookup cfg msa t = Some r ->
  (utc_clock env (clock_reads w) < expired r)%Z ->
  (exists w1,
      get_skey cfg env msa h true w = (Return (Some (skey r)), w1)
      /\ sent w1 = sent w /\ db w1 = db w)
  /\ (forall n m body xml sk,
         (forall i, (i <= n)%nat ->
                    (utc_clock env (clock_reads w + i) < expired r)%Z) ->
         (expired r <= utc_clock env (clock_reads w + S n))%Z ->
         device env (sent w) (login_request cfg msa h) = Response body (Some xml) ->
         status_of xml "return-code" = Return (Some "1") ->
         status_of xml "response" = Return sk ->
         plain (str sk) = true ->
         (forall i, (i < m)%nat ->
                    (utc_clock env (clock_reads w + S n + 2 + i)
                     < expiry env (clock_reads w + S n + 1))%Z) ->
         exists w2,
           polls cfg env msa h (S n + (1 + m)) w
           = (Return (repeat (Some (skey r)) (S n) ++ [sk]
                      ++ repeat (Some (str sk)) m)%list, w2)
           /\ sent w2 = login_request cfg msa h :: sent w).
Proof.
  intros H P L Hnow. split.
  - exists (tick w). rewrite (get_skey_true _ _ _ _ _ _ H), L.
    apply Z.ltb_lt in Hnow. rewrite Hnow. repeat split.
  - intros n m body xml sk Hhits Hexp Hd Hrc Hsk Pk Hwin.
    rewrite polls_app. unfold bind at 1.
    rewrite (polls_hits _ _ _ _ (S n) w t r H L)
      by (intros i Hi; apply Hhits; lia).
    set (w1 := ticks (S n) w).
    destruct (ticks_fields (S n) w) as (Fd & Fs & Fc). fold w1 in Fd, Fs, Fc.
    clearbody w1.
    assert (H1 : healthy (db w1) t) by (rewrite Fd; exact H).
    cbv beta iota. change (1 + m)%nat with (S m). cbn [polls].
    unfold bind at 1 2.
    rewrite (get_skey_stale _ _ _ _ _ _ H1).
    2:{ intros r' L'. rewrite L in L'. injection L' as <-. rewrite Fc.
        replace (S n + clock_reads w)%nat with (clock_reads w + S n)%nat by lia.
        exact Hexp. }
    assert (H1' : healthy (db (tick w1)) t) by exact H1.
    assert (Hd' : device env (sent (tick w1)) (login_request cfg msa h)
                  = Response body (Some xml)).
    { cbn [tick sent]. rewrite Fs. exact Hd. }
    rewrite (get_skey_login_ok _ _ _ _ _ _ _ _ _ H1' P (plain_readable _ Pk)
                               Hd' Hrc Hsk).
    set (e := expiry env (clock_reads (tick w1))).
    set (w2 := set_table (upsert cfg msa e (str sk) t)
                         (tick (sending (login_request cfg msa h) (tick w1)))).
    cbv beta iota. unfold bind at 1.
    destruct (lookup_upsert cfg msa e (str sk) t P Pk) as (r' & L' & E' & K').
    assert (H2 : healthy (db w2) (upsert cfg msa e (str sk) t)).
    { apply healthy_set_table with (t := t). exact H1. }
    assert (C2 : clock_reads w2 = (clock_reads w + S n + 2)%nat).
    { subst w2. cbn. rewrite Fc. lia. }
    rewrite (polls_hits _ _ _ _ m w2 _ r' H2 L').
    2:{ intros i Hi. rewrite E', C2. subst e. cbn [tick clock_reads]. rewrite Fc.
        replace (S (S n + clock_reads w)) with (clock_reads w + S n + 1)%nat by lia.
        apply Hwin. exact Hi. }
    rewrite K'. unfold ret. cbn [app].
    eexists. split; [reflexivity|].
    destruct (ticks_fields m w2) as (_ & Gs & _). rewrite Gs.
    subst w2. cbn. rewrite Fs. reflexivity.
Qed.

Lemma get_skey_reuses_cached_key_witness :
  (exists w1,
      get_skey Sample.cfg (Sample.env []) Sample.msa Sample.cred_hash true Sample.cached
      = (Return (Some "OLDKEY"), w1)
      /\ sent w1 = [] /\ db w1 = db Sample.cached)
  /\ (exists w2,
         polls Sample.cfg (Sample.env []) Sample.msa Sample.cred_hash 7 Sample.cached
         = (Return [ Some "OLDKEY"; Some "OLDKEY"; Some "OLDKEY"; Some "SESSIONKEY1";
                     Some "SESSIONKEY1"; Some "SESSIONKEY1"; Some "SESSIONKEY1" ], w2)
         /\ sent w2 = [login_request Sample.cfg Sample.msa Sample.cred_hash]).
Proof.
  destruct (get_skey_reuses_cached_key
              Sample.cfg (Sample.env []) Sample.msa Sample.cred_hash Sample.cached
              [Row "msa1" "10.0.0.5" "http" 150000000 "OLDKEY"]
              (Row "msa1" "10.0.0.5" "http" 150000000 "OLDKEY"))
    as [Hit Cycle].
  - repeat split.
  - split; reflexivity.
  - reflexivity.
  - reflexivity.
  - split; [exact Hit|].
    apply (Cycle 2%nat 3%nat "<RESPONSE/>" (Sample.response [] "1" "SESSIONKEY1")
                 (Some "SESSIONKEY1")).
    + intros i Hi. unfold utc_clock.
      cbn [Sample.cached clock_reads Sample.env naive_utc timestamp expired Nat.add].
      unfold Sample.zone, Sample.clock. lia.
    + unfold utc_clock.
      cbn [Sample.cached clock_reads Sample.env naive_utc timestamp expired Nat.add].
      unfold Sample.zone, Sample.clock. lia.
    + reflexivity.
    + reflexivity.
    + reflexivity.
    + reflexivity.
    + intros i Hi. unfold utc_clock, expiry.
      cbn [Sample.cached clock_reads Sample.env naive_utc timestamp Nat.add].
      unfold Sample.zone, Sample.clock, minutes. lia.
Defined.

(** The first login on a table with no row: nothing is looked at but
    the empty table, so the texts need only end where the script means
    them to. *)
Lemma get_skey_first_login cfg env msa h w body xml sk :
  healthy (db w) [] ->
  quotable (fst msa) = true -> quotable (snd msa) = true ->
  quotable (str sk) = true ->
  device env (sent w) (login_request cfg msa h) = Response body (Some xml) ->
  status_of xml "return-code" = Return (Some "1") ->
  status_of xml "response" = Return sk ->
  get_skey cfg env msa h true w
  = (Return sk,
     set_table [Row (snd msa) (fst msa) (active_proto cfg)
                    (expiry env (S (clock_reads w))) (str sk)]
               (tick (sending (login_request cfg msa h) (tick w)))).
Proof.
  intros H Qi Qd Qk Hd Hrc Hsk.
  rewrite (get_skey_true _ _ _ _ _ _ H). cbn [lookup filter hd_error].
  assert (H1 : healthy (db (tick w)) []) by exact H.
  assert (Hd1 : device env (sent (tick w)) (login_request cfg msa h)
                = Response body (Some xml)) by exact Hd.
  unfold get_skey_login. fold (login_url cfg msa h). unfold bind at 1.
  rewrite (query_xmlapi_login _ _ _ _ _ _ _ _ _ Hd1 Hrc Hsk).
  set (w1 := sending (login_request cfg msa h) (tick w)).
  assert (H2 : healthy (db (tick w1)) []) by exact H.
  cbn [eq_str String.eqb Ascii.eqb Bool.eqb]. cbv iota.
  unfold bind at 1.
  change (utcnow env w1) with (Return (naive_utc env (S (clock_reads w))), tick w1).
  cbv iota zeta. fold (expiry env (S (clock_reads w))).
  unfold bind at 1. unfold active_proto.
  destruct (USE_SSL cfg); cbn [negb]; unfold bind at 1;
    (rewrite (sql_cmd_healthy _ _ _ _ _ _ H2) by reflexivity);
    cbn [run_query negb filter fetchone];
    (rewrite (sql_cmd_healthy _ _ _ _ _ _ (healthy_set_table _ _ _ H2));
     [|cbn [reads_as_meant values forallb]; rewrite Qi, Qd, Qk; reflexivity]);
    cbn [run_query negb fetchone existsb app]; reflexivity.
Qed.

(** X24: on a cache file that opens and has its table with no row, for
    an address, a name and a key [K] that hold no double quote (and no NUL
    character), when the answer to the login carries return code 1 and
    the key [K], the first [get_skey] sends exactly one request, the
    login; the table then holds exactly one row, keyed by the name and
    address of the endpoint and the protocol in use, with the key [K] and
    the expiry the script computes, the timestamp of the clock reading
    that follows the answer plus thirty minutes; and [K] is returned. *)
Theorem get_skey_first_login_fills_cache cfg env msa h w body xml K :
  healthy (db w) [] ->
  quotable (fst msa) = true -> quotable (snd msa) = true -> quotable K = true ->
  device env (sent w) (login_request cfg msa h) = Response body (Some xml) ->
  status_of xml "return-code" = Return (Some "1") ->
  status_of xml "response" = Return (Some K) ->
  exists w',
    get_skey cfg env msa h true w = (Return (Some K), w')
    /\ sent w' = login_request cfg msa h :: sent w
    /\ table (db w') =
       Some [Row (snd msa) (fst msa) (if USE_SSL cfg then "https" else "http")
                 (timestamp env (naive_utc env (S (clock_reads w)) + minutes 30)) K].
Proof.
  intros H Qi Qd Qk Hd Hrc Hsk.
  rewrite (get_skey_first_login _ _ _ _ _ _ _ (Some K) H Qi Qd Qk Hd Hrc Hsk).
  returns.
Qed.

Lemma get_skey_first_login_fills_cache_witness :
  exists w',
    get_skey Sample.cfg (Sample.env []) Sample.msa Sample.cred_hash true Sample.installed
    = (Return (Some "SESSIONKEY1"), w')
    /\ sent w' = [login_request Sample.cfg Sample.msa Sample.cred_hash]
    /\ table (db w') = Some [Row "msa1" "10.0.0.5" "http" 1860000000 "SESSIONKEY1"].
Proof.
  apply (get_skey_first_login_fills_cache
           Sample.cfg (Sample.env []) Sample.msa Sample.cred_hash Sample.installed
           "<RESPONSE/>" (Sample.response [] "1" "SESSIONKEY1") "SESSIONKEY1").
  - repeat split.
  - reflexivity.
  - reflexivity.
  - reflexivity.
  - reflexivity.
  - reflexivity.
  - reflexivity.
Defined.

(** A statement that does not read as meant and that the engine answers
    with an [OperationalError] (other than the missing table) ends the
    run with the message of the engine and the text of the statement. *)
Lemma sql_cmd_not_meant cfg env q fetch_all w msg :
  connect_error (db w) = None ->
  reads_as_meant q = false ->
  engine env (query_text env q) (db w) = OperationalError msg ->
  startswith msg "no such table" = false ->
  sql_cmd cfg env q fetch_all w
  = (Raise (SystemExit ("ERROR: " ++ msg ++ ". Query: " ++ query_text env q)), w).
Proof.
  intros C R E N. unfold sql_cmd, execute. rewrite C, R, E, N. reflexivity.
Qed.

(** C3 fails on the code for a key that holds a double quote: on a cache
    file that opens and has its table with no row, the answer to the
    login carries return code 1 and a key [K] with a double quote (or a
    NUL character) in it.  The key is formatted into the [INSERT] between
    double quotes, so the text SQLite is given is not the statement the
    script means; when SQLite answers it with an [OperationalError] (a
    syntax error), [get_skey] ends with [SystemExit] and that message
    after the one login: no entry is stored and [K] is not returned. *)
Theorem get_skey_key_with_quote_is_fatal cfg env msa h w body xml K msg :
  healthy (db w) [] ->
  quotable K = false ->
  device env (sent w) (login_request cfg msa h) = Response body (Some xml) ->
  status_of xml "return-code" = Return (Some "1") ->
  status_of xml "response" = Return (Some K) ->
  engine env
         (query_text env (Q_insert (snd msa) (fst msa) (active_proto cfg)
                                   (expiry env (S (clock_reads w))) K))
         (db w)
  = OperationalError msg ->
  startswith msg "no such table" = false ->
  exists w',
    get_skey cfg env msa h true w
    = (Raise (SystemExit
                ("ERROR: " ++ msg ++ ". Query: "
                 ++ query_text env (Q_insert (snd msa) (fst msa) (active_proto cfg)
                                             (expiry env (S (clock_reads w))) K))),
       w')
    /\ sent w' = login_request cfg msa h :: sent w
    /\ db w' = db w.
Proof.
  intros H Qk Hd Hrc Hsk He Hn.
  rewrite (get_skey_true _ _ _ _ _ _ H). cbn [lookup filter hd_error].
  assert (Hd1 : device env (sent (tick w)) (login_request cfg msa h)
                = Response body (Some xml)) by exact Hd.
  unfold get_skey_login. fold (login_url cfg msa h). unfold bind at 1.
  rewrite (query_xmlapi_login _ _ _ _ _ _ _ _ _ Hd1 Hrc Hsk).
  set (w1 := sending (login_request cfg msa h) (tick w)).
  assert (H2 : healthy (db (tick w1)) []) by exact H.
  assert (Hs : set_table [] (tick w1) = tick w1)
    by (apply set_table_same; exact (proj2 H2)).
  assert (C : connect_error (db (tick w1)) = None) by exact (proj1 (proj1 H2)).
  assert (R : forall p, reads_as_meant
                          (Q_insert (snd msa) (fst msa) p
                                    (expiry env (S (clock_reads w))) K) = false).
  { intros p. cbn [reads_as_meant values forallb]. rewrite Qk.
    destruct (quotable (snd msa)), (quotable (fst msa)), (quotable p); reflexivity. }
  cbn [eq_str String.eqb Ascii.eqb Bool.eqb]. cbv iota.
  unfold bind at 1.
  change (utcnow env w1) with (Return (naive_utc env (S (clock_reads w))), tick w1).
  cbv iota zeta. fold (expiry env (S (clock_reads w))).
  unfold bind at 1. unfold active_proto in *. cbn [str].
  destruct (USE_SSL cfg); cbn [negb]; unfold bind at 1;
    (rewrite (sql_cmd_healthy _ _ _ _ _ _ H2) by reflexivity);
    cbn [run_query negb filter fetchone]; rewrite Hs;
    rewrite (sql_cmd_not_meant _ _ _ _ _ msg C (R _) He Hn);
    exists (tick w1); repeat split.
Qed.

Lemma get_skey_key_with_quote_is_fatal_witness :
  exists w',
    get_skey Sample.cfg Example.env_quoted Sample.msa Sample.cred_hash true
             Sample.installed
    = (Raise (SystemExit
                ("ERROR: near " ++ dq ++ "cd" ++ dq ++ ": syntax error. Query: "
                 ++ "INSERT INTO skey_cache VALUES ("
                 ++ dq ++ "msa1" ++ dq ++ ", " ++ dq ++ "10.0.0.5" ++ dq ++ ", "
                 ++ dq ++ "http" ++ dq ++ ", " ++ dq ++ "1860.0" ++ dq ++ ", "
                 ++ dq ++ "ab" ++ dq ++ "cd" ++ dq ++ ")")),
       w')
    /\ sent w' = [login_request Sample.cfg Sample.msa Sample.cred_hash]
    /\ db w' = db Sample.installed.
Proof.
  apply (get_skey_key_with_quote_is_fatal
           Sample.cfg Example.env_quoted Sample.msa Sample.cred_hash Sample.installed
           "<RESPONSE/>" (Sample.response [] "1" Example.quoted_key)
           Example.quoted_key
           ("near " ++ dq ++ "cd" ++ dq ++ ": syntax error")).
  - repeat split.
  - reflexivity.
  - reflexivity.
  - reflexivity.
  - reflexivity.
  - reflexivity.
  - reflexivity.
Defined.

(** C8, as the code has it: on a cache file that opens, is a database and
    meets no error of the engine, but has no table, a statement (other
    than the creation of the table) whose texts the engine reads as the
    script formats them (see [readable]) ends the run with [SystemExit]
    and the message [Cache is empty];
    [get_skey] ends there too, before any login, so the condition is not
    taken for a miss.  It is told apart from the other failures of a
    statement: an error of the engine (a locked file, with or without the
    table) ends the run with the message of the engine and the text of
    the statement. *)
Theorem sql_cmd_missing_table_exits cfg env q fetch_all msa h w w2 e :
  sound (db w) ->
  table (db w) = None ->
  q <> Q_create_table ->
  forallb readable (values q) = true ->
  readable (fst msa) = true -> readable (snd msa) = true ->
  connect_error (db w2) = None ->
  database_error (db w2) = None ->
  execute_error (db w2) = Some e ->
  startswith e "no such table" = false ->
  sql_cmd cfg env q fetch_all w = (Raise (SystemExit "Cache is empty"), w)
  /\ (exists w', get_skey cfg env msa h true w
                 = (Raise (SystemExit "Cache is empty"), w')
                 /\ sent w' = sent w)
  /\ sql_cmd cfg env q fetch_all w2
     = (Raise (SystemExit ("ERROR: " ++ e ++ ". Query: " ++ query_text env q)), w2).
Proof.
  intros Hs Ht Hq Hv _ _ Hc2 Hd2 He2 Hne.
  pose proof (readable_values_meant q Hv) as R.
  split; [apply sql_cmd_no_table; assumption|]. split.
  - exists (tick w). split; [|reflexivity].
    unfold get_skey. unfold bind at 1.
    change (utcnow env w) with (Return (naive_utc env (clock_reads w)), tick w).
    cbv iota zeta. unfold bind at 1.
    destruct (USE_SSL cfg); cbn [negb]; rewrite sql_cmd_no_table;
      try reflexivity; try assumption; discriminate.
  - unfold sql_cmd, execute, on_file. rewrite Hc2, R, Hd2, He2, Hne. reflexivity.
Qed.

Lemma sql_cmd_missing_table_exits_witness :
  sql_cmd Sample.cfg (Sample.env []) (Q_select_expired_skey_http "10.0.0.5") false
          Sample.fresh
  = (Raise (SystemExit "Cache is empty"), Sample.fresh)
  /\ (exists w', get_skey Sample.cfg (Sample.env []) Sample.msa Sample.cred_hash true
                          Sample.fresh
                 = (Raise (SystemExit "Cache is empty"), w')
                 /\ sent w' = sent Sample.fresh)
  /\ sql_cmd Sample.cfg (Sample.env []) (Q_select_expired_skey_http "10.0.0.5") false
             Sample.locked_fresh
     = (Raise (SystemExit
                 ("ERROR: " ++ "database is locked" ++ ". Query: "
                  ++ query_text (Sample.env [])
                                (Q_select_expired_skey_http "10.0.0.5"))),
        Sample.locked_fresh).
Proof.
  apply (sql_cmd_missing_table_exits
           Sample.cfg (Sample.env []) (Q_select_expired_skey_http "10.0.0.5") false
           Sample.msa Sample.cred_hash Sample.fresh Sample.locked_fresh
           "database is locked").
  - repeat split.
  - reflexivity.
  - discriminate.
  - reflexivity.
  - reflexivity.
  - reflexivity.
  - reflexivity.
  - reflexivity.
  - reflexivity.
  - reflexivity.
Defined.

(** C8 as stated fails: on the cache file before [install], with an array
    that would accept the login, [get_skey] ends the run and sends
    nothing. *)
Lemma get_skey_missing_table_is_fatal :
  table (db Sample.fresh) = None
  /\ get_skey Sample.cfg (Sample.env []) Sample.msa Sample.cred_hash true Sample.fresh
     = (Raise (SystemExit "Cache is empty"), tick Sample.fresh)
  /\ sent (tick Sample.fresh) = [].
Proof. repeat split. Qed.

(* ================================================================== *)
(** ** Discovery *)
(* ================================================================== *)

Lemma text_or_unknown part p :
  except_AttributeError (text_of (find part p)) (Return (Some "UNKNOWN"))
  = Return (lld_value part p).
Proof. unfold lld_value. destruct (find part p); reflexivity. Qed.

Lemma lld_macro_eq part mp d :
  lld_macro part mp d = Return (sset d (fst mp) (lld_value part [PROPERTY (snd mp)])).
Proof.
  destruct mp as [macro prop]. unfold lld_macro. rewrite text_or_unknown. reflexivity.
Qed.

(** The inner loop never raises. *)
Lemma for_each_lld_macro part props d :
  for_each props (lld_macro part) d = Return (lld_props part props d).
Proof.
  revert d. induction props as [|mp props IH]; intros d; [reflexivity|].
  cbn [for_each]. rewrite lld_macro_eq. cbn [rbind]. apply IH.
Qed.

Lemma lld_part_eq component props part acc :
  sget comp_props_map component = Some props ->
  lld_part component part acc = Return (acc ++ [lld_entry component props part])%list.
Proof.
  intros P. unfold lld_part, getitem. rewrite P. cbn [rbind].
  rewrite for_each_lld_macro. cbn [rbind]. unfold lld_entry.
  destruct (String.eqb component "ports"); [rewrite text_or_unknown|]; reflexivity.
Qed.

(** The outer loop: one entry per instance, in document order. *)
Lemma lld_components_eq component name props xml :
  sget comp_names_map component = Some name ->
  sget comp_props_map component = Some props ->
  lld_components component xml
  = Return (map (lld_entry component props) (findall xml [OBJECT name])).
Proof.
  intros N P. unfold lld_components, getitem. rewrite N. cbn [rbind].
  rewrite (for_each_append _ (lld_entry component props)).
  - reflexivity.
  - intros part acc. apply lld_part_eq. exact P.
Qed.

(** The ten component names, each with its object name and its macros; no
    macro is mapped twice, and none is the macro of the SFP workaround. *)
Lemma supported_component component :
  In component (keys comp_names_map) ->
  exists name props,
    sget comp_names_map component = Some name
    /\ sget comp_props_map component = Some props
    /\ NoDup (map fst props)
    /\ ~ In "{#PORT.SFP}" (map fst props).
Proof.
  cbn. intros H.
  repeat (destruct H as [<-|H];
          [eexists; eexists; split; [reflexivity|]; split; [reflexivity|]; split;
           [repeat constructor; cbn; intuition discriminate
           | cbn; intuition discriminate]|]).
  contradiction.
Qed.

Lemma lld_props_other part props : forall d k,
  ~ In k (map fst props) -> sget (lld_props part props d) k = sget d k.
Proof.
  induction props as [|[m0 p] props IH]; intros d k N; [reflexivity|].
  cbn [map In fst] in N.
  change (sget (lld_props part props (sset d m0 (lld_value part [PROPERTY p]))) k
          = sget d k).
  rewrite IH by tauto. apply sget_sset_other. tauto.
Qed.

Lemma lld_props_value part props : forall d macro prop,
  NoDup (map fst props) -> In (macro, prop) props ->
  sget (lld_props part props d) macro = Some (lld_value part [PROPERTY prop]).
Proof.
  induction props as [|[m0 p] props IH]; intros d macro prop ND I; [contradiction|].
  cbn [map fst] in ND. inversion ND as [|? ? Nin ND']; subst.
  change (sget (lld_props part props (sset d m0 (lld_value part [PROPERTY p]))) macro
          = Some (lld_value part [PROPERTY prop])).
  destruct I as [E|I].
  - injection E as -> ->. rewrite lld_props_other by exact Nin. apply sget_sset_same.
  - apply IH; assumption.
Qed.

Lemma lld_entry_unknown component props part :
  NoDup (map fst props) -> ~ In "{#PORT.SFP}" (map fst props) ->
  unknown_where_missing component props part (lld_entry component props part).
Proof.
  intros ND NS. split.
  - intros macro prop I F. unfold lld_entry.
    assert (V : sget (lld_props part props []) macro = Some (Some "UNKNOWN")).
    { rewrite (lld_props_value part props [] macro prop ND I). unfold lld_value.
      rewrite F. reflexivity. }
    destruct (String.eqb component "ports"); [|exact V].
    rewrite sget_sset_other; [exact V|].
    intros <-. apply NS. apply (in_map fst) in I. exact I.
  - intros -> F. unfold lld_entry. cbn [String.eqb Ascii.eqb Bool.eqb].
    rewrite sget_sset_same. unfold lld_value. rewrite F. reflexivity.
Qed.

Lemma make_lld_eq cfg env msa component sk pretty w rd xml w' name props :
  sget comp_names_map component = Some name ->
  sget comp_props_map component = Some props ->
  query_xmlapi cfg env (show_url cfg msa component) sk w
  = (Return (Some "0", rd, xml), w') ->
  make_lld cfg env msa component sk pretty w
  = (Return (dumps (JObject [("data",
                              JArray (map json_of_metrics
                                          (map (lld_entry component props)
                                               (findall xml [OBJECT name]))))])
                   pretty), w').
Proof.
  intros N P Q. unfold make_lld. fold (show_url cfg msa component).
  unfold bind at 1. rewrite Q. cbn [eq_str String.eqb Ascii.eqb Bool.eqb negb].
  cbv iota. unfold bind, lift. rewrite (lld_components_eq _ _ _ _ N P). reflexivity.
Qed.

(** C4: for each of the ten component kinds and every answer with return
    code 0, the processing loop of [make_lld] returns (it does not raise),
    [make_lld] returns the JSON text of its entries, one per instance, and
    in the entry of an instance every mapped property the instance lacks
    (and, for a port, the missing [sfp-present]) shows as [UNKNOWN]. *)
Theorem make_lld_unknown_for_missing_property
        cfg env msa component sk pretty w rd xml w' :
  In component (keys comp_names_map) ->
  query_xmlapi cfg env (show_url cfg msa component) sk w
  = (Return (Some "0", rd, xml), w') ->
  exists name props entries,
    sget comp_names_map component = Some name
    /\ sget comp_props_map component = Some props
    /\ lld_components component xml = Return entries
    /\ make_lld cfg env msa component sk pretty w
       = (Return (dumps (JObject [("data", JArray (map json_of_metrics entries))])
                        pretty), w')
    /\ Forall2 (unknown_where_missing component props)
               (findall xml [OBJECT name]) entries.
Proof.
  intros S Q.
  destruct (supported_component component S) as (name & props & N & P & ND & NS).
  exists name, props, (map (lld_entry component props) (findall xml [OBJECT name])).
  split; [exact N|]. split; [exact P|].
  split; [apply lld_components_eq; assumption|].
  split; [apply (make_lld_eq _ _ _ _ _ _ _ _ _ _ _ _ N P Q)|].
  induction (findall xml [OBJECT name]) as [|part parts IH]; cbn [map]; constructor.
  - apply lld_entry_unknown; assumption.
  - exact IH.
Qed.

Lemma make_lld_unknown_for_missing_property_witness :
  exists name props entries,
    sget comp_names_map "ports" = Some name
    /\ sget comp_props_map "ports" = Some props
    /\ lld_components "ports" (Sample.ports_answer (Sample.sfp "Not present"))
       = Return entries
    /\ make_lld Sample.cfg (Sample.env (Sample.sfp "Not present")) Sample.msa "ports"
                Sample.session None Sample.installed
       = (Return (dumps (JObject [("data", JArray (map json_of_metrics entries))])
                        None),
          Sample.shown "ports" Sample.installed)
    /\ Forall2 (unknown_where_missing "ports" props)
               (findall (Sample.ports_answer (Sample.sfp "Not present"))
                        [OBJECT name])
               entries.
Proof.
  apply (make_lld_unknown_for_missing_property
           Sample.cfg (Sample.env (Sample.sfp "Not present")) Sample.msa "ports"
           Sample.session None Sample.installed (Some Sample.completed)
           (Sample.ports_answer (Sample.sfp "Not present"))
           (Sample.shown "ports" Sample.installed)).
  - cbn. tauto.
  - reflexivity.
Defined.

(* ================================================================== *)
(** ** Metrics *)
(* ================================================================== *)

Lemma get_full_json_eq cfg env msa component sk pretty human w rd xml w' :
  query_xmlapi cfg env (show_url cfg msa component) sk w
  = (Return (Some "0", rd, xml), w') ->
  get_full_json cfg env msa component sk pretty human w
  = (all_components <- full_components cfg env (msa_conn cfg msa) sk component xml ;;
     all_components <-
       (if human then lift (expand_dict all_components) else ret all_components) ;;
     ret (dumps (json_of_components all_components) pretty)) w'.
Proof.
  intros Q. unfold get_full_json. fold (show_url cfg msa component).
  unfold bind at 1. rewrite Q. reflexivity.
Qed.

(** *** Power supplies *)







(** *** Ports *)

(** A port with its main properties: the metrics are the four main ones,
    [ps] holding the numeric status when there is one, followed by what the
    SFP properties give. *)
Lemma full_port_eq FC acc name h pt pas status :
  port_main FC name h pt pas status ->
  full_port FC acc =
  rbind
    match find FC sfp_status_numeric_path with
    | Some num =>
        rbind (text_of (find FC sfp_status_path))
              (fun sfps => Return (port_base FC h pt pas status
                                   ++ [("ss", text num); ("sfps", sfps)])%list)
    | None =>
        match find FC sfp_status_path with
        | Some char =>
            rbind (sfp_status_code (text char))
                  (fun ss => Return (port_base FC h pt pas status
                                     ++ [("ss", Some ss); ("sfps", text char)])%list)
        | None => Return (port_base FC h pt pas status)
        end
    end
    (fun port_full_data => Return (oset acc name port_full_data)).
Proof.
  intros (A & B & C & D & E). unfold full_port. rewrite A, B, C, D, E. cbn [rbind].
  unfold port_base, port_status_value, sfp_status_numeric_path, sfp_status_path.
  destruct (find FC [PROPERTY "status-numeric"]) as [n|];
    (destruct (find FC [OBJECT "port-details"; PROPERTY "sfp-status-numeric"]);
     [destruct (find FC [OBJECT "port-details"; PROPERTY "sfp-status"]); reflexivity|]);
    (destruct (find FC [OBJECT "port-details"; PROPERTY "sfp-status"]) as [c|];
     [|reflexivity]);
    destruct (sfp_status_code (text c)); reflexivity.
Qed.

(** The lookup in [sfp_status_map]: one of the four codes, or [KeyError]
    on anything else. *)
Lemma sfp_status_code_cases x :
  (exists code, sfp_status_code x = Return code /\ In (x, code) sfp_codes)
  \/ (sfp_status_code x = Raise (KeyError x)
      /\ forall t, x = Some t -> ~ In t sfp_texts).
Proof.
  destruct x as [t|]; [|right; split; [reflexivity|discriminate]].
  unfold sfp_status_code, getitem, sget, sfp_status_map, sfp_codes, sfp_texts.
  cbn [Py.get].
  destruct (String.eqb_spec "Not compatible" t) as [<-|N1];
    [left; eexists; split; [reflexivity|cbn; tauto]|].
  destruct (String.eqb_spec "Incorrect protocol" t) as [<-|N2];
    [left; eexists; split; [reflexivity|cbn; tauto]|].
  destruct (String.eqb_spec "Not present" t) as [<-|N3];
    [left; eexists; split; [reflexivity|cbn; tauto]|].
  destruct (String.eqb_spec "OK" t) as [<-|N4];
    [left; eexists; split; [reflexivity|cbn; tauto]|].
  right. split; [reflexivity|]. intros t' E. injection E as <-. cbn. tauto.
Qed.

(** A port that is read goes into the dictionary under its name. *)
Lemma full_port_named P acc r :
  full_port P acc = Return r ->
  exists name d, prop_text P "port" = Return name /\ r = oset acc name d.
Proof.
  unfold full_port. intros H.
  destruct (prop_text P "port") as [name|]; cbn [rbind] in H; [|discriminate H].
  repeat match type of H with
         | rbind (prop_text ?X ?n) _ = _ =>
             destruct (prop_text X n); cbn [rbind] in H; [|discriminate H]
         end.
  match type of H with
  | rbind ?X _ = _ => destruct X as [d|]; cbn [rbind] in H; [|discriminate H]
  end.
  injection H as <-. exists name, d. split; reflexivity.
Qed.

(** The ports read later leave the entry of a name that none of them
    bears. *)
Lemma later_ports_keep name d post : forall acc comps,
  (forall P, In P post -> prop_text P "port" <> Return name) ->
  oget acc name = Some d ->
  for_each post full_port acc = Return comps ->
  oget comps name = Some d.
Proof.
  induction post as [|P post IH]; intros acc comps N G F; cbn [for_each] in F.
  - injection F as <-. exact G.
  - destruct (full_port P acc) as [acc'|e] eqn:B; cbn [rbind] in F; [|discriminate F].
    destruct (full_port_named _ _ _ B) as (name' & d' & Hn & ->).
    apply (IH _ _ (fun Q I => N Q (or_intror I))) in F; [exact F|].
    rewrite oget_oset_other; [exact G|].
    intros ->. apply (N P (or_introl eq_refl)). exact Hn.
Qed.

(** C6, as the code has it: for a port of a ports answer that has its
    main properties, no [sfp-status-numeric] and a textual [sfp-status],
    the ports before it being read.  When the text is one of the four of
    the map and the ports after it are read without an error, the object
    [get_full_json] returns has, under the name of the port (if no later
    port bears the same name), the metrics with its code under [ss] ([OK]
    gives 3, [Not compatible] 0, [Incorrect protocol] 1, [Not present] 2)
    and the text under [sfps].  On any other text [get_full_json] returns
    nothing: the lookup in the map ends it with Python's [KeyError] on
    that text, the only error the script has there. *)
Theorem sfp_status_text_mapping
        cfg env msa sk pretty w rd xml w' pre FC post acc name h pt pas status char :
  query_xmlapi cfg env (show_url cfg msa "ports") sk w
  = (Return (Some "0", rd, xml), w') ->
  findall xml [OBJECT "ports"] = (pre ++ FC :: post)%list ->
  for_each pre full_port [] = Return acc ->
  port_main FC name h pt pas status ->
  find FC sfp_status_numeric_path = None ->
  find FC sfp_status_path = Some char ->
  (forall code,
      In (text char, code)
         [ (Some "Not compatible", "0"); (Some "Incorrect protocol", "1");
           (Some "Not present", "2"); (Some "OK", "3") ] ->
      (forall acc0, exists r, for_each post full_port acc0 = Return r) ->
      (forall P, In P post -> prop_text P "port" <> Return name) ->
      exists comps d,
        get_full_json cfg env msa "ports" sk pretty false w
        = (Return (dumps (json_of_components comps) pretty), w')
        /\ oget comps name = Some d
        /\ sget d "ss" = Some (Some code)
        /\ sget d "sfps" = Some (text char))
  /\ ((forall t, text char = Some t ->
                 ~ In t ["Not compatible"; "Incorrect protocol"; "Not present"; "OK"]) ->
      forall human,
        get_full_json cfg env msa "ports" sk pretty human w
        = (Raise (KeyError (text char)), w')).
Proof.
  intros Q Sp Hpre M Hn Hc.
  assert (E : forall a,
             full_port FC a =
             rbind (rbind (sfp_status_code (text char))
                          (fun ss => Return (port_base FC h pt pas status
                                             ++ [("ss", Some ss); ("sfps", text char)])%list))
                   (fun d => Return (oset a name d))).
  { intros a. rewrite (full_port_eq FC a name h pt pas status M), Hn, Hc.
    reflexivity. }
  assert (G : forall human,
             get_full_json cfg env msa "ports" sk pretty human w
             = (all_components <-
                  lift (rbind (full_port FC acc) (for_each post full_port)) ;;
                all_components <-
                  (if human then lift (expand_dict all_components)
                   else ret all_components) ;;
                ret (dumps (json_of_components all_components) pretty)) w').
  { intros human. rewrite (get_full_json_eq _ _ _ _ _ _ _ _ _ _ _ Q).
    change (full_components cfg env (msa_conn cfg msa) sk "ports" xml)
      with (lift (for_each (findall xml [OBJECT "ports"]) full_port [])).
    rewrite Sp, for_each_app, Hpre. reflexivity. }
  split.
  - intros code Hin Hpost Hlast.
    assert (C : sfp_status_code (text char) = Return code).
    { cbn [In] in Hin.
      destruct Hin as [X|[X|[X|[X|[]]]]]; injection X as <- <-; reflexivity. }
    set (d := (port_base FC h pt pas status
               ++ [("ss", Some code); ("sfps", text char)])%list).
    destruct (Hpost (oset acc name d)) as (comps & R).
    exists comps, d. rewrite G, E, C. cbn [rbind]. fold d. rewrite R.
    split; [reflexivity|]. split.
    + apply (later_ports_keep name d post (oset acc name d) comps Hlast);
        [apply oget_oset_same|exact R].
    + split; reflexivity.
  - intros Hout human. rewrite G, E.
    destruct (sfp_status_code_cases (text char)) as [(code & _ & Hin)|(C & _)].
    + exfalso. unfold sfp_codes in Hin. cbn [In] in Hin.
      destruct Hin as [X|[X|[X|[X|[]]]]]; injection X as X <-;
        symmetry in X; apply (Hout _ X); cbn; tauto.
    + rewrite C. reflexivity.
Qed.

Lemma sfp_status_text_mapping_witness :
  exists comps d,
    get_full_json Sample.cfg (Sample.env (Sample.sfp "OK")) Sample.msa "ports"
                  Sample.session None false Sample.installed
    = (Return (dumps (json_of_components comps) None),
       Sample.shown "ports" Sample.installed)
    /\ oget comps (Some "A1") = Some d
    /\ sget d "ss" = Some (Some "3")
    /\ sget d "sfps" = Some (Some "OK").
Proof.
  destruct (sfp_status_text_mapping
              Sample.cfg (Sample.env (Sample.sfp "OK")) Sample.msa Sample.session
              None Sample.installed (Some Sample.completed)
              (Sample.ports_answer (Sample.sfp "OK"))
              (Sample.shown "ports" Sample.installed)
              [] (Sample.port (Sample.sfp "OK")) [] []
              (Some "A1") (Some "0") (Some "FC") (Some "8Gb") (Some "Up")
              (Sample.property "sfp-status" "OK"))
    as [Known _].
  - reflexivity.
  - reflexivity.
  - reflexivity.
  - repeat split.
  - reflexivity.
  - reflexivity.
  - apply (Known "3").
    + cbn. tauto.
    + intros acc0. exists acc0. reflexivity.
    + intros P [].
Defined.

(** C6 as stated fails: on the ports answer whose port has the textual
    [sfp-status] [Unsupported] and no numeric one, what ends
    [get_full_json] is [KeyError] on that text; the script raises no
    error of another kind there. *)
Lemma sfp_status_unknown_text_is_key_error :
  find (Sample.port (Sample.sfp "Unsupported")) sfp_status_numeric_path = None
  /\ option_map text (find (Sample.port (Sample.sfp "Unsupported")) sfp_status_path)
     = Some (Some "Unsupported")
  /\ get_full_json Sample.cfg (Sample.env (Sample.sfp "Unsupported")) Sample.msa "ports"
                   Sample.session None false Sample.installed
     = (Raise (KeyError (Some "Unsupported")), Sample.shown "ports" Sample.installed).
Proof. repeat split. Qed.






(** *** expand_dict *)

(** The metrics of a port start with [h] and [pt]; [pt] is not a key of
    the table [m], so the expansion of a ports result ends on it. *)
Lemma expand_dict_port_metrics name h pt rest others :
  expand_dict ((name, ("h", h) :: ("pt", pt) :: rest) :: others)
  = Raise (KeyError (Some "pt")).
Proof. reflexivity. Qed.

(** C7 fails on the code: [get_full_json] on the ports answer of the
    sample array returns the metrics of port A1 under the short keys, and
    the same call with [human] set ends with [KeyError] on the key [pt],
    which [expand_dict] does not know; on the power supplies, whose keys
    are all in the table, the expansion keeps the instance and its eight
    metrics. *)
Theorem expand_dict_rejects_port_keys :
  fst (get_full_json Sample.cfg (Sample.env (Sample.sfp "OK")) Sample.msa "ports"
                     Sample.session None false Sample.installed)
  = Return (dumps (JObject
                     [("A1",
                       JObject [ ("h", JString "0"); ("pt", JString "FC");
                                 ("pas", JString "8Gb"); ("ps", JString "0");
                                 ("ss", JString "3"); ("sfps", JString "OK") ])])
                  None)
  /\ fst (get_full_json Sample.cfg (Sample.env (Sample.sfp "OK")) Sample.msa "ports"
                        Sample.session None true Sample.installed)
     = Raise (KeyError (Some "pt"))
  /\ fst (get_full_json Sample.cfg (Sample.env (Sample.sfp "OK")) Sample.msa
                        "power-supplies" Sample.session None true Sample.installed)
     = Return (dumps (JObject
                        [("psu_1.1",
                          JObject [ ("health", JString "0"); ("status", JString "1");
                                    ("power-12v", JString "1212");
                                    ("power-5v", JString "541");
                                    ("power-33v", JString "336");
                                    ("power-12i", JString "791");
                                    ("power-5i", JString "469");
                                    ("temperature", JString "37") ])])
                     None).
Proof. repeat split. Qed.

(* ================================================================== *)
(** ** Beyond the specification *)
(* ================================================================== *)

Lemma quiet_bind {A B} (c : py A) (k : A -> py B) :
  quiet c -> (forall a, quiet (k a)) -> quiet (bind c k).
Proof.
  intros Hc Hk w. unfold bind. specialize (Hc w).
  destruct (c w) as [[a|e] w1]; cbn [snd] in *; [rewrite Hk|]; exact Hc.
Qed.

Lemma quiet_ret {A} (a : A) : quiet (ret a).
Proof. intros w. reflexivity. Qed.

Lemma quiet_utcnow env : quiet (utcnow env).
Proof. intros w. reflexivity. Qed.

Lemma quiet_sql_cmd cfg env q fa : quiet (sql_cmd cfg env q fa).
Proof.
  intros w. unfold sql_cmd. destruct (connect_error (db w)); [reflexivity|].
  destruct (execute env q (db w)); [| |reflexivity ..].
  - destruct (if writes q then commit_error (db w) else None); reflexivity.
  - destruct (startswith msg "no such table"); reflexivity.
Qed.

(** Whatever the array answers, [query_xmlapi] sends the one request for
    the path and the key, and touches neither the cache file, nor the
    clock, nor the output; the answer to a login is never saved. *)
Lemma query_xmlapi_keeps cfg env url sk w :
  sent (snd (query_xmlapi cfg env url sk w)) = api_request cfg url sk :: sent w
  /\ db (snd (query_xmlapi cfg env url sk w)) = db w
  /\ clock_reads (snd (query_xmlapi cfg env url sk w)) = clock_reads w
  /\ stdout (snd (query_xmlapi cfg env url sk w)) = stdout w
  /\ (contains url "login" = true ->
      files (snd (query_xmlapi cfg env url sk w)) = files w).
Proof.
  unfold query_xmlapi, api_request, bind.
  assert (G : forall r,
             requests_get env r w
             = (Return (device env (sent w) r),
                World (db w) (clock_reads w) (r :: sent w) (stdout w) (files w)))
    by reflexivity.
  destruct (USE_SSL cfg), (VERIFY_SSL cfg); rewrite G;
    (destruct (device env (sent w) _) as [| |e| |body parsed]; [repeat split ..|]);
    unfold cannot_parse, bind, save_response;
    (destruct (SAVE_XML cfg) as [file|];
     [destruct (contains url "login"); cbn [negb]; [|destruct (write_denied env file)]|]);
    cbn; (destruct parsed as [xml|]; [|repeat split; discriminate]);
    cbn; unfold lift;
    (destruct (text_of (find xml [OBJECT "status"; PROPERTY "return-code"])) as [rc|[]];
     [|repeat split; discriminate ..]);
    (destruct (text_of (find xml [OBJECT "status"; PROPERTY "response"])) as [rd|[]];
     repeat split; discriminate).
Qed.

(** X1: whatever the array answers (an answer, a failed connection,
    a text that is no XML or lacks its status), and whether the call returns
    or ends the script, [query_xmlapi] sends exactly one request, the one
    for the path and the session key, and leaves the cache file, the clock
    and the output alone; the answer to a login is never written to the
    file of [--save-xml]. *)
Theorem query_xmlapi_sends_one_request cfg env url sk w :
  sent (snd (query_xmlapi cfg env url sk w)) = api_request cfg url sk :: sent w
  /\ db (snd (query_xmlapi cfg env url sk w)) = db w
  /\ clock_reads (snd (query_xmlapi cfg env url sk w)) = clock_reads w
  /\ stdout (snd (query_xmlapi cfg env url sk w)) = stdout w
  /\ (contains url "login" = true ->
      files (snd (query_xmlapi cfg env url sk w)) = files w).
Proof. apply query_xmlapi_keeps. Qed.

(** X2: with [--save-xml] set and a path that is no login, the
    body of the answer is written to the file before it is parsed, so also
    when it cannot be parsed; when the file cannot be opened for writing,
    the handler reads [args.savexml], which the parser never sets, and the
    script ends with the message for an answer that cannot be parsed,
    naming that attribute, not with the one for the file. *)
Theorem query_xmlapi_saves_before_parsing cfg env url sk w file body parsed :
  SAVE_XML cfg = Some file ->
  contains url "login" = false ->
  device env (sent w) (api_request cfg url sk) = Response body parsed ->
  if write_denied env file
  then query_xmlapi cfg env url sk w
       = (Raise (SystemExit
                   "ERROR: Cannot parse XML. 'Namespace' object has no attribute 'savexml'"),
          sending (api_request cfg url sk) w)
  else files (snd (query_xmlapi cfg env url sk w)) = (file, body) :: files w.
Proof.
  intros Hs Hl Hd. unfold query_xmlapi, api_request, sending, bind in *.
  assert (G : forall r,
             requests_get env r w
             = (Return (device env (sent w) r),
                World (db w) (clock_reads w) (r :: sent w) (stdout w) (files w)))
    by reflexivity.
  destruct (USE_SSL cfg), (VERIFY_SSL cfg); rewrite G, Hd;
    unfold cannot_parse, bind, save_response; rewrite Hs, Hl; cbn [negb];
    (destruct (write_denied env file); [reflexivity|]);
    cbn; (destruct parsed as [xml|]; [|reflexivity]);
    cbn; unfold lift;
    (destruct (text_of (find xml [OBJECT "status"; PROPERTY "return-code"])) as [rc|[]];
     [|reflexivity ..]);
    (destruct (text_of (find xml [OBJECT "status"; PROPERTY "response"])) as [rd|[]];
     reflexivity).
Qed.

Lemma query_xmlapi_saves_before_parsing_witness :
  files (snd (query_xmlapi Example.cfg_save (Sample.env [])
                           (show_url Example.cfg_save Sample.msa "ports")
                           Sample.session Sample.installed))
  = [("/tmp/msa.xml", "<RESPONSE/>")].
Proof.
  exact (query_xmlapi_saves_before_parsing
           Example.cfg_save (Sample.env [])
           (show_url Example.cfg_save Sample.msa "ports") Sample.session
           Sample.installed "/tmp/msa.xml" "<RESPONSE/>"
           (Some (Sample.ports_answer [])) eq_refl eq_refl eq_refl).
Defined.

Lemma get_skey_login_eq cfg env msa h w :
  get_skey_login cfg env msa h w
  = (x <- query_xmlapi cfg env (login_url cfg msa h) None ;;
     after_login cfg env msa (fst (fst x)) (snd (fst x))) w.
Proof.
  unfold get_skey_login, after_login, login_url, bind.
  destruct (query_xmlapi cfg env _ None w) as [[[[rc sk] xml]|e] w1]; reflexivity.
Qed.

Lemma quiet_after_login cfg env msa rc sk : quiet (after_login cfg env msa rc sk).
Proof.
  unfold after_login.
  destruct (eq_str rc "1"); [|destruct (eq_str rc "2"); apply quiet_ret].
  apply quiet_bind; [apply quiet_utcnow|]. intros now.
  apply quiet_bind; [|intros; apply quiet_ret].
  destruct (USE_SSL cfg); cbn [negb];
    (apply quiet_bind; [apply quiet_sql_cmd|]); intros [|r|rs]; apply quiet_sql_cmd.
Qed.

(** A login sends the login request and nothing else, whatever comes
    back. *)
Lemma get_skey_login_sent cfg env msa h w :
  sent (snd (get_skey_login cfg env msa h w)) = login_request cfg msa h :: sent w.
Proof.
  rewrite get_skey_login_eq. unfold bind.
  destruct (query_xmlapi_keeps cfg env (login_url cfg msa h) None w) as (S & _).
  destruct (query_xmlapi cfg env (login_url cfg msa h) None w)
    as [[x|e] w1]; cbn [snd] in *; [|exact S].
  rewrite quiet_after_login. exact S.
Qed.

(** X3: on a cache file that opens and has its table, for an address
    and a name that the engine reads as the script formats them (a string
    or the name of a text column, see [readable]), [get_skey] sends
    nothing and returns the key of the row its lookup finds when that row
    is still valid; in every other case (no row found, or one that has
    expired) the one request it sends is the login. *)
Theorem get_skey_sends_login_unless_valid cfg env msa h w t :
  healthy (db w) t ->
  readable (fst msa) = true -> readable (snd msa) = true ->
  (exists r,
      lookup cfg msa t = Some r
      /\ (utc_clock env (clock_reads w) < expired r)%Z
      /\ fst (get_skey cfg env msa h true w) = Return (Some (skey r))
      /\ sent (snd (get_skey cfg env msa h true w)) = sent w)
  \/ ((forall r, lookup cfg msa t = Some r ->
                 (expired r <= utc_clock env (clock_reads w))%Z)
      /\ sent (snd (get_skey cfg env msa h true w))
         = login_request cfg msa h :: sent w).
Proof.
  intros H _ _. rewrite (get_skey_true _ _ _ _ _ _ H).
  destruct (lookup cfg msa t) as [r|].
  - destruct (Z.ltb_spec (utc_clock env (clock_reads w)) (expired r)).
    + left. exists r. repeat split. assumption.
    + right. split; [intros r' E; injection E as <-; assumption|].
      rewrite get_skey_login_sent. reflexivity.
  - right. split; [discriminate|]. rewrite get_skey_login_sent. reflexivity.
Qed.

Lemma get_skey_sends_login_unless_valid_witness :
  (exists r,
      lookup Example.cfg_https ("10.0.0.5", "ip") Example.by_address = Some r
      /\ (utc_clock (Sample.env []) 0 < expired r)%Z
      /\ fst (get_skey Example.cfg_https (Sample.env []) ("10.0.0.5", "ip")
                       Sample.cred_hash true Example.cached_by_address)
         = Return (Some (skey r))
      /\ sent (snd (get_skey Example.cfg_https (Sample.env []) ("10.0.0.5", "ip")
                             Sample.cred_hash true Example.cached_by_address))
         = [])
  \/ ((forall r,
          lookup Example.cfg_https ("10.0.0.5", "ip") Example.by_address = Some r ->
          (expired r <= utc_clock (Sample.env []) 0)%Z)
      /\ sent (snd (get_skey Example.cfg_https (Sample.env []) ("10.0.0.5", "ip")
                             Sample.cred_hash true Example.cached_by_address))
         = [login_request Example.cfg_https ("10.0.0.5", "ip") Sample.cred_hash]).
Proof.
  apply (get_skey_sends_login_unless_valid
           Example.cfg_https (Sample.env []) ("10.0.0.5", "ip") Sample.cred_hash
           Example.cached_by_address Example.by_address).
  - repeat split.
  - reflexivity.
  - reflexivity.
Defined.

(** X4: when the answer to the login carries a return code that
    is neither 1 nor 2, [get_skey] (called without the cache) raises
    nothing: it returns [None] after the one request. *)
Theorem get_skey_other_code_returns_none cfg env msa h w body xml rc sk :
  device env (sent w) (login_request cfg msa h) = Response body (Some xml) ->
  status_of xml "return-code" = Return rc ->
  status_of xml "response" = Return sk ->
  eq_str rc "1" = false ->
  eq_str rc "2" = false ->
  get_skey cfg env msa h false w = (Return None, sending (login_request cfg msa h) w).
Proof.
  intros Hd Hrc Hsk H1 H2.
  change (get_skey cfg env msa h false w) with (get_skey_login cfg env msa h w).
  rewrite (get_skey_login_code cfg env msa h w body xml rc sk Hd Hrc Hsk H1), H2.
  reflexivity.
Qed.

Lemma get_skey_other_code_returns_none_witness :
  get_skey Sample.cfg Example.env_busy Sample.msa Sample.cred_hash false Sample.installed
  = (Return None,
     sending (login_request Sample.cfg Sample.msa Sample.cred_hash) Sample.installed).
Proof.
  apply (get_skey_other_code_returns_none
           Sample.cfg Example.env_busy Sample.msa Sample.cred_hash Sample.installed
           "<RESPONSE/>" (Sample.response [] "3" "Please retry")
           (Some "3") (Some "Please retry"));
    reflexivity.
Defined.

Lemma after_login_stores cfg env msa sk w t :
  healthy (db w) t ->
  endpoint_plain msa ->
  readable (str sk) = true ->
  after_login cfg env msa (Some "1") sk w
  = (Return sk,
     set_table (upsert cfg msa (expiry env (clock_reads w)) (str sk) t) (tick w)).
Proof.
  intros H (Pi & Pd) Rk. assert (H1 : healthy (db (tick w)) t) by exact H.
  pose proof (plain_readable _ Pi) as Ri. pose proof (plain_readable _ Pd) as Rd.
  pose proof (readable_quotable _ Ri) as Qi.
  pose proof (readable_quotable _ Rd) as Qd.
  pose proof (readable_quotable _ Rk) as Qk.
  unfold after_login. cbn [eq_str String.eqb Ascii.eqb Bool.eqb]. cbv iota.
  unfold bind at 1.
  change (utcnow env w) with (Return (naive_utc env (clock_reads w)), tick w).
  cbv iota. fold (expiry env (clock_reads w)).
  unfold bind at 1. unfold upsert, lookup, cache_key, active_proto.
  destruct (USE_SSL cfg); cbn [negb]; unfold bind at 1;
    (rewrite (sql_cmd_healthy _ _ _ _ _ _ H1) by reflexivity);
    cbn [run_query negb];
    destruct (filter _ t) as [|r rs] eqn:F; cbn [fetchone hd_error];
    (rewrite (sql_cmd_healthy _ _ _ _ _ _ (healthy_set_table _ _ _ H1));
     [|cbn [reads_as_meant values forallb];
       rewrite ?Ri, ?Rd, ?Rk, ?Qi, ?Qd, ?Qk; reflexivity]);
    cbn [run_query negb fetchone].
  - rewrite (no_https_row_no_conflict _ _ _ Pd Pi F). reflexivity.
  - reflexivity.
  - rewrite (no_http_row_no_conflict _ _ _ Pi F). reflexivity.
  - reflexivity.
Qed.

Lemma eq_str_true x lit : eq_str x lit = true -> x = Some lit.
Proof.
  destruct x as [s|]; [|discriminate]. cbn. intros E.
  apply String.eqb_eq in E. congruence.
Qed.

(** When the cache file does not open, [sql_cmd] prints the error and
    returns [None]. *)
Lemma sql_cmd_unreachable cfg env q fa w e :
  connect_error (db w) = Some e ->
  sql_cmd cfg env q fa w = (Return PyNone, after 0 [] [cache_error_line cfg e] w).
Proof. intros C. unfold sql_cmd. rewrite C. reflexivity. Qed.

Lemma get_skey_unreachable cfg env msa h w e body xml sk :
  connect_error (db w) = Some e ->
  device env (sent w) (login_request cfg msa h) = Response body (Some xml) ->
  status_of xml "return-code" = Return (Some "1") ->
  status_of xml "response" = Return sk ->
  get_skey cfg env msa h true w
  = (Return sk,
     after 2 [login_request cfg msa h]
           [cache_error_line cfg e; cache_error_line cfg e; cache_error_line cfg e] w).
Proof.
  intros C Hd Hrc Hsk. unfold get_skey. unfold bind at 1.
  change (utcnow env w) with (Return (naive_utc env (clock_reads w)), tick w).
  cbv iota zeta. unfold bind at 1.
  assert (C1 : connect_error (db (tick w)) = Some e) by exact C.
  destruct (USE_SSL cfg) eqn:SSL; cbn [negb];
    rewrite (sql_cmd_unreachable _ _ _ _ _ _ C1);
    rewrite get_skey_login_eq; unfold bind at 1;
    (rewrite (query_xmlapi_login cfg env msa h _ body xml (Some "1") sk);
     [|exact Hd|exact Hrc|exact Hsk]);
    cbn [fst snd]; unfold after_login;
    cbn [eq_str String.eqb Ascii.eqb Bool.eqb]; cbv iota;
    unfold bind at 1;
    match goal with
    | |- context [utcnow env ?w1] =>
        change (utcnow env w1) with (Return (naive_utc env (clock_reads w1)), tick w1)
    end;
    cbv iota; unfold bind at 1; rewrite SSL; cbn [negb]; unfold bind at 1;
    (erewrite sql_cmd_unreachable by exact C); cbv iota;
    (erewrite sql_cmd_unreachable by exact C); reflexivity.
Qed.

Lemma repeat_snoc {A} (a : A) n l : (repeat a n ++ a :: l = a :: repeat a n ++ l)%list.
Proof. induction n as [|n IH]; cbn [repeat app]; [|rewrite IH]; reflexivity. Qed.

(** X5: when the cache file cannot be opened, nothing is cached:
    each of [n] runs of [get_skey] in a row logs in again and returns the
    key of the array, so the requests sent are [n] logins and nothing
    else; each run prints the line of the cache error three times (once
    per statement it tried), and the file is left as it was. *)
Theorem get_skey_without_cache_file cfg env msa h e body xml sk n : forall w,
  connect_error (db w) = Some e ->
  (forall log, device env log (login_request cfg msa h) = Response body (Some xml)) ->
  status_of xml "return-code" = Return (Some "1") ->
  status_of xml "response" = Return sk ->
  exists w',
    polls cfg env msa h n w = (Return (repeat sk n), w')
    /\ db w' = db w
    /\ sent w' = (repeat (login_request cfg msa h) n ++ sent w)%list
    /\ stdout w' = (repeat (cache_error_line cfg e) (3 * n) ++ stdout w)%list.
Proof.
  induction n as [|n IH]; intros w C Hd Hrc Hsk.
  - exists w. repeat split.
  - cbn [polls repeat]. unfold bind at 1.
    rewrite (get_skey_unreachable cfg env msa h w e body xml sk C (Hd _) Hrc Hsk).
    destruct (IH (after 2 [login_request cfg msa h]
                        [cache_error_line cfg e; cache_error_line cfg e;
                         cache_error_line cfg e] w) C Hd Hrc Hsk)
      as (w' & P & D & Hsent & O).
    unfold bind at 1. rewrite P. exists w'. unfold ret.
    split; [reflexivity|]. split; [exact D|]. cbn [after sent stdout app] in Hsent, O.
    split.
    + rewrite Hsent. apply repeat_snoc.
    + rewrite O. replace (3 * S n)%nat with (S (S (S (3 * n)))) by lia.
      cbn [repeat app]. rewrite !repeat_snoc. reflexivity.
Qed.

Lemma get_skey_without_cache_file_witness :
  exists w',
    polls Sample.cfg (Sample.env []) Sample.msa Sample.cred_hash 2 Example.unreachable
    = (Return [Some "SESSIONKEY1"; Some "SESSIONKEY1"], w')
    /\ db w' = db Example.unreachable
    /\ sent w' = [ login_request Sample.cfg Sample.msa Sample.cred_hash;
                   login_request Sample.cfg Sample.msa Sample.cred_hash ]
    /\ stdout w'
       = repeat ("CACHE ERROR: (db: /var/tmp/zbx-hpmsa/zbx-hpmsa.cache.db) "
                 ++ "unable to open database file") 6.
Proof.
  apply (get_skey_without_cache_file
           Sample.cfg (Sample.env []) Sample.msa Sample.cred_hash
           "unable to open database file" "<RESPONSE/>"
           (Sample.response [] "1" "SESSIONKEY1") (Some "SESSIONKEY1") 2
           Example.unreachable).
  - reflexivity.
  - intros log. reflexivity.
  - reflexivity.
  - reflexivity.
Defined.

Lemma filter_other_update_where cfg msa k e t :
  endpoint_plain msa ->
  filter (fun r => negb (cache_key cfg msa r)) (update_where (cache_key cfg msa) k e t)
  = filter (fun r => negb (cache_key cfg msa r)) t.
Proof.
  intros P. induction t as [|r t IH]; [reflexivity|].
  cbn [update_where map filter]. fold (update_where (cache_key cfg msa) k e t).
  destruct (cache_key cfg msa r) eqn:E.
  - rewrite (cache_key_set_session _ _ _ _ _ P), E. cbn [negb]. exact IH.
  - rewrite E. cbn [negb]. rewrite IH. reflexivity.
Qed.

(** The upsert leaves the rows of the other endpoints as they are. *)
Lemma filter_other_upsert cfg msa e k t :
  endpoint_plain msa ->
  filter (fun r => negb (cache_key cfg msa r)) (upsert cfg msa e k t)
  = filter (fun r => negb (cache_key cfg msa r)) t.
Proof.
  intros P. unfold upsert. destruct (lookup cfg msa t).
  - apply filter_other_update_where, P.
  - rewrite filter_app. cbn [filter]. rewrite (cache_key_new_row _ _ _ _ P).
    cbn [negb]. apply app_nil_r.
Qed.

Lemma query_xmlapi_no_integrity cfg env url sk w msg :
  fst (query_xmlapi cfg env url sk w) <> Raise (IntegrityError msg).
Proof.
  unfold query_xmlapi, bind.
  assert (G : forall r,
             requests_get env r w
             = (Return (device env (sent w) r),
                World (db w) (clock_reads w) (r :: sent w) (stdout w) (files w)))
    by reflexivity.
  intro X.
  destruct (USE_SSL cfg), (VERIFY_SSL cfg); rewrite G in X;
    (destruct (device env (sent w) _) as [| |e| |body parsed];
     [cbn in X; try discriminate X ..|]);
    unfold cannot_parse, bind, save_response in X;
    (destruct (SAVE_XML cfg) as [file|];
     [destruct (contains url "login"); cbn [negb] in X;
      [|destruct (write_denied env file)]|]);
    cbn in X; try discriminate X;
    (destruct parsed as [xml|]; [|discriminate X]);
    cbn in X; unfold lift in X;
    (destruct (find xml [OBJECT "status"; PROPERTY "return-code"]) as [rc|];
     [|discriminate X]);
    (destruct (find xml [OBJECT "status"; PROPERTY "response"]) as [rd|];
     discriminate X).
Qed.

(** What [query_xmlapi] returns is what the status object of the answer
    says. *)
Lemma query_xmlapi_returns cfg env url sk0 w rc sk xml w1 :
  query_xmlapi cfg env url sk0 w = (Return (rc, sk, xml), w1) ->
  exists body,
    device env (sent w) (api_request cfg url sk0) = Response body (Some xml)
    /\ status_of xml "return-code" = Return rc
    /\ status_of xml "response" = Return sk.
Proof.
  unfold query_xmlapi, api_request, status_of, bind.
  assert (G : forall r,
             requests_get env r w
             = (Return (device env (sent w) r),
                World (db w) (clock_reads w) (r :: sent w) (stdout w) (files w)))
    by reflexivity.
  intro X.
  destruct (USE_SSL cfg), (VERIFY_SSL cfg); rewrite G in X;
    (destruct (device env (sent w) _) as [| |e| |body parsed] eqn:Ed;
     [cbn in X; try discriminate X ..|]);
    exists body;
    unfold cannot_parse, bind, save_response in X;
    (destruct (SAVE_XML cfg) as [file|];
     [destruct (contains url "login"); cbn [negb] in X;
      [|destruct (write_denied env file)]|]);
    cbn in X; try discriminate X;
    (destruct parsed as [xml0|]; [|discriminate X]);
    cbn in X; unfold lift in X;
    (destruct (text_of (find xml0 [OBJECT "status"; PROPERTY "return-code"]))
       as [rc0|[]] eqn:Erc; [|discriminate X ..]);
    (destruct (text_of (find xml0 [OBJECT "status"; PROPERTY "response"]))
       as [rd0|[]] eqn:Erd; [|discriminate X ..]);
    cbn in X; injection X as <- <- <- _; repeat split; assumption.
Qed.

Lemma get_skey_login_table cfg env msa h w t :
  healthy (db w) t ->
  endpoint_plain msa ->
  (forall body xml k,
      device env (sent w) (login_request cfg msa h) = Response body (Some xml) ->
      status_of xml "response" = Return k -> readable (str k) = true) ->
  exists t',
    healthy (db (snd (get_skey_login cfg env msa h w))) t'
    /\ (t' = t \/ exists e k, t' = upsert cfg msa e k t)
    /\ forall msg, fst (get_skey_login cfg env msa h w) <> Raise (IntegrityError msg).
Proof.
  intros H P Hk. rewrite get_skey_login_eq. unfold bind.
  destruct (query_xmlapi_keeps cfg env (login_url cfg msa h) None w) as (_ & D & _).
  pose proof (query_xmlapi_no_integrity cfg env (login_url cfg msa h) None w) as N.
  pose proof (query_xmlapi_returns cfg env (login_url cfg msa h) None w) as R.
  destruct (query_xmlapi cfg env (login_url cfg msa h) None w)
    as [[[[rc sk] xml]|e] w1]; cbn [fst snd] in *.
  - assert (H1 : healthy (db w1) t) by (rewrite D; exact H).
    destruct (R rc sk xml w1 eq_refl) as (body & Hd & _ & Hsk).
    pose proof (Hk body xml sk Hd Hsk) as Rk.
    destruct (eq_str rc "1") eqn:E1.
    + apply eq_str_true in E1. subst rc.
      rewrite (after_login_stores _ _ _ _ _ _ H1 P Rk).
      eexists. split; [apply healthy_set_table with (t := t); exact H1|].
      split; [right; eauto|]. discriminate.
    + unfold after_login. rewrite E1. exists t.
      destruct (eq_str rc "2"); (split; [exact H1|]); (split; [left; reflexivity|]);
        discriminate.
  - exists t. split; [rewrite D; exact H|]. split; [left; reflexivity|].
    intros msg X. apply (N msg). congruence.
Qed.

(** X6: for an endpoint whose address and name SQLite takes for the
    strings they are, and an array whose session keys the engine reads as
    they are formatted: a run of [get_skey] on a cache file that opens
    and has its table leaves such a file; if the table had at most one
    entry per endpoint it still has; the rows the lookup of the endpoint
    does not take are exactly as they were; and the insert never meets an
    existing primary key (no [IntegrityError]), whatever the array
    answers. *)
Theorem get_skey_keeps_other_sessions cfg env msa h use_cache w t :
  healthy (db w) t ->
  endpoint_plain msa ->
  (forall body xml k,
      device env (sent w) (login_request cfg msa h) = Response body (Some xml) ->
      status_of xml "response" = Return k -> readable (str k) = true) ->
  exists t',
    healthy (db (snd (get_skey cfg env msa h use_cache w))) t'
    /\ (one_entry_per_key t -> one_entry_per_key t')
    /\ filter (fun r => negb (cache_key cfg msa r)) t'
       = filter (fun r => negb (cache_key cfg msa r)) t
    /\ forall msg,
        fst (get_skey cfg env msa h use_cache w) <> Raise (IntegrityError msg).
Proof.
  intros H P Hk.
  assert (L : forall w0, healthy (db w0) t -> sent w0 = sent w ->
             exists t',
               healthy (db (snd (get_skey_login cfg env msa h w0))) t'
               /\ (one_entry_per_key t -> one_entry_per_key t')
               /\ filter (fun r => negb (cache_key cfg msa r)) t'
                  = filter (fun r => negb (cache_key cfg msa r)) t
               /\ forall msg,
                   fst (get_skey_login cfg env msa h w0) <> Raise (IntegrityError msg)).
  { intros w0 H0 S0. rewrite <- S0 in Hk.
    destruct (get_skey_login_table cfg env msa h w0 t H0 P Hk)
      as (t' & Ht & [->|(e & k & ->)] & N).
    - exists t. split; [exact Ht|]. split; [auto|]. split; [reflexivity|exact N].
    - exists (upsert cfg msa e k t). split; [exact Ht|].
      split; [apply upsert_one_entry, P|].
      split; [apply filter_other_upsert, P|exact N]. }
  destruct use_cache; [|apply L; [exact H|reflexivity]].
  rewrite (get_skey_true _ _ _ _ _ _ H).
  destruct (lookup cfg msa t) as [r|]; [|apply L; [exact H|reflexivity]].
  destruct (utc_clock env (clock_reads w) <? expired r)%Z;
    [|apply L; [exact H|reflexivity]].
  exists t. split; [exact H|]. split; [auto|]. split; [reflexivity|discriminate].
Qed.

Lemma get_skey_keeps_other_sessions_witness :
  exists t',
    healthy (db (snd (get_skey Sample.cfg (Sample.env []) ("10.0.0.6", "msa2")
                               Sample.cred_hash true Sample.cached))) t'
    /\ (one_entry_per_key [Row "msa1" "10.0.0.5" "http" 150000000 "OLDKEY"] ->
        one_entry_per_key t')
    /\ filter (fun r => negb (cache_key Sample.cfg ("10.0.0.6", "msa2") r)) t'
       = filter (fun r => negb (cache_key Sample.cfg ("10.0.0.6", "msa2") r))
                [Row "msa1" "10.0.0.5" "http" 150000000 "OLDKEY"]
    /\ forall msg,
        fst (get_skey Sample.cfg (Sample.env []) ("10.0.0.6", "msa2")
                      Sample.cred_hash true Sample.cached)
        <> Raise (IntegrityError msg).
Proof.
  apply (get_skey_keeps_other_sessions
           Sample.cfg (Sample.env []) ("10.0.0.6", "msa2") Sample.cred_hash true
           Sample.cached [Row "msa1" "10.0.0.5" "http" 150000000 "OLDKEY"]).
  - repeat split.
  - split; reflexivity.
  - intros body xml k D R. cbn in D. injection D as _ <-. cbn in R.
    injection R as <-. reflexivity.
Defined.

(** Over https the upsert for one name leaves the lookup for another name
    at the same address as it was. *)
Lemma lookup_other_name cfg ip d1 d2 e k t :
  USE_SSL cfg = true -> plain ip = true -> plain d1 = true -> plain d2 = true ->
  d1 <> d2 ->
  lookup cfg (ip, d2) (upsert cfg (ip, d1) e k t) = lookup cfg (ip, d2) t.
Proof.
  intros SSL Pi P1 P2 N. unfold upsert, lookup, cache_key, active_proto. rewrite SSL.
  cbn [fst snd]. f_equal.
  rewrite !(filter_ext _ _ (fun r => https_key_plain d2 ip r P2 Pi)).
  destruct (hd_error (filter (https_key d1 ip) t)) as [found|].
  - clear found. induction t as [|r0 t IH]; [reflexivity|].
    cbn [update_where map filter]. fold (update_where (https_key d1 ip) k e t).
    rewrite (https_key_plain d1 ip r0 P1 Pi).
    destruct (https_row d1 ip r0) eqn:Sel.
    + change (https_row d2 ip (set_session (term r0 k) e r0)) with (https_row d2 ip r0).
      assert (F : https_row d2 ip r0 = false).
      { unfold https_row in *.
        destruct (String.eqb_spec (dns_name r0) d1) as [E|]; [|discriminate Sel].
        destruct (String.eqb_spec (dns_name r0) d2); [congruence|reflexivity]. }
      rewrite F. exact IH.
    + destruct (https_row d2 ip r0); rewrite IH; reflexivity.
  - rewrite filter_app. cbn [filter]. unfold https_row at 2. cbn [dns_name].
    destruct (String.eqb_spec d1 d2); [contradiction|]. apply app_nil_r.
Qed.

(** X7: over http the entry is looked up by address alone: after
    the login of a run for the address under one name, a run for the same
    address under any other name that reads the clock before the stored
    expiry is served the cached key and sends nothing.  The address, the
    first name and the key are texts that SQLite takes for the strings
    they are. *)
Theorem http_session_is_shared_across_names cfg env ip d1 d2 h w t body xml sk :
  USE_SSL cfg = false ->
  healthy (db w) t ->
  plain ip = true -> plain d1 = true -> plain (str sk) = true ->
  (forall r, lookup cfg (ip, d1) t = Some r ->
             (expired r <= utc_clock env (clock_reads w))%Z) ->
  device env (sent w) (login_request cfg (ip, d1) h) = Response body (Some xml) ->
  status_of xml "return-code" = Return (Some "1") ->
  status_of xml "response" = Return sk ->
  (utc_clock env (clock_reads w + 2) < expiry env (clock_reads w + 1))%Z ->
  exists w1,
    get_skey cfg env (ip, d1) h true w = (Return sk, w1)
    /\ sent w1 = login_request cfg (ip, d1) h :: sent w
    /\ get_skey cfg env (ip, d2) h true w1 = (Return (Some (str sk)), tick w1).
Proof.
  intros SSL H Pi P1 Pk He Hd Hrc Hsk Hwin.
  assert (P : endpoint_plain (ip, d1)) by (split; assumption).
  rewrite (get_skey_stale _ _ _ _ _ _ H He).
  assert (H1 : healthy (db (tick w)) t) by exact H.
  rewrite (get_skey_login_ok _ _ _ _ _ _ _ _ _ H1 P (plain_readable _ Pk) Hd Hrc Hsk).
  set (e := expiry env (clock_reads (tick w))).
  set (w1 := set_table _ _).
  assert (H2 : healthy (db w1) (upsert cfg (ip, d1) e (str sk) t)).
  { apply healthy_set_table with (t := t). exact H1. }
  exists w1. split; [reflexivity|]. split; [reflexivity|].
  rewrite (get_skey_true _ _ _ _ _ _ H2).
  destruct (lookup_upsert cfg (ip, d1) e (str sk) t P Pk) as (r' & L & E & K).
  assert (L2 : lookup cfg (ip, d2) (upsert cfg (ip, d1) e (str sk) t) = Some r').
  { rewrite <- L. unfold lookup, cache_key. rewrite SSL. reflexivity. }
  rewrite L2, E, K.
  assert (C : (utc_clock env (clock_reads w1) <? e)%Z = true).
  { apply Z.ltb_lt. subst e w1. cbn [set_table set_db tick sending clock_reads].
    replace (S (S (clock_reads w))) with (clock_reads w + 2)%nat by lia.
    replace (S (clock_reads w)) with (clock_reads w + 1)%nat by lia.
    exact Hwin. }
  rewrite C. reflexivity.
Qed.

Lemma http_session_is_shared_across_names_witness :
  exists w1,
    get_skey Sample.cfg (Sample.env []) ("10.0.0.5", "msa1") Sample.cred_hash true
             Sample.installed
    = (Return (Some "SESSIONKEY1"), w1)
    /\ sent w1
       = login_request Sample.cfg ("10.0.0.5", "msa1") Sample.cred_hash
         :: sent Sample.installed
    /\ get_skey Sample.cfg (Sample.env []) ("10.0.0.5", "msa1.example.org")
                Sample.cred_hash true w1
       = (Return (Some "SESSIONKEY1"), tick w1).
Proof.
  apply (http_session_is_shared_across_names
           Sample.cfg (Sample.env []) "10.0.0.5" "msa1" "msa1.example.org"
           Sample.cred_hash Sample.installed [] "<RESPONSE/>"
           (Sample.response [] "1" "SESSIONKEY1") (Some "SESSIONKEY1")).
  - reflexivity.
  - repeat split.
  - reflexivity.
  - reflexivity.
  - reflexivity.
  - intros r X. discriminate X.
  - reflexivity.
  - reflexivity.
  - reflexivity.
  - vm_compute. reflexivity.
Defined.

(** X22: over https the entry is looked up by name and address: after
    the login of a run for the address under one name, the run for the
    same address under another name, for which the table has no row, sends
    its own login.  The address and the two names are texts that SQLite
    takes for the strings they are, and the key is one the engine reads
    as it is formatted. *)
Theorem https_session_is_per_name cfg env ip d1 d2 h w t body xml sk :
  USE_SSL cfg = true ->
  healthy (db w) t ->
  plain ip = true -> plain d1 = true -> plain d2 = true ->
  readable (str sk) = true ->
  d1 <> d2 ->
  (forall r, lookup cfg (ip, d1) t = Some r ->
             (expired r <= utc_clock env (clock_reads w))%Z) ->
  lookup cfg (ip, d2) t = None ->
  device env (sent w) (login_request cfg (ip, d1) h) = Response body (Some xml) ->
  status_of xml "return-code" = Return (Some "1") ->
  status_of xml "response" = Return sk ->
  exists w1,
    get_skey cfg env (ip, d1) h true w = (Return sk, w1)
    /\ sent w1 = login_request cfg (ip, d1) h :: sent w
    /\ sent (snd (get_skey cfg env (ip, d2) h true w1))
       = login_request cfg (ip, d2) h :: login_request cfg (ip, d1) h :: sent w.
Proof.
  intros SSL H Pi P1 P2 Rk N He L Hd Hrc Hsk.
  assert (P : endpoint_plain (ip, d1)) by (split; assumption).
  rewrite (get_skey_stale _ _ _ _ _ _ H He).
  assert (H1 : healthy (db (tick w)) t) by exact H.
  rewrite (get_skey_login_ok _ _ _ _ _ _ _ _ _ H1 P Rk Hd Hrc Hsk).
  set (e := expiry env (clock_reads (tick w))).
  set (w1 := set_table _ _).
  assert (H2 : healthy (db w1) (upsert cfg (ip, d1) e (str sk) t)).
  { apply healthy_set_table with (t := t). exact H1. }
  exists w1. split; [reflexivity|]. split; [reflexivity|].
  rewrite (get_skey_true _ _ _ _ _ _ H2).
  rewrite (lookup_other_name cfg ip d1 d2 e (str sk) t SSL Pi P1 P2 N), L.
  rewrite get_skey_login_sent. reflexivity.
Qed.

Lemma https_session_is_per_name_witness :
  exists w1,
    get_skey Example.cfg_https (Sample.env []) ("10.0.0.5", "msa1") Sample.cred_hash true
             Sample.installed
    = (Return (Some "SESSIONKEY1"), w1)
    /\ sent w1
       = login_request Example.cfg_https ("10.0.0.5", "msa1") Sample.cred_hash
         :: sent Sample.installed
    /\ sent (snd (get_skey Example.cfg_https (Sample.env [])
                           ("10.0.0.5", "msa1.example.org") Sample.cred_hash true w1))
       = login_request Example.cfg_https ("10.0.0.5", "msa1.example.org")
                       Sample.cred_hash
         :: login_request Example.cfg_https ("10.0.0.5", "msa1") Sample.cred_hash
         :: sent Sample.installed.
Proof.
  apply (https_session_is_per_name
           Example.cfg_https (Sample.env []) "10.0.0.5" "msa1" "msa1.example.org"
           Sample.cred_hash Sample.installed [] "<RESPONSE/>"
           (Sample.response [] "1" "SESSIONKEY1") (Some "SESSIONKEY1")).
  - reflexivity.
  - repeat split.
  - reflexivity.
  - reflexivity.
  - reflexivity.
  - reflexivity.
  - discriminate.
  - intros r X. discriminate X.
  - reflexivity.
  - reflexivity.
  - reflexivity.
  - reflexivity.
Defined.

(** C2 fails on the code for a host whose name is the name of a column:
    the script formats the name into its [SELECT] between double quotes,
    which SQLite reads as the column where there is one.  Over https,
    for a host named [ip] (in any letter case), the lookup compares the
    columns [dns_name] and [ip] of each row: the entry a first run on a
    table with no row stores for the host is not found by the second
    run, which reads the clock before the expiry of the entry, yet logs
    in again and ends with [IntegrityError] on the insert; the table
    stays as the first run left it. *)
Theorem host_named_like_a_column_misses_its_entry cfg env addr d h w body xml sk :
  USE_SSL cfg = true ->
  healthy (db w) [] ->
  lower d = "ip" -> plain addr = true -> quotable (str sk) = true ->
  (forall log, device env log (login_request cfg (addr, d) h) = Response body (Some xml)) ->
  status_of xml "return-code" = Return (Some "1") ->
  status_of xml "response" = Return sk ->
  (utc_clock env (S (S (clock_reads w))) < expiry env (S (clock_reads w)))%Z ->
  exists w1 w2 msg,
    get_skey cfg env (addr, d) h true w = (Return sk, w1)
    /\ table (db w1)
       = Some [Row d addr "https" (expiry env (S (clock_reads w))) (str sk)]
    /\ (utc_clock env (clock_reads w1) < expiry env (S (clock_reads w)))%Z
    /\ get_skey cfg env (addr, d) h true w1 = (Raise (IntegrityError msg), w2)
    /\ sent w2 = login_request cfg (addr, d) h :: login_request cfg (addr, d) h :: sent w
    /\ table (db w2) = table (db w1).
Proof.
  intros SSL H Ld Pi Qk Hd Hrc Hsk Hwin.
  pose proof (lower_ip_quotable d Ld) as Qd.
  pose proof (plain_quotable addr Pi) as Qi.
  assert (N : String.eqb d addr = false).
  { destruct (String.eqb_spec d addr) as [->|]; [|reflexivity].
    pose proof (column_plain (Row "" "" "" 0 "") addr Pi) as C.
    unfold column in C. rewrite Ld in C. discriminate C. }
  rewrite (get_skey_first_login cfg env (addr, d) h w body xml sk H Qi Qd Qk
                                (Hd _) Hrc Hsk).
  unfold active_proto. rewrite SSL. cbn [fst snd].
  set (row1 := Row d addr "https" (expiry env (S (clock_reads w))) (str sk)).
  set (w1 := set_table [row1] _).
  assert (H1 : healthy (db w1) [row1]).
  { apply healthy_set_table with (t := []). exact H. }
  assert (T : forall r, term r d = ip r).
  { intros r. unfold term, column. rewrite Ld. reflexivity. }
  assert (K : https_key d addr row1 = false).
  { unfold https_key. rewrite T. cbn [dns_name ip row1]. rewrite N. reflexivity. }
  exists w1. eexists. eexists. split; [reflexivity|]. split; [reflexivity|].
  split; [exact Hwin|].
  rewrite (get_skey_true _ _ _ _ _ _ H1).
  unfold lookup, cache_key. rewrite SSL. cbn [fst snd filter]. rewrite K.
  cbn [hd_error].
  assert (H2 : healthy (db (tick w1)) [row1]) by exact H1.
  unfold get_skey_login. fold (login_url cfg (addr, d) h). unfold bind at 1.
  rewrite (query_xmlapi_login _ _ _ _ _ _ _ _ _ (Hd _) Hrc Hsk).
  set (w2 := sending (login_request cfg (addr, d) h) (tick w1)).
  assert (H3 : healthy (db (tick w2)) [row1]) by exact H1.
  cbn [eq_str String.eqb Ascii.eqb Bool.eqb]. cbv iota.
  unfold bind at 1.
  change (utcnow env w2) with (Return (naive_utc env (clock_reads w2)), tick w2).
  cbv iota zeta. unfold bind at 1. rewrite SSL. cbn [negb]. unfold bind at 1.
  (rewrite (sql_cmd_healthy _ _ _ _ _ _ H3) by reflexivity).
  cbn [run_query negb fst snd filter].
  rewrite K. cbn [fetchone].
  (rewrite (sql_cmd_healthy _ _ _ _ _ _ (healthy_set_table _ _ _ H3));
   [|cbn [reads_as_meant values forallb]; rewrite Qi, Qd, Qk; reflexivity]).
  cbn [run_query existsb]. unfold primary_key at 1.
  cbn [dns_name ip proto row1]. rewrite !String.eqb_refl. cbn [andb orb].
  split; [reflexivity|]. split; reflexivity.
Qed.

Lemma host_named_like_a_column_misses_its_entry_witness :
  exists w1 w2 msg,
    get_skey Example.cfg_https (Sample.env []) ("10.0.0.5", "ip") Sample.cred_hash true
             Sample.installed
    = (Return (Some "SESSIONKEY1"), w1)
    /\ table (db w1) = Some [Row "ip" "10.0.0.5" "https" 1860000000 "SESSIONKEY1"]
    /\ (utc_clock (Sample.env []) (clock_reads w1) < 1860000000)%Z
    /\ get_skey Example.cfg_https (Sample.env []) ("10.0.0.5", "ip") Sample.cred_hash
                true w1
       = (Raise (IntegrityError msg), w2)
    /\ sent w2
       = [ login_request Example.cfg_https ("10.0.0.5", "ip") Sample.cred_hash;
           login_request Example.cfg_https ("10.0.0.5", "ip") Sample.cred_hash ]
    /\ table (db w2) = table (db w1).
Proof.
  apply (host_named_like_a_column_misses_its_entry
           Example.cfg_https (Sample.env []) "10.0.0.5" "ip" Sample.cred_hash
           Sample.installed "<RESPONSE/>" (Sample.response [] "1" "SESSIONKEY1")
           (Some "SESSIONKEY1")).
  - reflexivity.
  - repeat split.
  - reflexivity.
  - reflexivity.
  - reflexivity.
  - intros log. reflexivity.
  - reflexivity.
  - reflexivity.
  - reflexivity.
Defined.

(** X8: the statement of [install_script], run through [sql_cmd] on
    a cache file that opens, meets no error of the engine and has no
    table, makes the empty table: the run of [get_skey] that follows, for
    an address, a name and a key that hold no double quote, logs in once
    and leaves its one row, with the expiry the script computes (the
    timestamp of its clock reading plus thirty minutes); on a file that
    has its table the statement changes nothing. *)
Theorem create_table_then_first_login cfg env msa h w w2 t body xml sk :
  sound (db w) ->
  table (db w) = None ->
  quotable (fst msa) = true -> quotable (snd msa) = true ->
  quotable (str sk) = true ->
  device env (sent w) (login_request cfg msa h) = Response body (Some xml) ->
  status_of xml "return-code" = Return (Some "1") ->
  status_of xml "response" = Return sk ->
  healthy (db w2) t ->
  (exists w',
      (sql_cmd cfg env Q_create_table false ;; get_skey cfg env msa h true) w
      = (Return sk, w')
      /\ sent w' = login_request cfg msa h :: sent w
      /\ table (db w')
         = Some [Row (snd msa) (fst msa) (active_proto cfg)
                     (expiry env (S (clock_reads w))) (str sk)])
  /\ sql_cmd cfg env Q_create_table false w2 = (Return PyNone, w2).
Proof.
  intros Hs T Qi Qd Qk Hd Hrc Hsk H2. pose proof Hs as (C & D & E & M). split.
  - unfold bind at 1. unfold sql_cmd at 1, execute, on_file.
    cbn [reads_as_meant]. rewrite C, D, E, T.
    cbn [negb fetchone writes].
    assert (H0 : healthy (db (set_table [] w)) []) by (repeat split; assumption).
    rewrite (get_skey_first_login _ _ _ _ _ _ _ _ H0 Qi Qd Qk Hd Hrc Hsk).
    returns.
  - (rewrite (sql_cmd_healthy _ _ _ _ _ _ H2) by reflexivity).
    cbn [run_query negb fetchone].
    destruct H2 as (_ & T2). rewrite (set_table_same _ _ T2). reflexivity.
Qed.

Lemma create_table_then_first_login_witness :
  (exists w',
      (sql_cmd Sample.cfg (Sample.env []) Q_create_table false ;;
       get_skey Sample.cfg (Sample.env []) Sample.msa Sample.cred_hash true) Sample.fresh
      = (Return (Some "SESSIONKEY1"), w')
      /\ sent w' = login_request Sample.cfg Sample.msa Sample.cred_hash :: sent Sample.fresh
      /\ table (db w')
         = Some [Row "msa1" "10.0.0.5" "http" 1860000000 "SESSIONKEY1"])
  /\ sql_cmd Sample.cfg (Sample.env []) Q_create_table false Sample.cached
     = (Return PyNone, Sample.cached).
Proof.
  apply (create_table_then_first_login
           Sample.cfg (Sample.env []) Sample.msa Sample.cred_hash Sample.fresh
           Sample.cached [Row "msa1" "10.0.0.5" "http" 150000000 "OLDKEY"]
           "<RESPONSE/>" (Sample.response [] "1" "SESSIONKEY1") (Some "SESSIONKEY1"));
    try reflexivity; repeat split.
Defined.

(** X9: the statement of [cache --drop], run through [sql_cmd] on a
    cache file that opens and has its table, leaves the table with no row,
    and the run of [get_skey] that follows sends the login, whatever was
    cached. *)
Theorem drop_cache_forces_login cfg env msa h w t :
  healthy (db w) t ->
  exists w1,
    sql_cmd cfg env Q_delete_all false w = (Return PyNone, w1)
    /\ healthy (db w1) []
    /\ sent (snd (get_skey cfg env msa h true w1)) = login_request cfg msa h :: sent w.
Proof.
  intros H. (rewrite (sql_cmd_healthy _ _ _ _ _ _ H) by reflexivity).
  cbn [run_query negb fetchone].
  assert (H0 : healthy (db (set_table [] w)) []) by (apply (healthy_set_table w t); exact H).
  exists (set_table [] w). split; [reflexivity|]. split; [exact H0|].
  rewrite (get_skey_true _ _ _ _ _ _ H0). cbn [lookup filter hd_error].
  rewrite get_skey_login_sent. reflexivity.
Qed.

Lemma drop_cache_forces_login_witness :
  exists w1,
    sql_cmd Sample.cfg (Sample.env []) Q_delete_all false Sample.cached
    = (Return PyNone, w1)
    /\ healthy (db w1) []
    /\ sent (snd (get_skey Sample.cfg (Sample.env []) Sample.msa Sample.cred_hash true w1))
       = login_request Sample.cfg Sample.msa Sample.cred_hash :: sent Sample.cached.
Proof.
  apply (drop_cache_forces_login
           Sample.cfg (Sample.env []) Sample.msa Sample.cred_hash Sample.cached
           [Row "msa1" "10.0.0.5" "http" 150000000 "OLDKEY"]).
  repeat split.
Defined.

(** Assigning to a new key appends it. *)
Lemma sset_fresh {V} (d : list (string * V)) k v :
  ~ In k (map fst d) -> sset d k v = (d ++ [(k, v)])%list.
Proof.
  unfold sset. induction d as [|[k' v'] d IH]; cbn [setitem map fst In app]; intros N.
  - reflexivity.
  - destruct (String.eqb_spec k' k) as [->|]; [tauto|]. rewrite IH by tauto. reflexivity.
Qed.

Lemma lld_props_keys part props : forall d,
  NoDup (map fst d ++ map fst props) ->
  map fst (lld_props part props d) = (map fst d ++ map fst props)%list.
Proof.
  induction props as [|[m0 p] props IH]; intros d ND.
  - cbn. rewrite app_nil_r. reflexivity.
  - change (lld_props part ((m0, p) :: props) d)
      with (lld_props part props (sset d m0 (lld_value part [PROPERTY p]))).
    cbn [map fst] in ND.
    assert (F : ~ In m0 (map fst d)).
    { intros I. apply NoDup_remove_2 in ND. apply ND. apply in_or_app. tauto. }
    rewrite (sset_fresh d m0 _ F). rewrite IH; rewrite map_app; cbn [map fst];
      rewrite <- app_assoc; [reflexivity|exact ND].
Qed.

Lemma lld_entry_keys component props part :
  NoDup (map fst props) -> ~ In "{#PORT.SFP}" (map fst props) ->
  map fst (lld_entry component props part)
  = (map fst props
     ++ if String.eqb component "ports" then ["{#PORT.SFP}"] else [])%list.
Proof.
  intros ND NS. unfold lld_entry.
  assert (K : map fst (lld_props part props []) = map fst props)
    by (apply (lld_props_keys part props []); exact ND).
  destruct (String.eqb component "ports").
  - rewrite sset_fresh by (rewrite K; exact NS). rewrite map_app, K. reflexivity.
  - rewrite K, app_nil_r. reflexivity.
Qed.

(** X10: for each of the ten kinds and every answer with return
    code 0, [make_lld] returns one entry per instance of the answer, and
    every entry has exactly the macros of the kind, in the order of the
    table, followed by [{#PORT.SFP}] for the ports. *)
Theorem make_lld_entries_carry_every_macro
        cfg env msa component sk pretty w rd xml w' :
  In component (keys comp_names_map) ->
  query_xmlapi cfg env (show_url cfg msa component) sk w
  = (Return (Some "0", rd, xml), w') ->
  exists name props entries,
    sget comp_names_map component = Some name
    /\ sget comp_props_map component = Some props
    /\ make_lld cfg env msa component sk pretty w
       = (Return (dumps (JObject [("data", JArray (map json_of_metrics entries))])
                        pretty), w')
    /\ length entries = length (findall xml [OBJECT name])
    /\ Forall (fun entry =>
                 map fst entry
                 = (map fst props
                    ++ if String.eqb component "ports" then ["{#PORT.SFP}"] else [])%list)
              entries.
Proof.
  intros S Q.
  destruct (supported_component component S) as (name & props & N & P & ND & NS).
  exists name, props, (map (lld_entry component props) (findall xml [OBJECT name])).
  split; [exact N|]. split; [exact P|].
  split; [apply (make_lld_eq _ _ _ _ _ _ _ _ _ _ _ _ N P Q)|].
  split; [apply length_map|].
  apply Forall_map, Forall_forall. intros part _. apply lld_entry_keys; assumption.
Qed.

Lemma make_lld_entries_carry_every_macro_witness :
  exists name props entries,
    sget comp_names_map "ports" = Some name
    /\ sget comp_props_map "ports" = Some props
    /\ make_lld Sample.cfg (Sample.env (Sample.sfp "OK")) Sample.msa "ports"
                Sample.session None Sample.installed
       = (Return (dumps (JObject [("data", JArray (map json_of_metrics entries))]) None),
          Sample.shown "ports" Sample.installed)
    /\ length entries = length (findall (Sample.ports_answer (Sample.sfp "OK")) [OBJECT name])
    /\ Forall (fun entry =>
                 map fst entry
                 = (map fst props
                    ++ if String.eqb "ports" "ports" then ["{#PORT.SFP}"] else [])%list)
              entries.
Proof.
  apply (make_lld_entries_carry_every_macro
           Sample.cfg (Sample.env (Sample.sfp "OK")) Sample.msa "ports" Sample.session
           None Sample.installed (Some Sample.completed)
           (Sample.ports_answer (Sample.sfp "OK"))).
  - vm_compute. tauto.
  - reflexivity.
Defined.

Lemma sget_absent {V} (d : list (string * V)) k :
  ~ In k (keys d) -> sget d k = None.
Proof.
  unfold sget, keys. induction d as [|[k' v] d IH]; cbn [Py.get map fst In]; intros N.
  - reflexivity.
  - destruct (String.eqb_spec k' k); [tauto|]. apply IH. tauto.
Qed.

(** X11: for a component name outside the ten, on an answer with
    return code 0, [make_lld] ends with [KeyError] on the name, while
    [get_full_json] returns the empty object, with or without [human]. *)
Theorem unknown_component_lld_raises_full_is_empty
        cfg env msa component sk pretty human w rd xml w' :
  ~ In component (keys comp_names_map) ->
  query_xmlapi cfg env (show_url cfg msa component) sk w
  = (Return (Some "0", rd, xml), w') ->
  make_lld cfg env msa component sk pretty w = (Raise (KeyError (Some component)), w')
  /\ get_full_json cfg env msa component sk pretty human w
     = (Return (dumps (JObject []) pretty), w').
Proof.
  intros N Q. split.
  - unfold make_lld. fold (show_url cfg msa component). unfold bind at 1. rewrite Q.
    cbn [eq_str String.eqb Ascii.eqb Bool.eqb negb]. cbv iota.
    unfold bind, lift, lld_components, getitem. rewrite (sget_absent _ _ N). reflexivity.
  - rewrite (get_full_json_eq _ _ _ _ _ _ _ _ _ _ _ Q).
    unfold full_components. cbn in N.
    repeat match goal with
           | |- context [String.eqb component ?lit] =>
               destruct (String.eqb_spec component lit); [exfalso; subst; tauto|]
           end.
    destruct human; reflexivity.
Qed.

Lemma unknown_component_lld_raises_full_is_empty_witness :
  make_lld Sample.cfg (Example.env []) Sample.msa "system" Sample.session None
           Sample.installed
  = (Raise (KeyError (Some "system")), Sample.shown "system" Sample.installed)
  /\ get_full_json Sample.cfg (Example.env []) Sample.msa "system" Sample.session None
                   true Sample.installed
     = (Return (dumps (JObject []) None), Sample.shown "system" Sample.installed).
Proof.
  apply (unknown_component_lld_raises_full_is_empty
           Sample.cfg (Example.env []) Sample.msa "system" Sample.session None true
           Sample.installed (Some Sample.completed)
           (Sample.response [] "0" Sample.completed)).
  - cbn. intuition discriminate.
  - reflexivity.
Defined.

(** The dispatch of [get_full_json] on one of these names is the loop of
    the table. *)
Lemma full_components_pure cfg env conn sk component name body xml :
  sget pure_kinds component = Some (name, body) ->
  full_components cfg env conn sk component xml
  = lift (for_each (findall xml [OBJECT name]) body []).
Proof.
  unfold sget, pure_kinds. cbn [Py.get].
  repeat match goal with
         | |- (if String.eqb ?lit component then _ else _) = _ -> _ =>
             destruct (String.eqb_spec lit component) as [<-|];
             [intros E; injection E as <- <-; reflexivity|]
         end.
  discriminate.
Qed.

Ltac raises_at H :=
  unfold prop_text;
  repeat match goal with
         | |- rbind (text_of (find ?P ?p)) _ = Raise _ =>
             first [ rewrite H; reflexivity
                   | destruct (find P p); cbn [text_of rbind]; [|reflexivity] ]
         end.

(** X12: in full mode, for the kinds read without a second request
    other than the power supplies, an instance of the answer that lacks
    [health-numeric] makes the body of the loop end with [AttributeError]
    (the text of [None]), and [get_full_json] returns nothing for any
    instance. *)
Theorem full_mode_needs_health_numeric
        cfg env msa component name body sk pretty human w rd xml w' P :
  sget pure_kinds component = Some (name, body) ->
  component <> "power-supplies" ->
  query_xmlapi cfg env (show_url cfg msa component) sk w
  = (Return (Some "0", rd, xml), w') ->
  In P (findall xml [OBJECT name]) ->
  find P [PROPERTY "health-numeric"] = None ->
  (forall acc,
      body P acc = Raise (AttributeError "'NoneType' object has no attribute 'text'"))
  /\ exists e, get_full_json cfg env msa component sk pretty human w = (Raise e, w').
Proof.
  intros K NP Q I H.
  assert (R : forall acc,
             body P acc
             = Raise (AttributeError "'NoneType' object has no attribute 'text'")).
  { revert K. unfold sget, pure_kinds. cbn [Py.get].
    repeat match goal with
           | |- (if String.eqb ?lit component then _ else _) = _ -> _ =>
               destruct (String.eqb_spec lit component) as [<-|];
               [intros E; injection E as <- <-|]
           end; try discriminate; try contradiction; intros acc.
    - unfold full_disk. raises_at H.
    - unfold full_vdisk. raises_at H.
    - unfold full_pool. raises_at H.
    - unfold full_disk_group. raises_at H.
    - unfold full_volume. raises_at H.
    - unfold full_enclosure. raises_at H.
    - unfold full_fan. raises_at H.
    - unfold full_port. raises_at H. }
  split; [exact R|].
  rewrite (get_full_json_eq _ _ _ _ _ _ _ _ _ _ _ Q).
  rewrite (full_components_pure _ _ _ _ _ _ _ _ K).
  destruct (in_split _ _ I) as (pre & post & ->).
  destruct (for_each_raises body P (fun s => ex_intro _ _ (R s)) pre post [])
    as (e & F).
  unfold bind, lift. rewrite F. exists e. reflexivity.
Qed.

Lemma full_mode_needs_health_numeric_witness :
  (forall acc,
      full_disk Example.bare_disk acc
      = Raise (AttributeError "'NoneType' object has no attribute 'text'"))
  /\ exists e,
      get_full_json Sample.cfg (Example.env [Example.disk; Example.bare_disk]) Sample.msa
                    "disks" Sample.session None false Sample.installed
      = (Raise e, Sample.shown "disks" Sample.installed).
Proof.
  apply (full_mode_needs_health_numeric
           Sample.cfg (Example.env [Example.disk; Example.bare_disk]) Sample.msa
           "disks" "drive" full_disk Sample.session None false Sample.installed
           (Some Sample.completed)
           (Sample.response [Example.disk; Example.bare_disk] "0" Sample.completed)).
  - reflexivity.
  - discriminate.
  - reflexivity.
  - right. left. reflexivity.
  - reflexivity.
Defined.

(** X13: the metrics of a disk that has its location and
    [health-numeric] are [h] and, each exactly when the disk has the
    property, [t], [ts], [cj] and [poh] with the text of that property;
    there is no other key. *)
Theorem full_disk_optional_metrics PROP acc loc h :
  prop_text PROP "location" = Return loc ->
  prop_text PROP "health-numeric" = Return h ->
  exists d,
    full_disk PROP acc = Return (oset acc loc d)
    /\ sget d "h" = Some h
    /\ (forall k p,
           In (k, p) [ ("t", "temperature-numeric");
                       ("ts", "temperature-status-numeric");
                       ("cj", "job-running-numeric"); ("poh", "power-on-hours") ] ->
           sget d k = option_map text (find PROP [PROPERTY p]))
    /\ (forall k, In k (map fst d) -> In k ["h"; "t"; "ts"; "cj"; "poh"]).
Proof.
  intros L H. unfold full_disk. rewrite L, H. cbn [rbind].
  destruct (find PROP [PROPERTY "temperature-numeric"]) as [t|] eqn:F1;
    destruct (find PROP [PROPERTY "temperature-status-numeric"]) as [ts|] eqn:F2;
    destruct (find PROP [PROPERTY "job-running-numeric"]) as [cj|] eqn:F3;
    destruct (find PROP [PROPERTY "power-on-hours"]) as [poh|] eqn:F4;
    (eexists; split; [reflexivity|]; split; [reflexivity|]; split;
     [ intros k p I; cbn [In] in I;
       repeat (destruct I as [I|I];
               [injection I as <- <-; rewrite ?F1, ?F2, ?F3, ?F4; reflexivity|]);
       contradiction
     | cbn; tauto ]).
Qed.

Lemma full_disk_optional_metrics_witness :
  exists d,
    full_disk Example.disk [] = Return (oset [] (Some "1.1") d)
    /\ sget d "h" = Some (Some "0")
    /\ (forall k p,
           In (k, p) [ ("t", "temperature-numeric");
                       ("ts", "temperature-status-numeric");
                       ("cj", "job-running-numeric"); ("poh", "power-on-hours") ] ->
           sget d k = option_map text (find Example.disk [PROPERTY p]))
    /\ (forall k, In k (map fst d) -> In k ["h"; "t"; "ts"; "cj"; "poh"]).
Proof.
  apply (full_disk_optional_metrics Example.disk [] (Some "1.1") (Some "0"));
    reflexivity.
Defined.

Lemma rstrip_spec s c :
  (exists n, s = rstrip s c ++ replicate n c)
  /\ forall p, rstrip s c <> p ++ String c EmptyString.
Proof.
  induction s as [|a s ((n & E) & N)].
  - split; [exists 0%nat; reflexivity|]. intros [|b p]; discriminate.
  - cbn [rstrip]. destruct (rstrip s c) as [|b r] eqn:R.
    + cbn [append] in E. destruct (Ascii.eqb_spec a c) as [->|Nac].
      * split; [exists (S n); cbn; rewrite <- E; reflexivity|].
        intros [|b p]; discriminate.
      * split; [exists n; cbn; rewrite <- E; reflexivity|].
        intros [|b [|b' p]] X; cbn in X; try discriminate X.
        injection X as X. contradiction.
    + split; [exists n; cbn [append]; f_equal; exact E|].
      intros [|a' p] X; cbn in X; [discriminate X|].
      injection X as _ X. apply (N p). exact X.
Qed.

(** X14: the [cjp] metric of a disk group is never [None] and never
    ends in a per cent sign: it is the text of [current-job-completion]
    without its trailing per cent signs, and 0 when the property has no
    text. *)
Theorem full_disk_group_job_completion PROP acc R :
  full_disk_group PROP acc = Return R ->
  exists sn d v,
    R = oset acc sn d
    /\ sget d "cjp" = Some (Some v)
    /\ (forall p, v <> p ++ "%")
    /\ exists e,
        find PROP [PROPERTY "current-job-completion"] = Some e
        /\ match text e with
           | Some pct => exists n, pct = v ++ replicate n "%"
           | None => v = "0"
           end.
Proof.
  unfold full_disk_group, prop_text. intros H.
  repeat match type of H with
         | rbind (text_of (find ?P ?p)) _ = _ =>
             let e := fresh "e" in
             destruct (find P p) as [e|] eqn:?; cbn [text_of rbind] in H;
             [|discriminate H]
         end.
  injection H as <-.
  eexists _, _, _. split; [reflexivity|]. split; [reflexivity|].
  match goal with
  | F : find PROP [PROPERTY "current-job-completion"] = Some ?e |- _ =>
      destruct (text e) as [pct|] eqn:T
  end.
  - split; [apply rstrip_spec|]. eexists. split; [reflexivity|]. rewrite T.
    apply rstrip_spec.
  - split; [intros [|a [|b p]]; discriminate|]. eexists. split; [reflexivity|].
    rewrite T. reflexivity.
Qed.

Lemma full_disk_group_job_completion_witness :
  exists sn d v,
    Example.value_of (full_disk_group Example.disk_group []) [] = oset [] sn d
    /\ sget d "cjp" = Some (Some v)
    /\ (forall p, v <> p ++ "%")
    /\ exists e,
        find Example.disk_group [PROPERTY "current-job-completion"] = Some e
        /\ match text e with
           | Some pct => exists n, pct = v ++ replicate n "%"
           | None => v = "0"
           end.
Proof.
  apply (full_disk_group_job_completion
           Example.disk_group []
           (Example.value_of (full_disk_group Example.disk_group []) [])).
  reflexivity.
Defined.

Lemma oset_keys {V} (d : list (option string * V)) k v :
  map fst (oset d k v)
  = (map fst d ++ if existsb (eqb_opt k) (map fst d) then [] else [k])%list.
Proof.
  unfold oset. induction d as [|[k' v'] d IH]; cbn [setitem map fst existsb app].
  - reflexivity.
  - destruct (eqb_opt k' k) eqn:E.
    + apply eqb_opt_eq in E. subst k'.
      assert (R : eqb_opt k k = true) by (apply eqb_opt_eq; reflexivity).
      rewrite R. cbn. rewrite app_nil_r. reflexivity.
    + assert (R : eqb_opt k k' = false).
      { destruct (eqb_opt k k') eqn:X; [|reflexivity].
        apply eqb_opt_eq in X. subst k'.
        assert (eqb_opt k k = true) by (apply eqb_opt_eq; reflexivity). congruence. }
      rewrite R. cbn [map fst orb]. rewrite IH. reflexivity.
Qed.

Lemma existsb_eqb_opt k l : existsb (eqb_opt k) l = true <-> In k l.
Proof.
  rewrite existsb_exists. split.
  - intros (x & I & E). apply eqb_opt_eq in E. subst. exact I.
  - intros I. exists k. split; [exact I|apply eqb_opt_eq; reflexivity].
Qed.

Lemma oset_NoDup {V} (d : list (option string * V)) k v :
  NoDup (map fst d) -> NoDup (map fst (oset d k v)).
Proof.
  intros ND. rewrite oset_keys. destruct (existsb (eqb_opt k) (map fst d)) eqn:E.
  - rewrite app_nil_r. exact ND.
  - apply NoDup_app; [exact ND|repeat constructor; intros []|].
    intros x I [<-|[]]. apply existsb_eqb_opt in I. congruence.
Qed.

Lemma oset_fresh {V} (d : list (option string * V)) k v :
  ~ In k (map fst d) -> oset d k v = (d ++ [(k, v)])%list.
Proof.
  unfold oset. induction d as [|[k' v'] d IH]; cbn [setitem map fst In app]; intros N.
  - reflexivity.
  - destruct (eqb_opt k' k) eqn:E; [apply eqb_opt_eq in E; tauto|].
    rewrite IH by tauto. reflexivity.
Qed.

Lemma oset_Forall {V} (Q : V -> Prop) (d : list (option string * V)) k v :
  Forall (fun e => Q (snd e)) d -> Q v -> Forall (fun e => Q (snd e)) (oset d k v).
Proof.
  unfold oset. intros F Hv. induction d as [|[k' v'] d IH]; cbn [setitem].
  - repeat constructor. exact Hv.
  - inversion F as [|? ? Hx Hd]; subst. destruct (eqb_opt k' k).
    + constructor; [exact Hv|exact Hd].
    + constructor; [exact Hx|apply IH; exact Hd].
Qed.

Lemma oset_not_nil {V} (d : list (option string * V)) k v : oset d k v <> [].
Proof. destruct d as [|[k' v'] d]; cbn; [|destruct (eqb_opt k' k)]; discriminate. Qed.

(** A loop whose body leaves the dictionary or assigns one instance to it
    keeps the instance keys distinct, and keeps what holds of every
    assigned value. *)
Lemma for_each_oset (Q : metrics -> Prop)
      (body : element -> components -> result components) parts :
  (forall P acc r, body P acc = Return r ->
                   r = acc \/ exists k d, r = oset acc k d /\ Q d) ->
  forall acc r,
    for_each parts body acc = Return r ->
    NoDup (map fst acc) -> Forall (fun e => Q (snd e)) acc ->
    NoDup (map fst r) /\ Forall (fun e => Q (snd e)) r.
Proof.
  intros St. induction parts as [|P parts IH]; intros acc r H ND F; cbn [for_each] in H.
  - injection H as <-. split; assumption.
  - destruct (body P acc) as [acc'|e] eqn:B; cbn [rbind] in H; [|discriminate].
    destruct (St P acc acc' B) as [->|(k & d & -> & Qd)].
    + apply (IH acc r H ND F).
    + apply (IH _ r H); [apply oset_NoDup; exact ND|apply oset_Forall; assumption].
Qed.

Ltac finds_in H :=
  unfold prop_text in H;
  repeat match type of H with
         | rbind (text_of (find ?P ?p)) _ = _ =>
             destruct (find P p) eqn:?; cbn [text_of rbind] in H; [|discriminate H]
         end.

Ltac assigned := right; eexists _, _; split; [reflexivity|try reflexivity].

Lemma step_expandable component name body :
  sget pure_kinds component = Some (name, body) ->
  In component expanding_kinds ->
  forall P acc r, body P acc = Return r ->
                  r = acc \/ exists k d, r = oset acc k d /\ expandable d.
Proof.
  intros K I. cbn in I.
  repeat (destruct I as [<-|I]; [injection K as <- <-|]); [..|contradiction];
    intros P acc r H.
  - unfold full_disk in H. finds_in H.
    repeat match type of H with
           | context [find ?P ?p] => destruct (find P p)
           end;
      injection H as <-; assigned.
  - unfold full_vdisk in H. finds_in H. injection H as <-. assigned.
  - unfold full_enclosure in H. finds_in H. injection H as <-. assigned.
  - unfold full_power_supply in H. finds_in H.
    match type of H with
    | rbind (lower_of ?x) _ = _ =>
        destruct x; cbn [lower_of rbind] in H; [|discriminate H]
    end.
    match type of H with
    | (if ?c then _ else _) = _ => destruct c
    end; [|injection H as <-; left; reflexivity].
    finds_in H.
    repeat match type of H with
           | context [find ?P ?p] => destruct (find P p)
           end;
      injection H as <-; assigned.
  - unfold full_fan in H. finds_in H. injection H as <-. assigned.
Qed.

Lemma step_fails component name body key :
  sget pure_kinds component = Some (name, body) ->
  In (component, key) failing_kinds ->
  forall P acc r, body P acc = Return r ->
                  exists k d, r = oset acc k d /\ fails_on key d.
Proof.
  intros K I. cbn in I.
  repeat (destruct I as [I|I]; [injection I as <- <-; injection K as <- <-|]);
    [..|contradiction]; intros P acc r H.
  - unfold full_pool in H. finds_in H. injection H as <-.
    eexists _, _. split; reflexivity.
  - unfold full_disk_group in H. finds_in H. injection H as <-.
    eexists _, _. split; reflexivity.
  - unfold full_volume in H. finds_in H. injection H as <-.
    eexists _, _. split; reflexivity.
  - unfold full_port in H. finds_in H.
    repeat match type of H with
           | context [find ?P ?p] => destruct (find P p)
           end;
      cbn [text_of rbind] in H; try discriminate H;
      try match type of H with
          | context [sfp_status_code ?x] =>
              destruct (sfp_status_code x); cbn [rbind] in H; [|discriminate H]
          end;
      injection H as <-; eexists _, _; split; reflexivity.
Qed.

(** Either way the loop is of the kind [for_each_oset] speaks of. *)
Lemma step_pure component name body :
  sget pure_kinds component = Some (name, body) ->
  forall P acc r, body P acc = Return r ->
                  r = acc \/ exists k d, r = oset acc k d /\ True.
Proof.
  intros K P acc r H.
  assert (C : In component expanding_kinds \/ exists key, In (component, key) failing_kinds).
  { revert K. unfold sget, pure_kinds. cbn [Py.get].
    repeat match goal with
           | |- (if String.eqb ?lit component then _ else _) = _ -> _ =>
               destruct (String.eqb_spec lit component) as [<-|];
               [intros _; cbn; first [left; tauto | right; eexists; tauto]|]
           end.
    discriminate. }
  destruct C as [I|(key & I)].
  - destruct (step_expandable _ _ _ K I P acc r H) as [->|(k & d & -> & _)];
      [left; reflexivity|right; eauto].
  - destruct (step_fails _ _ _ _ K I P acc r H) as (k & d & -> & _). right. eauto.
Qed.

Lemma full_controller_step cfg env conn sk P acc w r w' :
  full_controller cfg env conn sk P acc w = (Return r, w') ->
  exists id d,
    prop_text P "controller-id" = Return id
    /\ r = oset acc id d
    /\ expandable d
    /\ sent w'
       = api_request cfg (conn ++ "/api/show/controller-statistics/" ++ str id) sk
         :: sent w
    /\ db w' = db w.
Proof.
  unfold full_controller, prop_text, bind, lift. intros H.
  destruct (find P [PROPERTY "controller-id"]) as [e1|]; cbn [text_of] in *;
    [|discriminate H].
  destruct (find P [PROPERTY "sc-fw"]) as [e2|]; cbn [text_of] in H; [|discriminate H].
  destruct (find P [PROPERTY "health-numeric"]) as [e3|]; cbn [text_of] in H;
    [|discriminate H].
  destruct (find P [PROPERTY "status-numeric"]) as [e4|]; cbn [text_of] in H;
    [|discriminate H].
  destruct (find P [PROPERTY "redundancy-status-numeric"]) as [e5|]; cbn [text_of] in H;
    [|discriminate H].
  match type of H with
  | context [query_xmlapi cfg env ?u sk w] =>
      destruct (query_xmlapi_keeps cfg env u sk w) as (S & D & _);
      destruct (query_xmlapi cfg env u sk w) as [[[[rc rd] sx]|e] w1];
      cbn [snd] in S, D; [|discriminate H]
  end.
  destruct (eq_str rc "0"); cbn [negb] in H; [|discriminate H].
  destruct (find sx [OBJECT "controller-statistics"; PROPERTY "cpu-load"]) as [c1|];
    cbn [text_of] in H; [|discriminate H].
  destruct (find sx [OBJECT "controller-statistics"; PROPERTY "iops"]) as [c2|];
    cbn [text_of] in H; [|discriminate H].
  unfold ret in H.
  destruct (find P [OBJECT_basetype "compact-flash"; PROPERTY "health-numeric"]);
    destruct (find P [OBJECT_basetype "compact-flash"; PROPERTY "status-numeric"]);
    injection H as <- <-;
    (eexists _, _; split; [reflexivity|]; split; [reflexivity|]; split;
     [reflexivity|]; split; [exact S|exact D]).
Qed.

Lemma for_each_py_controllers cfg env conn sk parts : forall acc w r w',
  for_each_py parts (full_controller cfg env conn sk) acc w = (Return r, w') ->
  NoDup (map fst acc) -> Forall (fun e => expandable (snd e)) acc ->
  NoDup (map fst r) /\ Forall (fun e => expandable (snd e)) r
  /\ db w' = db w
  /\ exists ids,
      Forall2 (fun P id => prop_text P "controller-id" = Return id) parts ids
      /\ sent w'
         = (rev (map (fun id =>
                        api_request cfg (conn ++ "/api/show/controller-statistics/"
                                         ++ str id) sk) ids)
            ++ sent w)%list.
Proof.
  induction parts as [|P parts IH]; intros acc w r w' H ND F; cbn [for_each_py] in H.
  - injection H as <- <-. repeat split; try assumption. exists []. split; constructor.
  - unfold bind in H.
    destruct (full_controller cfg env conn sk P acc w) as [[acc1|e] w1] eqn:B;
      [|discriminate H].
    destruct (full_controller_step _ _ _ _ _ _ _ _ _ B) as (id & d & I & -> & E & S & D).
    destruct (IH _ _ _ _ H (oset_NoDup _ _ _ ND) (oset_Forall _ _ _ _ F E))
      as (ND' & F' & D' & ids & A & S').
    split; [exact ND'|]. split; [exact F'|]. split; [congruence|].
    exists (id :: ids). split; [constructor; assumption|].
    rewrite S', S. cbn [map rev]. rewrite <- app_assoc. reflexivity.
Qed.

Lemma full_components_other cfg env conn sk component xml :
  sget pure_kinds component = None -> component <> "controllers" ->
  full_components cfg env conn sk component xml = ret [].
Proof.
  unfold sget, pure_kinds. cbn [Py.get]. intros K N. unfold full_components.
  repeat match type of K with
         | (if String.eqb ?lit component then _ else _) = _ =>
             destruct (String.eqb_spec lit component) as [<-|]; [discriminate K|]
         end.
  repeat match goal with
         | |- context [String.eqb component ?lit] =>
             destruct (String.eqb_spec component lit); [exfalso; congruence|]
         end.
  reflexivity.
Qed.

Lemma full_components_controllers cfg env conn sk xml :
  full_components cfg env conn sk "controllers" xml
  = for_each_py (findall xml [OBJECT "controllers"]) (full_controller cfg env conn sk) [].
Proof. reflexivity. Qed.

(** The run of [full_components], whatever the component: distinct
    instance keys. *)
Lemma full_components_keys cfg env conn sk component xml w comps w' :
  full_components cfg env conn sk component xml w = (Return comps, w') ->
  NoDup (map fst comps).
Proof.
  intros H. destruct (sget pure_kinds component) as [[name body]|] eqn:K.
  - rewrite (full_components_pure _ _ _ _ _ _ _ _ K) in H. unfold lift in H.
    injection H as H _.
    apply (for_each_oset (fun _ => True) body _ (step_pure _ _ _ K) [] comps H);
      constructor.
  - destruct (String.eqb_spec component "controllers") as [->|N].
    + rewrite full_components_controllers in H.
      apply (for_each_py_controllers _ _ _ _ _ _ _ _ _ H); constructor.
    + rewrite (full_components_other _ _ _ _ _ _ K N) in H. injection H as <- _.
      constructor.
Qed.

(** X16: when [get_full_json] returns for the controllers, it has
    sent, after the request for the component, exactly one statistics
    request per controller of the answer, in the order of the answer, each
    for the [controller-id] of its controller and with the same session
    key; the cache file is not touched, with or without [human]. *)
Theorem controllers_send_one_request_each
        cfg env msa sk pretty human w rd xml w' out w'' :
  query_xmlapi cfg env (show_url cfg msa "controllers") sk w
  = (Return (Some "0", rd, xml), w') ->
  get_full_json cfg env msa "controllers" sk pretty human w = (Return out, w'') ->
  db w'' = db w'
  /\ exists ids,
      Forall2 (fun P id => prop_text P "controller-id" = Return id)
              (findall xml [OBJECT "controllers"]) ids
      /\ sent w''
         = (rev (map (fun id =>
                        api_request cfg
                                    (msa_conn cfg msa
                                     ++ "/api/show/controller-statistics/" ++ str id)
                                    sk) ids)
            ++ sent w')%list.
Proof.
  intros Q G. rewrite (get_full_json_eq _ _ _ _ _ _ _ _ _ _ _ Q) in G.
  rewrite full_components_controllers in G. unfold bind in G.
  destruct (for_each_py (findall xml [OBJECT "controllers"])
                        (full_controller cfg env (msa_conn cfg msa) sk) [] w')
    as [[comps|e] w2] eqn:F; [|discriminate G].
  destruct (for_each_py_controllers _ _ _ _ _ _ _ _ _ F (NoDup_nil _) (Forall_nil _))
    as (_ & _ & D & ids & A & S).
  assert (W : w'' = w2).
  { destruct human; unfold lift, ret in G;
      [destruct (expand_dict comps)|]; congruence. }
  subst w''. split; [exact D|]. exists ids. split; assumption.
Qed.

Lemma controllers_send_one_request_each_witness :
  db (Example.left_by
        (get_full_json Sample.cfg (Example.env []) Sample.msa "controllers"
                       Sample.session None true)
        Sample.installed)
  = db (Sample.shown "controllers" Sample.installed)
  /\ exists ids,
      Forall2 (fun P id => prop_text P "controller-id" = Return id)
              (findall (Sample.response [Example.controller "A"; Example.controller "B"]
                                        "0" Sample.completed)
                       [OBJECT "controllers"]) ids
      /\ sent (Example.left_by
                 (get_full_json Sample.cfg (Example.env []) Sample.msa "controllers"
                                Sample.session None true)
                 Sample.installed)
         = (rev (map (fun id =>
                        api_request Sample.cfg
                                    (msa_conn Sample.cfg Sample.msa
                                     ++ "/api/show/controller-statistics/" ++ str id)
                                    Sample.session) ids)
            ++ sent (Sample.shown "controllers" Sample.installed))%list.
Proof.
  apply (controllers_send_one_request_each
           Sample.cfg (Example.env []) Sample.msa Sample.session None true
           Sample.installed (Some Sample.completed)
           (Sample.response [Example.controller "A"; Example.controller "B"] "0"
                            Sample.completed)
           (Sample.shown "controllers" Sample.installed)
           (Example.returned
              (get_full_json Sample.cfg (Example.env []) Sample.msa "controllers"
                             Sample.session None true)
              Sample.installed (dumps JNull None))).
  - reflexivity.
  - reflexivity.
Defined.

Lemma sget_In {V} (d : list (string * V)) k v : sget d k = Some v -> In (k, v) d.
Proof.
  unfold sget. induction d as [|[k' v'] d IH]; cbn [Py.get]; [discriminate|].
  destruct (String.eqb_spec k' k) as [->|]; intros H.
  - injection H as ->. left. reflexivity.
  - right. apply IH. exact H.
Qed.

Lemma sget_first {V} (d : list (string * V)) k v rest :
  ~ In k (map fst d) -> sget (d ++ (k, v) :: rest)%list k = Some v.
Proof.
  unfold sget. induction d as [|[k' v'] d IH]; cbn [Py.get map fst In app]; intros N.
  - rewrite String.eqb_refl. reflexivity.
  - destruct (String.eqb_spec k' k); [tauto|]. apply IH. tauto.
Qed.

Lemma sget_keys {V} (d : list (string * V)) k :
  In k (map fst d) -> exists v, sget d k = Some v.
Proof.
  unfold sget. induction d as [|[k' v'] d IH]; cbn [Py.get map fst In]; [intros []|].
  destruct (String.eqb_spec k' k); [eauto|]. intros [?|I]; [tauto|]. apply IH. exact I.
Qed.

Lemma snd_injective {A B} (d : list (A * B)) a a' b :
  NoDup (map snd d) -> In (a, b) d -> In (a', b) d -> a = a'.
Proof.
  induction d as [|[x y] d IH]; cbn [map snd In]; [intros _ []|].
  intros ND [E|I] [E'|I']; inversion ND as [|? ? N ND']; subst.
  - congruence.
  - injection E as -> ->. exfalso. apply N. apply (in_map snd _ _ I').
  - injection E' as -> ->. exfalso. apply N. apply (in_map snd _ _ I).
  - apply (IH ND' I I').
Qed.

(** No two short keys of the table have the same long name. *)
Lemma m_long_names_distinct : NoDup (map snd m).
Proof.
  unfold m. cbn [map snd].
  repeat (constructor;
          [cbn [In]; intros H;
           repeat (destruct H as [H|H]; [discriminate H|]); exact H|]).
  constructor.
Qed.

Lemma long_name_injective k k' :
  In k (keys m) -> In k' (keys m) -> long_name k = long_name k' -> k = k'.
Proof.
  intros I I' E. unfold long_name in E.
  destruct (sget_keys m k I) as (l & L). destruct (sget_keys m k' I') as (l' & L').
  rewrite L, L' in E. subst l'.
  apply (snd_injective m k k' l m_long_names_distinct); apply sget_In; assumption.
Qed.

(** The inner loop of [expand_dict] on metrics whose keys the table has. *)
Lemma expand_keys_known (ms : metrics) : forall post pre,
  ms = (pre ++ post)%list -> NoDup (map fst ms) ->
  (forall k, In k (map fst ms) -> In k (keys m)) ->
  for_each (keys post) (expand_key ms) (rename pre) = Return (rename ms).
Proof.
  induction post as [|[k v] post IH]; intros pre E ND Km; cbn [keys map fst for_each].
  - rewrite app_nil_r in E. subst. reflexivity.
  - assert (Ik : In k (map fst ms)).
    { subst ms. rewrite map_app. apply in_or_app. right. left. reflexivity. }
    assert (Nk : ~ In k (map fst pre)).
    { subst ms. rewrite map_app in ND. cbn [map fst] in ND.
      apply NoDup_remove_2 in ND. intros X. apply ND. apply in_or_app. left. exact X. }
    unfold expand_key at 1, getitem.
    assert (G : sget ms k = Some v) by (subst ms; apply sget_first; exact Nk).
    rewrite G. cbn [rbind].
    destruct (sget_keys m k (Km k Ik)) as (l & L). rewrite L. cbn [rbind].
    assert (F : sset (rename pre) l v = rename (pre ++ [(k, v)])%list).
    { unfold rename at 2. rewrite map_app. cbn [map fst snd].
      unfold long_name at 2. rewrite L. apply sset_fresh.
      unfold rename. rewrite map_map. cbn [fst]. intros X.
      apply in_map_iff in X. destruct X as ([k' v'] & X & I'). cbn [fst] in X.
      assert (k' = k).
      { apply long_name_injective.
        - apply Km. subst ms. rewrite map_app. apply in_or_app. left.
          apply (in_map fst _ _ I').
        - apply Km. exact Ik.
        - unfold long_name at 2. rewrite L. exact X. }
      subst k'. apply Nk. apply (in_map fst _ _ I'). }
    rewrite F. apply IH; [|exact ND|exact Km].
    rewrite <- app_assoc. exact E.
Qed.

Lemma expandable_known (ms : metrics) :
  NoDup (map fst ms) -> (forall k, In k (map fst ms) -> In k (keys m)) ->
  expandable ms.
Proof. intros ND Km. apply (expand_keys_known ms ms [] eq_refl ND Km). Qed.

Lemma expand_instances (d : components) : forall post pre,
  d = (pre ++ post)%list -> NoDup (map fst d) ->
  Forall (fun e => expandable (snd e)) d ->
  for_each post expand_instance (renamed pre) = Return (renamed d).
Proof.
  induction post as [|[id ms] post IH]; intros pre E ND F; cbn [for_each].
  - rewrite app_nil_r in E. subst. reflexivity.
  - assert (X : expandable ms).
    { rewrite Forall_forall in F. apply (F (id, ms)). subst d. apply in_or_app.
      right. left. reflexivity. }
    unfold expand_instance at 1. unfold expandable in X. rewrite X. cbn [rbind].
    assert (N : ~ In id (map fst (renamed pre))).
    { unfold renamed. rewrite map_map. cbn [fst]. subst d. rewrite map_app in ND.
      cbn [map fst] in ND. apply NoDup_remove_2 in ND. intros I. apply ND.
      apply in_or_app. left. exact I. }
    rewrite (oset_fresh _ _ _ N).
    replace (renamed pre ++ [(id, rename ms)])%list with (renamed (pre ++ [(id, ms)])%list)
      by (unfold renamed; rewrite map_app; reflexivity).
    apply IH; [|exact ND|exact F]. rewrite <- app_assoc. exact E.
Qed.

Lemma expand_dict_expandable (d : components) :
  NoDup (map fst d) -> Forall (fun e => expandable (snd e)) d ->
  expand_dict d = Return (renamed d).
Proof. intros ND F. apply (expand_instances d d [] eq_refl ND F). Qed.

(** X17: on a dictionary (no instance key twice, no metric key
    twice) whose metric keys are all in its table, [expand_dict] returns
    the same instances in the same order, each with its metrics in the
    same order under their long names: nothing is lost or merged. *)
Theorem expand_dict_renames_known_keys (d : components) :
  NoDup (map fst d) ->
  (forall id ms, In (id, ms) d ->
                 NoDup (map fst ms) /\ forall k, In k (map fst ms) -> In k (keys m)) ->
  expand_dict d = Return (renamed d).
Proof.
  intros ND H. apply expand_dict_expandable; [exact ND|].
  rewrite Forall_forall. intros [id ms] I. cbn [snd].
  destruct (H id ms I) as (N & Km). apply expandable_known; assumption.
Qed.

Lemma expand_dict_renames_known_keys_witness :
  expand_dict [ (Some "1.1", [("h", Some "0"); ("t", Some "35")]);
                (Some "1.2", [("h", Some "1")]) ]
  = Return [ (Some "1.1", [("health", Some "0"); ("temperature", Some "35")]);
             (Some "1.2", [("health", Some "1")]) ].
Proof.
  apply (expand_dict_renames_known_keys
           [ (Some "1.1", [("h", Some "0"); ("t", Some "35")]);
             (Some "1.2", [("h", Some "1")]) ]).
  - repeat constructor; cbn; intuition discriminate.
  - intros id ms I. cbn in I. destruct I as [E|[E|[]]]; injection E as <- <-;
      (split; [repeat constructor; cbn; intuition discriminate|]);
      intros k K; cbn in K; cbn; intuition.
Defined.

Lemma expanding_is_pure component :
  In component expanding_kinds -> exists name body, sget pure_kinds component = Some (name, body).
Proof.
  cbn. intros I. repeat (destruct I as [<-|I]; [eexists _, _; reflexivity|]).
  contradiction.
Qed.

Lemma full_components_expandable cfg env conn sk component xml w comps w' :
  In component expanding_kinds \/ component = "controllers" ->
  full_components cfg env conn sk component xml w = (Return comps, w') ->
  Forall (fun e => expandable (snd e)) comps.
Proof.
  intros [I| ->] H.
  - destruct (expanding_is_pure _ I) as (name & body & K).
    rewrite (full_components_pure _ _ _ _ _ _ _ _ K) in H. unfold lift in H.
    injection H as H _.
    apply (for_each_oset expandable body _ (step_expandable _ _ _ K I) [] comps H);
      constructor.
  - rewrite full_components_controllers in H.
    apply (for_each_py_controllers _ _ _ _ _ _ _ _ _ H); constructor.
Qed.

(** X18: for the disks, the vdisks, the enclosures, the power
    supplies, the fans and the controllers, whenever [get_full_json]
    returns without [human] it returns with [human] too, with the same
    instances and values under the long names, and leaves the same
    world. *)
Theorem human_names_rename_the_metrics
        cfg env msa component sk pretty w rd xml w' out w'' :
  In component expanding_kinds \/ component = "controllers" ->
  query_xmlapi cfg env (show_url cfg msa component) sk w
  = (Return (Some "0", rd, xml), w') ->
  get_full_json cfg env msa component sk pretty false w = (Return out, w'') ->
  exists comps,
    out = dumps (json_of_components comps) pretty
    /\ get_full_json cfg env msa component sk pretty true w
       = (Return (dumps (json_of_components (renamed comps)) pretty), w'').
Proof.
  intros I Q G. rewrite (get_full_json_eq _ _ _ _ _ _ true _ _ _ _ Q).
  rewrite (get_full_json_eq _ _ _ _ _ _ false _ _ _ _ Q) in G.
  unfold bind in *.
  destruct (full_components cfg env (msa_conn cfg msa) sk component xml w')
    as [[comps|e] w2] eqn:F; [|discriminate G].
  unfold ret in G. injection G as <- <-.
  exists comps. split; [reflexivity|].
  unfold lift. rewrite expand_dict_expandable; [reflexivity| |].
  - apply (full_components_keys _ _ _ _ _ _ _ _ _ F).
  - apply (full_components_expandable _ _ _ _ _ _ _ _ _ I F).
Qed.

Lemma human_names_rename_the_metrics_witness :
  exists comps,
    Example.returned
      (get_full_json Sample.cfg (Example.env [Example.disk]) Sample.msa "disks"
                     Sample.session None false)
      Sample.installed (dumps JNull None)
    = dumps (json_of_components comps) None
    /\ get_full_json Sample.cfg (Example.env [Example.disk]) Sample.msa "disks"
                     Sample.session None true Sample.installed
       = (Return (dumps (json_of_components (renamed comps)) None),
          Sample.shown "disks" Sample.installed).
Proof.
  apply (human_names_rename_the_metrics
           Sample.cfg (Example.env [Example.disk]) Sample.msa "disks" Sample.session None
           Sample.installed (Some Sample.completed)
           (Sample.response [Example.disk] "0" Sample.completed)
           (Sample.shown "disks" Sample.installed)).
  - left. left. reflexivity.
  - reflexivity.
  - reflexivity.
Defined.

Lemma for_each_not_nil (body : element -> components -> result components) :
  (forall P acc r, body P acc = Return r -> r <> []) ->
  forall parts acc r, for_each parts body acc = Return r ->
                      parts <> [] \/ acc <> [] -> r <> [].
Proof.
  intros St. induction parts as [|P parts IH]; intros acc r H C; cbn [for_each] in H.
  - injection H as <-. destruct C as [C|C]; [congruence|exact C].
  - destruct (body P acc) as [acc'|e] eqn:B; cbn [rbind] in H; [|discriminate].
    apply (IH _ _ H). right. apply (St _ _ _ B).
Qed.

(** X19: for the pools, the disk groups, the volumes and the ports,
    whenever [get_full_json] returns without [human] on an answer with at
    least one instance, the same call with [human] ends with [KeyError] on
    the first key of the kind that the table of [expand_dict] lacks ([hc],
    [bs], [szn], [pt]). *)
Theorem human_names_fail_on_unlisted_keys
        cfg env msa component key name body sk pretty w rd xml w' out w'' :
  In (component, key) failing_kinds ->
  sget pure_kinds component = Some (name, body) ->
  query_xmlapi cfg env (show_url cfg msa component) sk w
  = (Return (Some "0", rd, xml), w') ->
  findall xml [OBJECT name] <> [] ->
  get_full_json cfg env msa component sk pretty false w = (Return out, w'') ->
  get_full_json cfg env msa component sk pretty true w
  = (Raise (KeyError (Some key)), w').
Proof.
  intros I K Q NE G. rewrite (get_full_json_eq _ _ _ _ _ _ true _ _ _ _ Q).
  rewrite (get_full_json_eq _ _ _ _ _ _ false _ _ _ _ Q) in G.
  rewrite (full_components_pure _ _ _ _ _ _ _ _ K) in *. unfold bind, lift in *.
  destruct (for_each (findall xml [OBJECT name]) body []) as [comps|e] eqn:F;
    [|discriminate G].
  clear G.
  assert (St := step_fails _ _ _ _ K I).
  assert (A : Forall (fun e => fails_on key (snd e)) comps).
  { apply (for_each_oset (fails_on key) body _
                         (fun P acc r H => or_intror (St P acc r H)) [] comps F);
      constructor. }
  assert (N : comps <> []).
  { apply (for_each_not_nil body) with (parts := findall xml [OBJECT name]) (acc := []).
    - intros P acc r H. destruct (St P acc r H) as (k & d & -> & _). apply oset_not_nil.
    - exact F.
    - left. exact NE. }
  destruct comps as [|[id ms] comps]; [congruence|].
  inversion A as [|? ? Hf _]; subst. cbn [snd] in Hf. unfold fails_on in Hf.
  unfold expand_dict. cbn [for_each]. unfold expand_instance at 1. rewrite Hf.
  reflexivity.
Qed.

Lemma human_names_fail_on_unlisted_keys_witness :
  get_full_json Sample.cfg (Example.env []) Sample.msa "disk-groups" Sample.session None
                true Sample.installed
  = (Raise (KeyError (Some "bs")), Sample.shown "disk-groups" Sample.installed).
Proof.
  apply (human_names_fail_on_unlisted_keys
           Sample.cfg (Example.env []) Sample.msa "disk-groups" "bs" "disk-group"
           full_disk_group Sample.session None Sample.installed (Some Sample.completed)
           (Sample.response [Example.disk_group] "0" Sample.completed)
           (Sample.shown "disk-groups" Sample.installed)
           (Example.returned
              (get_full_json Sample.cfg (Example.env []) Sample.msa "disk-groups"
                             Sample.session None false)
              Sample.installed (dumps JNull None))
           (Sample.shown "disk-groups" Sample.installed)).
  - right. left. reflexivity.
  - reflexivity.
  - reflexivity.
  - discriminate.
  - reflexivity.
Defined.

(** ** make_cred_hash *)

Lemma readline_app a b :
  all_chars (fun c => negb (is_line_end c)) a = true ->
  readline (a ++ b) = (a ++ readline b)%string.
Proof.
  induction a as [|c a IH]; cbn [all_chars append readline]; intros H; [reflexivity|].
  apply andb_prop in H. destruct H as (Hc & Ha).
  destruct (is_line_end c); [discriminate Hc|]. rewrite (IH Ha). reflexivity.
Qed.

Lemma readline_end s :
  line_end_and_more s -> readline s = "" \/ readline s = String LF "".
Proof.
  destruct s as [|c s]; cbn [line_end_and_more readline]; [left; reflexivity|].
  intros ->. right. reflexivity.
Qed.

Lemma remove_char_app a b c :
  remove_char (a ++ b) c = (remove_char a c ++ remove_char b c)%string.
Proof.
  induction a as [|x a IH]; cbn [append remove_char]; [reflexivity|].
  destruct (Ascii.eqb x c); [exact IH|]. cbn [append]. rewrite IH. reflexivity.
Qed.

Lemma remove_LF_line a :
  all_chars (fun c => negb (is_line_end c)) a = true -> remove_char a LF = a.
Proof.
  induction a as [|x a IH]; cbn [all_chars remove_char]; intros H; [reflexivity|].
  apply andb_prop in H. destruct H as (Hx & Ha). rewrite (IH Ha).
  destruct (Ascii.eqb_spec x LF) as [->|]; [discriminate Hx|reflexivity].
Qed.

Lemma blank_line a :
  all_chars blank a = true -> all_chars (fun c => negb (is_line_end c)) a = true.
Proof.
  induction a as [|x a IH]; cbn [all_chars]; intros H; [reflexivity|].
  apply andb_prop in H. destruct H as (Hx & Ha). rewrite (IH Ha).
  unfold blank in Hx. apply andb_prop in Hx. destruct Hx as (_ & ->). reflexivity.
Qed.

Lemma lstrip_blank a s : all_chars blank a = true -> lstrip (a ++ s) = lstrip s.
Proof.
  induction a as [|x a IH]; cbn [all_chars append lstrip]; intros H; [reflexivity|].
  apply andb_prop in H. destruct H as (Hx & Ha).
  unfold blank in Hx. apply andb_prop in Hx. destruct Hx as (-> & _). apply IH, Ha.
Qed.

Lemma rstrip_space_blank a : all_chars blank a = true -> rstrip_space a = "".
Proof.
  induction a as [|x a IH]; cbn [all_chars rstrip_space]; intros H; [reflexivity|].
  apply andb_prop in H. destruct H as (Hx & Ha). rewrite (IH Ha).
  unfold blank in Hx. apply andb_prop in Hx. destruct Hx as (-> & _). reflexivity.
Qed.

Lemma rstrip_space_app s a :
  all_chars blank a = true -> rstrip_space (s ++ a) = rstrip_space s.
Proof.
  intros H. induction s as [|x s IH]; cbn [append rstrip_space].
  - apply rstrip_space_blank, H.
  - rewrite IH. reflexivity.
Qed.

Lemma lstrip_fixed_app s a : lstrip s = s -> s <> "" -> lstrip (s ++ a) = (s ++ a)%string.
Proof.
  destruct s as [|x s]; [congruence|]. cbn [lstrip append]. intros H _.
  destruct (isspace x); [|reflexivity].
  exfalso. assert (L : forall t, (String.length (lstrip t) <= String.length t)%nat).
  { induction t as [|y t IH]; cbn [lstrip String.length]; [lia|].
    destruct (isspace y); cbn [String.length]; lia. }
  specialize (L s). rewrite H in L. cbn [String.length] in L. lia.
Qed.

(** What the script makes of the first line of a credentials file. *)
Lemma login_data_of_file pad1 login pad2 more :
  all_chars blank pad1 = true -> all_chars blank pad2 = true ->
  bare_line login -> line_end_and_more more ->
  strip (remove_char (readline (pad1 ++ login ++ pad2 ++ more)) LF) = login.
Proof.
  intros B1 B2 (L & Sl & Sr) E.
  rewrite (readline_app _ _ (blank_line _ B1)), (readline_app _ _ L),
    (readline_app _ _ (blank_line _ B2)).
  rewrite !remove_char_app.
  rewrite (remove_LF_line _ (blank_line _ B1)), (remove_LF_line _ L),
    (remove_LF_line _ (blank_line _ B2)).
  assert (R : remove_char (readline more) LF = "")
    by (destruct (readline_end _ E) as [-> | ->]; reflexivity).
  rewrite R. unfold strip. rewrite (lstrip_blank _ _ B1).
  assert (A : forall s, (s ++ "")%string = s)
    by (induction s as [|x s IH]; cbn [append]; [|rewrite IH]; reflexivity).
  rewrite A. destruct login as [|x login].
  - cbn [append]. rewrite <- (A pad2), (lstrip_blank _ _ B2). reflexivity.
  - rewrite (lstrip_fixed_app _ _ Sl) by discriminate.
    rewrite (rstrip_space_app _ _ B2). exact Sr.
Qed.

(** X20: of a credentials file [make_cred_hash] reads the first
    line only, without its line end and the blanks around the login: when
    the login holds an underscore the result is the digest of the login,
    the same as for the login given on the command line; otherwise the
    line is taken for a digest and returned as it is. *)
Theorem make_cred_hash_reads_one_login_line
        md5_hexdigest read_text file pad1 login pad2 more :
  read_text file = Some (pad1 ++ login ++ pad2 ++ more)%string ->
  all_chars blank pad1 = true -> all_chars blank pad2 = true ->
  bare_line login -> line_end_and_more more ->
  make_cred_hash md5_hexdigest read_text file true
  = Return (if contains login "_" then md5_hexdigest login else login)
  /\ (contains login "_" = true ->
      make_cred_hash md5_hexdigest read_text file true
      = make_cred_hash md5_hexdigest read_text login false).
Proof.
  intros F B1 B2 L E.
  assert (M : make_cred_hash md5_hexdigest read_text file true
              = Return (if contains login "_" then md5_hexdigest login else login)).
  { unfold make_cred_hash. rewrite F.
    rewrite (login_data_of_file _ _ _ _ B1 B2 L E). unfold contains.
    destruct (negb (Py.find login "_" =? -1)%Z); reflexivity. }
  split; [exact M|]. intros C. rewrite M, C. reflexivity.
Qed.

Lemma make_cred_hash_reads_one_login_line_witness :
  make_cred_hash Example.digest Example.read_text "/etc/zabbix/msa.cred" true
  = Return "md5(monitor_!monitor)"
  /\ (contains "monitor_!monitor" "_" = true ->
      make_cred_hash Example.digest Example.read_text "/etc/zabbix/msa.cred" true
      = make_cred_hash Example.digest Example.read_text "monitor_!monitor" false).
Proof.
  apply (make_cred_hash_reads_one_login_line
           Example.digest Example.read_text "/etc/zabbix/msa.cred"
           " " "monitor_!monitor" "  " (Example.CRLF ++ "second line")).
  - reflexivity.
  - reflexivity.
  - reflexivity.
  - repeat split.
  - reflexivity.
Defined.

(** ** The lld and full commands *)

Lemma bears_ret cfg sk {A} (a : A) : bears cfg sk (ret a).
Proof. intros w. split; [reflexivity|]. exists []. split; [reflexivity|constructor]. Qed.

Lemma bears_raise cfg sk {A} e : bears cfg sk (@raise A e).
Proof. intros w. split; [reflexivity|]. exists []. split; [reflexivity|constructor]. Qed.

Lemma bears_lift cfg sk {A} (r : result A) : bears cfg sk (lift r).
Proof. intros w. split; [reflexivity|]. exists []. split; [reflexivity|constructor]. Qed.

Lemma bears_bind cfg sk {A B} (c : py A) (k : A -> py B) :
  bears cfg sk c -> (forall a, bears cfg sk (k a)) -> bears cfg sk (bind c k).
Proof.
  intros Hc Hk w. unfold bind. destruct (Hc w) as (D & more & S & F).
  destruct (c w) as [[a|e] w1]; cbn [snd] in *.
  - destruct (Hk a w1) as (D' & more' & S' & F'). split; [congruence|].
    exists (more' ++ more)%list. split.
    + rewrite S', S. apply app_assoc.
    + apply Forall_app. split; assumption.
  - split; [exact D|]. exists more. split; assumption.
Qed.

Lemma bears_query_xmlapi cfg env url sk : bears cfg sk (query_xmlapi cfg env url sk).
Proof.
  intros w. destruct (query_xmlapi_keeps cfg env url sk w) as (S & D & _).
  split; [exact D|]. exists [api_request cfg url sk]. split; [exact S|].
  constructor; [exists url; reflexivity|constructor].
Qed.

Lemma bears_for_each_py cfg sk {A S} (body : A -> S -> py S) xs :
  (forall x s, bears cfg sk (body x s)) -> forall s, bears cfg sk (for_each_py xs body s).
Proof.
  intros Hb. induction xs as [|x xs IH]; intros s; cbn [for_each_py].
  - apply bears_ret.
  - apply bears_bind; [apply Hb|exact IH].
Qed.

Lemma bears_full_controller cfg env conn sk P acc :
  bears cfg sk (full_controller cfg env conn sk P acc).
Proof.
  unfold full_controller.
  repeat (apply bears_bind; [apply bears_lift|intros ?]).
  apply bears_bind; [apply bears_query_xmlapi|intros [[rc rd] sx]].
  destruct (negb (eq_str rc "0")); [apply bears_raise|].
  repeat (apply bears_bind; [apply bears_lift|intros ?]).
  apply bears_ret.
Qed.

Lemma bears_full_components cfg env conn sk component xml :
  bears cfg sk (full_components cfg env conn sk component xml).
Proof.
  unfold full_components.
  repeat match goal with
         | |- bears _ _ (if ?c then _ else _) => destruct c
         end;
    try apply bears_lift; try apply bears_ret.
  apply bears_for_each_py. intros P acc. apply bears_full_controller.
Qed.

(** After the request for the component, a command sends nothing but
    requests with the same session key. *)
Lemma command_sends cfg env cmd msa part sk pretty human w :
  let c := match cmd with
           | lld => make_lld cfg env msa part sk pretty
           | full => get_full_json cfg env msa part sk pretty human
           end in
  db (snd (c w)) = db w
  /\ exists more,
      sent (snd (c w))
      = (more ++ api_request cfg (show_url cfg msa part) sk :: sent w)%list
      /\ Forall (fun r => exists url, r = api_request cfg url sk) more.
Proof.
  assert (G : forall (k : option string * option string * element -> py json_text),
             (forall a, bears cfg sk (k a)) ->
             let c := bind (query_xmlapi cfg env (show_url cfg msa part) sk) k in
             db (snd (c w)) = db w
             /\ exists more,
                 sent (snd (c w))
                 = (more ++ api_request cfg (show_url cfg msa part) sk :: sent w)%list
                 /\ Forall (fun r => exists url, r = api_request cfg url sk) more).
  { intros k Hk. cbn zeta. unfold bind.
    destruct (query_xmlapi_keeps cfg env (show_url cfg msa part) sk w) as (S & D & _).
    destruct (query_xmlapi cfg env (show_url cfg msa part) sk w) as [[a|e] w1];
      cbn [snd] in *.
    - destruct (Hk a w1) as (D' & more & S' & F). split; [congruence|].
      exists more. split; [rewrite S', S; reflexivity|exact F].
    - split; [exact D|]. exists []. split; [exact S|constructor]. }
  destruct cmd; cbn zeta.
  - apply G. intros [[rc rd] xml].
    destruct (negb (eq_str rc "0")); [apply bears_raise|].
    apply bears_bind; [apply bears_lift|intros ?; apply bears_ret].
  - apply G. intros [[rc rd] xml].
    destruct (negb (eq_str rc "0")); [apply bears_raise|].
    apply bears_bind; [apply bears_full_components|intros comps].
    apply bears_bind; [destruct human; [apply bears_lift|apply bears_ret]|].
    intros ?. apply bears_ret.
Qed.

(** X21: the main block hands whatever [get_skey] returned to the
    command, unchecked: the request for the component is sent with it as
    session key (the code 2 of a refused login, [None]), every further
    request bears it too, and the cache file stays as [get_skey] left
    it. *)
Theorem session_key_is_passed_on_unchecked
        cfg env cmd msa part h pretty human w skey w1 :
  get_skey cfg env msa h true w = (Return skey, w1) ->
  let w2 := snd (main_lld_full cfg env cmd msa part h pretty human w) in
  db w2 = db w1
  /\ exists more,
      sent w2 = (more ++ api_request cfg (show_url cfg msa part) skey :: sent w1)%list
      /\ Forall (fun r => exists url, r = api_request cfg url skey) more.
Proof.
  intros G. cbn zeta. unfold main_lld_full, bind. rewrite G.
  apply (command_sends cfg env cmd msa part skey pretty human w1).
Qed.

Lemma session_key_is_passed_on_unchecked_witness :
  db (snd (main_lld_full Sample.cfg Sample.env_refused lld Sample.msa "ports"
                         Sample.cred_hash None false Sample.installed))
  = db Sample.installed
  /\ exists more,
      sent (snd (main_lld_full Sample.cfg Sample.env_refused lld Sample.msa "ports"
                               Sample.cred_hash None false Sample.installed))
      = (more
         ++ [ api_request Sample.cfg (show_url Sample.cfg Sample.msa "ports") (Some "2");
              login_request Sample.cfg Sample.msa Sample.cred_hash ])%list
      /\ Forall (fun r => exists url, r = api_request Sample.cfg url (Some "2")) more.
Proof.
  apply (session_key_is_passed_on_unchecked
           Sample.cfg Sample.env_refused lld Sample.msa "ports" Sample.cred_hash None
           false Sample.installed (Some "2")
           (sending (login_request Sample.cfg Sample.msa Sample.cred_hash)
                    (tick Sample.installed))).
  reflexivity.
Defined.
